(** * Lecture Voice-to-Notes: a shallow embedding of the processing pipeline

    The development follows the Python sources:
    - [Py]: the fragment of the Python data model the services rely on
      (strings as sequences of code points, exceptions, JSON values and the
      container protocol on them);
    - [GeminiService]: [app/services/gemini_service.py];
    - [AssemblyAIService]: [app/services/stt_service.py];
    - [Main]: the endpoints of [app/main.py] over an explicit store. *)

From Stdlib Require Import ZArith NArith QArith List Ascii String SpecFloat DecimalString Lia.
From stdpp Require Import base decidable option list sorting gmap.

Local Open Scope Z_scope.
Set Warnings "-register-all".

(* ===================================================================== *)
(** ** Python values                                                      *)
(* ===================================================================== *)

Module Py.

(** A Python [str] is a sequence of Unicode code points. *)
Definition pystr : Type := list N.

(** A source literal (the literals of the sources used below are ASCII). *)
Definition lit (s : string) : pystr :=
  List.map N_of_ascii (list_ascii_of_string s).

(** [len(s)] *)
Definition len {A} (l : list A) : Z := Z.of_nat (length l).

(** [s[:n]] for a non-negative [n]. *)
Definition slice_to {A} (n : Z) (l : list A) : list A := take (Z.to_nat n) l.

(** [str.isspace] on one character: CPython's [_PyUnicode_IsWhitespace].
    The same class is what [\s] means in a [str] pattern of [re]. *)
Definition isspace (c : N) : bool :=
  ((9 <=? c) && (c <=? 13) || (28 <=? c) && (c <=? 32)
   || (c =? 133) || (c =? 160) || (c =? 5760)
   || (8192 <=? c) && (c <=? 8202)
   || (c =? 8232) || (c =? 8233) || (c =? 8239) || (c =? 8287)
   || (c =? 12288))%N.

Fixpoint lstrip (s : pystr) : pystr :=
  match s with
  | c :: s' => if isspace c then lstrip s' else s
  | [] => []
  end.

Definition rstrip (s : pystr) : pystr := rev (lstrip (rev s)).

(** [s.strip()] *)
Definition strip (s : pystr) : pystr := rstrip (lstrip s).

(** [s.split()]: the maximal runs of non-whitespace characters, in order.
    [cur] is the run being read, most recent character first. *)
Fixpoint split_from (cur : pystr) (s : pystr) : list pystr :=
  match s with
  | [] => match cur with [] => [] | _ => [rev cur] end
  | c :: s' =>
      if isspace c
      then match cur with
           | [] => split_from [] s'
           | _ => rev cur :: split_from [] s'
           end
      else split_from (c :: cur) s'
  end.

Definition split (s : pystr) : list pystr := split_from [] s.

(** [sep.join(ws)] *)
Fixpoint join (sep : pystr) (ws : list pystr) : pystr :=
  match ws with
  | [] => []
  | [w] => w
  | w :: ws' => w ++ sep ++ join sep ws'
  end.

Fixpoint take_while (f : N → bool) (s : pystr) : pystr :=
  match s with
  | c :: s' => if f c then c :: take_while f s' else []
  | [] => []
  end.

Definition str_eqb (a b : pystr) : bool := bool_decide (a = b).

Fixpoint startswith (p s : pystr) : bool :=
  match p, s with
  | [], _ => true
  | a :: p', b :: s' => (a =? b)%N && startswith p' s'
  | _ :: _, [] => false
  end.

(** [p in s] for two strings: [p] occurs in [s] as a contiguous run. *)
Fixpoint is_substring (p s : pystr) : bool :=
  startswith p s ||
  match s with
  | [] => false
  | _ :: s' => is_substring p s'
  end.

(** *** Exceptions

    An exception is its class and [str(e)]. *)
Record exn := Exn { exn_class : string; exn_msg : pystr }.

Inductive result (A : Type) : Type :=
| Ok (a : A)
| Raise (e : exn).
Arguments Ok {A} a.
Arguments Raise {A} e.

Global Instance result_ret : MRet result := @Ok.
Global Instance result_bind : MBind result := λ A B f m,
  match m with
  | Ok a => f a
  | Raise e => Raise e
  end.

(** [try: body  except Exception as e: handler(e)] *)
Definition try_except {A} (body : result A) (handler : exn → result A) : result A :=
  match body with
  | Ok a => Ok a
  | Raise e => handler e
  end.

Definition raises {A} (r : result A) : bool :=
  match r with Ok _ => false | Raise _ => true end.

(** *** JSON values, as [json.loads] builds them

    Objects are [dict]s: the pairs are kept in insertion order, which is the
    order in which a [dict] is iterated. Floats are IEEE doubles. *)
Inductive json : Type :=
| JNull
| JBool (b : bool)
| JInt (z : Z)
| JFloat (f : spec_float)
| JStr (s : pystr)
| JArr (l : list json)
| JObj (kvs : list (pystr * json)).

Definition dict : Type := list (pystr * json).

(** [d.get(k)] on the pairs of a dict. *)
Fixpoint dict_get (k : pystr) (d : dict) : option json :=
  match d with
  | [] => None
  | (k', v) :: d' => if str_eqb k' k then Some v else dict_get k d'
  end.

(** [d[k] = v]: an existing key keeps its place, a new key goes last. *)
Fixpoint dict_set (k : pystr) (v : json) (d : dict) : dict :=
  match d with
  | [] => [(k, v)]
  | (k', v') :: d' =>
      if str_eqb k' k then (k', v) :: d' else (k', v') :: dict_set k v d'
  end.

Definition dict_mem (k : pystr) (d : dict) : bool :=
  match dict_get k d with Some _ => true | None => false end.

(** [type(v).__name__] *)
Definition type_name (v : json) : pystr :=
  match v with
  | JNull => lit "NoneType"
  | JBool _ => lit "bool"
  | JInt _ => lit "int"
  | JFloat _ => lit "float"
  | JStr _ => lit "str"
  | JArr _ => lit "list"
  | JObj _ => lit "dict"
  end.

Definition quoted (s : pystr) : pystr := lit "'" ++ s ++ lit "'".

Definition TypeError (msg : pystr) : exn := Exn "TypeError" msg.
Definition KeyError (key : pystr) : exn := Exn "KeyError" (quoted key).
Definition ValueError (msg : pystr) : exn := Exn "ValueError" msg.

(** [bool(v)] *)
Definition truthy (v : json) : bool :=
  match v with
  | JNull => false
  | JBool b => b
  | JInt z => negb (z =? 0)
  | JFloat (S754_zero _) => false
  | JFloat _ => true
  | JStr s => match s with [] => false | _ => true end
  | JArr l => match l with [] => false | _ => true end
  | JObj d => match d with [] => false | _ => true end
  end.

Definition is_none (v : json) : bool :=
  match v with JNull => true | _ => false end.

(** [v == s] for a string [s]. *)
Definition eq_str (v : json) (s : pystr) : bool :=
  match v with JStr s' => str_eqb s' s | _ => false end.

(** [k in v] for a string [k] (messages as CPython 3.8-3.12 word them). *)
Definition contains (k : pystr) (v : json) : result bool :=
  match v with
  | JObj d => Ok (dict_mem k d)
  | JArr l => Ok (existsb (λ x, eq_str x k) l)
  | JStr s => Ok (is_substring k s)
  | _ => Raise (TypeError (lit "argument of type " ++ quoted (type_name v)
                             ++ lit " is not iterable"))
  end.

(** [v[k]] for a string [k] (messages as CPython 3.11 and later word
    them). *)
Definition getitem (v : json) (k : pystr) : result json :=
  match v with
  | JObj d => match dict_get k d with
              | Some x => Ok x
              | None => Raise (KeyError k)
              end
  | JArr _ => Raise (TypeError (lit "list indices must be integers or slices, not str"))
  | JStr _ => Raise (TypeError (lit "string indices must be integers, not 'str'"))
  | _ => Raise (TypeError (quoted (type_name v) ++ lit " object is not subscriptable"))
  end.

(** [v[k] = x] for a string [k]; the result is the container after the
    assignment. *)
Definition setitem (v : json) (k : pystr) (x : json) : result json :=
  match v with
  | JObj d => Ok (JObj (dict_set k x d))
  | JArr _ => Raise (TypeError (lit "list indices must be integers or slices, not str"))
  | _ => Raise (TypeError (quoted (type_name v)
                             ++ lit " object does not support item assignment"))
  end.

(** [for x in v: body(x)], where [body] may assign into [x]. The result is
    the container after the loop: the elements of a list are the objects the
    body has assigned into; the keys of a dict and the characters of a string
    are immutable strings, so a body that does not raise on them leaves the
    container as it was. *)
Definition for_each (body : json → result json) (v : json) : result json :=
  match v with
  | JArr l => l' ← mapM body l; Ok (JArr l')
  | JObj d => _ ← mapM body (List.map (λ kv, JStr kv.1) d); Ok v
  | JStr s => _ ← mapM body (List.map (λ c, JStr [c]) s); Ok v
  | _ => Raise (TypeError (quoted (type_name v) ++ lit " object is not iterable"))
  end.

(** [v.get(k)] *)
Definition get_method (v : json) (k : pystr) : result json :=
  match v with
  | JObj d => Ok (default JNull (dict_get k d))
  | _ => Raise (Exn "AttributeError"
                  (quoted (type_name v) ++ lit " object has no attribute 'get'"))
  end.

End Py.

(* ===================================================================== *)
(** ** app/services/gemini_service.py                                     *)
(* ===================================================================== *)

Module GeminiService.
Import Py.

Definition dq : pystr := [34%N].
Definition nl : pystr := [10%N].

(** The request [_generate_notes_sync] hands to [model.generate_content]. *)
Record generation_config := GenerationConfig {
  temperature : Q;
  max_output_tokens : Z;
  top_p : Q;
  top_k : Z
}.

Record request := Request {
  req_prompt : pystr;
  req_config : generation_config;
  req_safety : list (string * string)
}.

Definition safety_settings : list (string * string) :=
  [ ("HARM_CATEGORY_HARASSMENT", "BLOCK_NONE");
    ("HARM_CATEGORY_HATE_SPEECH", "BLOCK_NONE");
    ("HARM_CATEGORY_SEXUALLY_EXPLICIT", "BLOCK_NONE");
    ("HARM_CATEGORY_DANGEROUS_CONTENT", "BLOCK_NONE") ]%string.

(** *** [_create_prompt]: the template, line by line. *)
Definition prompt_head : list pystr :=
  [ lit "You are an expert educational note-taker. Analyze this lecture transcript and create comprehensive, well-structured notes.";
    [];
    lit "TRANSCRIPT:";
    [] ].

Definition prompt_tail : list pystr :=
  [ [];
    [];
    lit "Create structured notes in this EXACT JSON format (return ONLY valid JSON, no markdown, no explanations):";
    [];
    lit "{";
    lit "    " ++ dq ++ lit "title" ++ dq ++ lit ": " ++ dq ++ lit "A clear, descriptive title for the lecture" ++ dq ++ lit ",";
    lit "    " ++ dq ++ lit "summary" ++ dq ++ lit ": " ++ dq ++ lit "A 2-3 sentence summary of the main topic and key takeaways" ++ dq ++ lit ",";
    lit "    " ++ dq ++ lit "sections" ++ dq ++ lit ": [";
    lit "        {";
    lit "            " ++ dq ++ lit "heading" ++ dq ++ lit ": " ++ dq ++ lit "Section 1 Title" ++ dq ++ lit ",";
    lit "            " ++ dq ++ lit "content" ++ dq ++ lit ": " ++ dq ++ lit "Detailed explanation in 2-3 paragraphs covering this topic" ++ dq ++ lit ",";
    lit "            " ++ dq ++ lit "bullet_points" ++ dq ++ lit ": [";
    lit "                " ++ dq ++ lit "Key point 1 with specific details" ++ dq ++ lit ",";
    lit "                " ++ dq ++ lit "Key point 2 with specific details" ++ dq ++ lit ",";
    lit "                " ++ dq ++ lit "Key point 3 with specific details" ++ dq;
    lit "            ],";
    lit "            " ++ dq ++ lit "timestamp" ++ dq ++ lit ": " ++ dq ++ lit "Optional: e.g., '5:30' or 'Beginning' or null" ++ dq;
    lit "        }";
    lit "    ],";
    lit "    " ++ dq ++ lit "key_terms" ++ dq ++ lit ": [";
    lit "        " ++ dq ++ lit "Important term 1" ++ dq ++ lit ",";
    lit "        " ++ dq ++ lit "Important term 2" ++ dq ++ lit ",";
    lit "        " ++ dq ++ lit "Important term 3" ++ dq;
    lit "    ],";
    lit "    " ++ dq ++ lit "formulas" ++ dq ++ lit ": [";
    lit "        " ++ dq ++ lit "Mathematical formula 1 (use LaTeX notation if applicable)" ++ dq ++ lit ",";
    lit "        " ++ dq ++ lit "Mathematical formula 2" ++ dq;
    lit "    ],";
    lit "    " ++ dq ++ lit "action_items" ++ dq ++ lit ": [";
    lit "        " ++ dq ++ lit "Homework assignment mentioned" ++ dq ++ lit ",";
    lit "        " ++ dq ++ lit "Topic to review before next class" ++ dq ++ lit ",";
    lit "        " ++ dq ++ lit "Additional reading suggested" ++ dq;
    lit "    ],";
    lit "    " ++ dq ++ lit "questions" ++ dq ++ lit ": [";
    lit "        " ++ dq ++ lit "Important question 1 raised during lecture" ++ dq ++ lit ",";
    lit "        " ++ dq ++ lit "Important question 2 for review" ++ dq;
    lit "    ]";
    lit "}";
    [];
    lit "GUIDELINES:";
    lit "- Create 3-6 logical sections based on natural topic transitions";
    lit "- Each section should have 3-5 detailed bullet points";
    lit "- Extract 5-15 key terms (important vocabulary, concepts, names)";
    lit "- Include formulas/equations if any are discussed";
    lit "- Note any homework, assignments, or action items mentioned";
    lit "- List important questions raised (not just rhetorical ones)";
    lit "- Use empty arrays [] if a category doesn't apply";
    lit "- Be comprehensive but concise";
    lit "- Use clear, academic language";
    lit "- Ensure all JSON is properly formatted with correct quotes and commas";
    [];
    lit "CRITICAL: Return ONLY the JSON object. No markdown code blocks, no explanations, no additional text." ].

Definition _create_prompt (transcript : pystr) : pystr :=
  join nl prompt_head ++ transcript ++ join nl prompt_tail.

(** *** [_extract_json_from_response] *)

(** [re.sub(r'^<fence>\s*', '', text)]: the pattern is anchored at the start,
    so at most the leading fence and the whitespace after it go. *)
Definition sub_leading (fence text : pystr) : pystr :=
  if startswith fence text then lstrip (drop (length fence) text) else text.

(** Does [\s*```$] match the whole of [text]?  [$] stands at the end of the
    string or before a newline that ends it; what is returned is the part the
    match leaves in place. *)
Definition fence_at_end (text : pystr) : option pystr :=
  let rest := lstrip text in
  if str_eqb rest (lit "```") then Some []
  else if str_eqb rest (lit "```" ++ nl) then Some nl
  else None.

(** [re.sub(r'\s*```$', '', text)]: the leftmost position where the pattern
    matches; nothing after a match can match again. *)
Fixpoint sub_trailing_fence (text : pystr) : pystr :=
  match fence_at_end text with
  | Some rest => rest
  | None => match text with
            | [] => []
            | c :: text' => c :: sub_trailing_fence text'
            end
  end.

Fixpoint drop_until (c : N) (s : pystr) : pystr :=
  match s with
  | [] => []
  | x :: s' => if (x =? c)%N then s else drop_until c s'
  end.

(** [re.search(r'\{.*\}', text, re.DOTALL)]: from the first opening brace to
    the last closing brace after it. *)
Definition search_braces (text : pystr) : option pystr :=
  match drop_until 123 text with
  | [] => None
  | from_open =>
      match drop_until 125 (rev from_open) with
      | [] => None
      | to_close => Some (rev to_close)
      end
  end.

Section Synthesizer.

(** The two callees outside the repository: the generative provider
    ([self.model.generate_content(...)] followed by [response.text]: the
    text of the answer, or the exception either of them raises) and
    [json.loads]. *)
Variable generate_content : request → result pystr.
Variable json_loads : pystr → result json.

Definition _extract_json_from_response (response_text : pystr) : result json :=
  let response_text := strip response_text in
  let response_text := sub_leading (lit "```json") response_text in
  let response_text := sub_leading (lit "```") response_text in
  let response_text := sub_trailing_fence response_text in
  let response_text := strip response_text in
  let response_text :=
    match search_braces response_text with
    | Some json_match => json_match
    | None => response_text
    end in
  (* a JSONDecodeError is printed and raised again *)
  json_loads response_text.

(** *** [_validate_notes_structure] *)

Definition required_keys : dict :=
  [ (lit "title", JStr (lit "Untitled Lecture"));
    (lit "summary", JStr (lit "Summary unavailable"));
    (lit "sections", JArr []);
    (lit "key_terms", JArr []);
    (lit "formulas", JArr []);
    (lit "action_items", JArr []);
    (lit "questions", JArr []) ].

(** [if key not in notes or notes[key] is None: notes[key] = default] *)
Definition fill_required (notes : json) (key : pystr) (default : json)
  : result json :=
  present ← contains key notes;
  if negb present then setitem notes key default
  else
    v ← getitem notes key;
    if is_none v then setitem notes key default else Ok notes.

Fixpoint fill_all (notes : json) (items : dict) : result json :=
  match items with
  | [] => Ok notes
  | (key, default) :: items' =>
      notes ← fill_required notes key default;
      fill_all notes items'
  end.

(** [if key not in section: section[key] = default] *)
Definition fill_missing (section : json) (key : pystr) (default : json)
  : result json :=
  present ← contains key section;
  if negb present then setitem section key default else Ok section.

(** The body of [for section in notes["sections"]]. *)
Definition fix_section (section : json) : result json :=
  section ← fill_missing section (lit "heading") (JStr (lit "Untitled Section"));
  section ← fill_missing section (lit "content") (JStr []);
  section ← fill_missing section (lit "bullet_points") (JArr []);
  fill_missing section (lit "timestamp") JNull.

Definition overview_section (summary : json) : json :=
  JObj [ (lit "heading", JStr (lit "Overview"));
         (lit "content", summary);
         (lit "bullet_points", JArr [JStr (lit "See transcript for full details")]);
         (lit "timestamp", JNull) ].

Definition _validate_notes_structure (notes : json) : result json :=
  notes ← fill_all notes required_keys;
  sections ← getitem notes (lit "sections");
  if truthy sections then
    (* the loop assigns into the elements of the object stored under
       "sections"; that object stays where it is *)
    sections ← for_each fix_section sections;
    setitem notes (lit "sections") sections
  else
    summary ← getitem notes (lit "summary");
    setitem notes (lit "sections") (JArr [overview_section summary]).

(** *** [_create_fallback_notes] *)

Definition preview_of (transcript : pystr) : pystr :=
  let words := split transcript in
  if len words >? 100
  then join (lit " ") (slice_to 100 words) ++ lit "..."
  else transcript.

Definition _create_fallback_notes (transcript error_msg : pystr) : json :=
  let preview := preview_of transcript in
  JObj
    [ (lit "title", JStr (lit "Lecture Notes (Auto-generated)"));
      (lit "summary",
        JStr (lit "Automatic transcription available. Manual review recommended. Error: "
              ++ slice_to 100 error_msg));
      (lit "sections",
        JArr [ JObj [ (lit "heading", JStr (lit "Transcript Preview"));
                      (lit "content", JStr preview);
                      (lit "bullet_points",
                        JArr [ JStr (lit "Full transcript available");
                               JStr (lit "AI note generation encountered an error");
                               JStr (lit "Please review the raw transcript") ]);
                      (lit "timestamp", JNull) ] ]);
      (lit "key_terms", JArr []);
      (lit "formulas", JArr []);
      (lit "action_items", JArr [JStr (lit "Review full transcript manually")]);
      (lit "questions", JArr []) ].

(** *** [_generate_notes_sync]

    The first component is the list of requests sent to the provider, the
    second what the call returns or raises. *)

Definition max_chars : Z := 30000.

Definition truncated (transcript : pystr) : pystr :=
  if len transcript >? max_chars
  then slice_to max_chars transcript
       ++ nl ++ nl ++ lit "[Transcript truncated due to length]"
  else transcript.

Definition request_for (prompt : pystr) : request :=
  Request prompt (GenerationConfig (3 # 10) 4096 (8 # 10) 40) safety_settings.

Definition _generate_notes_sync (transcript : pystr)
  : list request * result json :=
  if negb (truthy (JStr transcript)) || (len (strip transcript) <? 50) then
    ([], Raise (ValueError (lit "Transcript is too short or empty")))
  else
    let transcript := truncated transcript in
    let prompt := _create_prompt transcript in
    ([request_for prompt],
     try_except
       (response_text ← generate_content (request_for prompt);
        notes ← _extract_json_from_response response_text;
        notes ← _validate_notes_structure notes;
        Ok notes)
       (λ e, Ok (_create_fallback_notes transcript (exn_msg e)))).

(** [generate_notes] runs [_generate_notes_sync] on a worker thread and
    awaits it: the same requests and the same outcome. *)
Definition generate_notes (transcript : pystr) : list request * result json :=
  _generate_notes_sync transcript.

End Synthesizer.

(** *** The StructuredNotes shape, for stating what the synthesizer returns *)

Definition top_level_fields : list pystr := List.map fst required_keys.

(** The notes carry [k] with a value other than [None]. *)
Definition field_present (notes : json) (k : pystr) : bool :=
  match notes with
  | JObj d => match dict_get k d with
              | Some v => negb (is_none v)
              | None => false
              end
  | _ => false
  end.

Definition sections_of (notes : json) : json :=
  match notes with
  | JObj d => default JNull (dict_get (lit "sections") d)
  | _ => JNull
  end.

Definition nonempty_sequence (v : json) : bool :=
  match v with JArr (_ :: _) => true | _ => false end.

Definition nonempty_mapping (v : json) : bool :=
  match v with JObj (_ :: _) => true | _ => false end.

Definition is_object (v : json) : bool :=
  match v with JObj _ => true | _ => false end.

(** The value a key has after defaulting: its own when it has one that is
    not [None], the default otherwise. *)
Definition filled (k : pystr) (dflt : json) (d : dict) : json :=
  match dict_get k d with
  | Some v => if is_none v then dflt else v
  | None => dflt
  end.

(** The parsed notes give "sections" no value, [None], or a list of objects. *)
Definition sections_well_formed (d : dict) : bool :=
  match dict_get (lit "sections") d with
  | None | Some JNull => true
  | Some (JArr l) => forallb is_object l
  | Some _ => false
  end.

Definition section_defaults : dict :=
  [ (lit "heading", JStr (lit "Untitled Section"));
    (lit "content", JStr []);
    (lit "bullet_points", JArr []);
    (lit "timestamp", JNull) ].

(** *** The two loops of the validation step, read on the pairs of a dict *)

(** [if key not in notes or notes[key] is None: notes[key] = default] *)
Definition fill_key (k : pystr) (dflt : json) (d : dict) : dict :=
  match dict_get k d with
  | Some v => if is_none v then dict_set k dflt d else d
  | None => dict_set k dflt d
  end.

(** The loop over [required_keys]. *)
Fixpoint fill_keys (d : dict) (items : dict) : dict :=
  match items with
  | [] => d
  | (k, dflt) :: items' => fill_keys (fill_key k dflt d) items'
  end.

(** [if key not in section: section[key] = default] *)
Definition add_missing (k : pystr) (dflt : json) (d : dict) : dict :=
  if dict_mem k d then d else dict_set k dflt d.

(** The four tests of the loop body, in their order. *)
Definition fixed_section (e : dict) : dict :=
  add_missing (lit "timestamp") JNull
    (add_missing (lit "bullet_points") (JArr [])
       (add_missing (lit "content") (JStr [])
          (add_missing (lit "heading") (JStr (lit "Untitled Section")) e))).

End GeminiService.

(* ===================================================================== *)
(** ** app/services/stt_service.py                                        *)
(* ===================================================================== *)

Module AssemblyAIService.
Import Py.

Section Polling.

(** [poll k] is what the [k]-th request to the job-status endpoint gives
    ([client.get], [raise_for_status] and [response.json()] together): the
    decoded body, or the exception one of the three raises. [repr] is how an
    f-string prints a value that is not a string. *)
Variable poll : nat → result json.
Variable repr : json → pystr.

Definition format_value (v : json) : pystr :=
  match v with
  | JStr s => s
  | _ => repr v
  end.

(** One turn of the [while True] loop up to the sleep: [Some result] when the
    loop returns, [None] when it goes on to sleep. *)
Definition poll_once (k : nat) : result (option json) :=
  result ← poll k;
  status ← getitem result (lit "status");
  if eq_str status (lit "completed") then Ok (Some result)
  else if eq_str status (lit "error") then
    error ← get_method result (lit "error");
    Raise (Exn "Exception" (lit "Transcription failed: " ++ format_value error))
  else Ok None.

(** The seconds one [asyncio.sleep] of the loop waits. *)
Definition poll_interval : Z := 5.

(** What is known of a call after some turns of the loop: it is still
    running, or it has ended. [polls] counts the requests made, [slept] the
    seconds spent in [asyncio.sleep]. *)
Record progress := Progress {
  polls : nat;
  slept : Z;
  ended : option (result json)
}.

(** One turn of the loop; a call that has ended stays as it is. *)
Definition turn (p : progress) : progress :=
  match ended p with
  | Some _ => p
  | None =>
      match poll_once (polls p) with
      | Raise e => Progress (S (polls p)) (slept p) (Some (Raise e))
      | Ok (Some result) => Progress (S (polls p)) (slept p) (Some (Ok result))
      | Ok None => Progress (S (polls p)) (slept p + poll_interval) None
      end
  end.

(** [get_transcript] after at most [n] turns of its loop. *)
Fixpoint get_transcript (n : nat) : progress :=
  match n with
  | O => Progress 0 0 None
  | S n' => turn (get_transcript n')
  end.

(** *** Reading the sequence of polled statuses *)

(** The [k]-th poll delivers the body [d], whose status is [s]. *)
Definition delivers (k : nat) (d : dict) (s : json) : Prop :=
  poll k = Ok (JObj d) ∧ dict_get (lit "status") d = Some s.

(** The two statuses that end the loop. *)
Definition terminal (s : json) : bool :=
  eq_str s (lit "completed") || eq_str s (lit "error").

Definition pending (k : nat) : Prop :=
  ∃ d s, delivers k d s ∧ terminal s = false.

End Polling.

End AssemblyAIService.

(* ===================================================================== *)
(** ** app/main.py                                                        *)
(* ===================================================================== *)

Module Main.
Import Py.

(** *** app/config.py *)

Definition MAX_FILE_SIZE : Z := 100 * 1024 * 1024.

Definition ALLOWED_AUDIO_TYPES : list pystr :=
  [ lit "audio/mpeg"; lit "audio/wav"; lit "audio/mp4"; lit "audio/x-m4a";
    lit "audio/webm" ].

Definition UPLOAD_DIR : pystr := lit "uploads".

(** *** The documents of the two collections

    An absent key of a document is [None] in the record. [_id] is an
    [ObjectId] in the store; the listing endpoint replaces it by its [str]. *)

Definition oid : Type := N.

Inductive id_value :=
| IdObject (o : oid)
| IdStr (s : pystr).

Record lecture := Lecture {
  lec_id : id_value;
  lec_user_id : pystr;
  lec_title : pystr;
  lec_filename : pystr;
  lec_upload_date : Z;
  lec_status : pystr;
  lec_file_size : Z;
  lec_file_path : option pystr;
  lec_error : option pystr
}.

Record note := Note {
  note_lecture_id : pystr;
  note_user_id : pystr;
  note_full_text : pystr;
  note_confidence : json;
  note_word_count : Z;
  note_structured_notes : json;
  note_created_at : Z;
  note_last_edited : Z
}.

(** The state the endpoints act on: the two collections, in insertion order,
    and the files of the upload directory with their bytes. *)
Record world := World {
  lectures : list lecture;
  notes : list note;
  files : gmap pystr (list N)
}.

(** What an endpoint gives back: a body, an [HTTPException], or any other
    exception leaving the endpoint. *)
Inductive response (A : Type) : Type :=
| Returned (body : A)
| HTTPException (status_code : Z) (detail : pystr)
| Unhandled (e : exn).
Arguments Returned {A} body.
Arguments HTTPException {A} status_code detail.
Arguments Unhandled {A} e.

(** [str(e)] of a Starlette [HTTPException] caught as an [Exception]. *)
Definition http_exception (status_code : Z) (detail : pystr) : exn :=
  Exn "HTTPException"
    (lit (NilZero.string_of_int (Z.to_int status_code)) ++ lit ": " ++ detail).

(** *** Statements that act on the world and may raise *)

Definition M (A : Type) : Type := world → result A * world.

Global Instance M_ret : MRet M := λ A a w, (Ok a, w).
Global Instance M_bind : MBind M := λ A B f m w,
  match m w with
  | (Ok a, w') => f a w'
  | (Raise e, w') => (Raise e, w')
  end.

Definition lift {A} (r : result A) : M A := λ w, (r, w).

(** A call the outside world lets fail with [e], or lets through. *)
Definition may_fail (fault : option exn) : M unit :=
  λ w, match fault with
       | Some e => (Raise e, w)
       | None => (Ok (), w)
       end.

Definition modify (f : world → world) : M unit := λ w, (Ok (), f w).
Definition gets {A} (f : world → A) : M A := λ w, (Ok (f w), w).

(** [try: m  except: pass] *)
Definition swallow (m : M unit) : M unit :=
  λ w, match m w with (_, w') => (Ok (), w') end.

Definition has_id (o : oid) (l : lecture) : bool :=
  match lec_id l with
  | IdObject o' => (o' =? o)%N
  | IdStr _ => false
  end.

(** [update_one({"_id": o}, {"$set": ...})]: the first match is updated. *)
Fixpoint update_first (o : oid) (f : lecture → lecture) (ls : list lecture)
  : list lecture :=
  match ls with
  | [] => []
  | l :: ls' => if has_id o l then f l :: ls' else l :: update_first o f ls'
  end.

(** [delete_one({"_id": o})] with its [deleted_count]. *)
Fixpoint delete_first (o : oid) (ls : list lecture) : list lecture * Z :=
  match ls with
  | [] => ([], 0)
  | l :: ls' =>
      if has_id o l then (ls', 1)
      else let '(ls'', n) := delete_first o ls' in (l :: ls'', n)
  end.

Definition set_status (status : pystr) (error : option pystr) (l : lecture)
  : lecture :=
  Lecture (lec_id l) (lec_user_id l) (lec_title l) (lec_filename l)
    (lec_upload_date l) status (lec_file_size l) (lec_file_path l)
    (match error with Some e => Some e | None => lec_error l end).

Definition lectures_update_one (fault : option exn) (o : oid)
    (f : lecture → lecture) : M unit :=
  _ ← may_fail fault;
  modify (λ w, World (update_first o f (lectures w)) (notes w) (files w)).

Definition notes_insert_one (fault : option exn) (n : note) : M unit :=
  _ ← may_fail fault;
  modify (λ w, World (lectures w) (notes w ++ [n]) (files w)).

Definition os_path_exists (path : pystr) : M bool :=
  gets (λ w, bool_decide (is_Some (files w !! path))).

Definition unlink (path : pystr) : M unit :=
  λ w, match files w !! path with
       | Some _ => (Ok (), World (lectures w) (notes w) (delete path (files w)))
       | None =>
           (Raise (Exn "FileNotFoundError"
                     (lit "[Errno 2] No such file or directory: " ++ quoted path)), w)
       end.

(** [os.remove(path)]: the system may refuse ([fault]); otherwise the file
    goes, and a path that names no file raises. *)
Definition os_remove (fault : option exn) (path : pystr) : M unit :=
  _ ← may_fail fault;
  unlink path.

(** [os.path.splitext(p)[1]] (posixpath): from the last dot of the last path
    component, when a character other than a dot stands before it there. *)
Definition splitext_ext (p : pystr) : pystr :=
  let base_rev := take_while (λ c, negb (c =? 47)%N) (rev p) in
  let ext_rev := take_while (λ c, negb (c =? 46)%N) base_rev in
  match drop (length ext_rev) base_rev with
  | [] => []
  | dot :: before_rev =>
      if forallb (λ c, (c =? 46)%N) before_rev then []
      else rev (ext_rev ++ [dot])
  end.

(** [os.path.join(a, b)] (posixpath) *)
Definition os_path_join (a b : pystr) : pystr :=
  if startswith (lit "/") b then b
  else match rev a with
       | [] => b
       | c :: _ => if (c =? 47)%N then a ++ b else a ++ lit "/" ++ b
       end.

(** *** The upload endpoint *)

Record upload := UploadFile {
  content_type : option pystr;
  filename : pystr;
  content : list N
}.

(** What [upload_lecture] reads of the dict [stt_service.transcribe] returns. *)
Record transcript_data := TranscriptData {
  text : pystr;
  confidence : json
}.

(** What the outside world answers during one run of [upload_lecture]: the
    clock, the file system, the document store and the two providers. A
    [fault] is [None] when the call goes through, [Some e] when it raises
    [e] without having had its effect. Each call site is reached at most once
    in a run; [os.remove] is called at one of its two sites only. *)
Record env := Env {
  stamp : pystr;                     (* f"{datetime.utcnow().timestamp()}" *)
  upload_time : Z;
  created_time : Z;
  edited_time : Z;
  open_fault : option exn;           (* open(temp_path, "wb") *)
  write_fault : option exn;          (* f.write(content) *)
  inserted : result oid;             (* get_db() and db.lectures.insert_one *)
  transcription : result transcript_data;   (* stt_service.transcribe, once it has ended *)
  provider : GeminiService.request → result pystr;
  note_fault : option exn;           (* db.notes.insert_one *)
  completed_fault : option exn;      (* update_one, status completed *)
  failed_fault : option exn;         (* update_one, status failed *)
  remove_fault : option exn          (* os.remove *)
}.

Section Endpoints.

(** From outside the repository: [json.loads], and [bson]'s [ObjectId(s)]
    and [str(o)]. *)
Variable json_loads : pystr → result json.
Variable ObjectId : pystr → result oid.
Variable oid_str : oid → pystr.

Section Upload.

Variable E : env.

Definition put_file (path : pystr) (bytes : list N) : M unit :=
  modify (λ w, World (lectures w) (notes w) (<[path := bytes]> (files w))).

(** [with open(temp_path, "wb") as f: f.write(content)] *)
Definition save_file (temp_path : pystr) (content : list N) : M unit :=
  _ ← may_fail (open_fault E);
  _ ← put_file temp_path [];
  _ ← may_fail (write_fault E);
  put_file temp_path content.

Definition lectures_insert_one (doc : oid → lecture) : M oid :=
  o ← lift (inserted E);
  _ ← modify (λ w, World (lectures w ++ [doc o]) (notes w) (files w));
  mret o.

(** The [try] block from "Step 1" to its [return]. *)
Definition process (temp_path user_id lecture_id : pystr) : M json :=
  transcript_data ← lift (transcription E);
  structured_notes ←
    lift (GeminiService.generate_notes (provider E) json_loads
            (text transcript_data)).2;
  _ ← notes_insert_one (note_fault E)
        (Note lecture_id user_id (text transcript_data)
           (confidence transcript_data) (len (split (text transcript_data)))
           structured_notes (created_time E) (edited_time E));
  o ← lift (ObjectId lecture_id);
  _ ← lectures_update_one (completed_fault E) o (set_status (lit "completed") None);
  _ ← swallow (os_remove (remove_fault E) temp_path);
  title ← lift (get_method structured_notes (lit "title"));
  summary ← lift (get_method structured_notes (lit "summary"));
  mret (JObj [ (lit "lecture_id", JStr lecture_id);
               (lit "status", JStr (lit "completed"));
               (lit "message", JStr (lit "Notes generated successfully"));
               (lit "preview", JObj [ (lit "title", title);
                                      (lit "summary", summary) ]) ]).

(** The [except Exception as e] block; [lecture_id] is [Some] when the local
    variable is bound. *)
Definition on_error (temp_path : pystr) (lecture_id : option pystr) (e : exn)
  : M (response json) :=
  _ ← match lecture_id with
      | Some lecture_id =>
          o ← lift (ObjectId lecture_id);
          lectures_update_one (failed_fault E) o
            (set_status (lit "failed") (Some (exn_msg e)))
      | None => mret ()
      end;
  present ← os_path_exists temp_path;
  _ ← (if present : bool then os_remove (remove_fault E) temp_path else mret ());
  mret (HTTPException 500 (exn_msg e)).

(** An exception raised inside the handler leaves the endpoint. *)
Definition leave {A} (m : M (response A)) (w : world) : response A * world :=
  match m w with
  | (Ok r, w') => (r, w')
  | (Raise e, w') => (Unhandled e, w')
  end.

Definition upload_lecture (file : upload) (title : option pystr)
    (user_id : pystr) (w : world) : response json * world :=
  if negb (match content_type file with
           | Some c => existsb (str_eqb c) ALLOWED_AUDIO_TYPES
           | None => false
           end) then
    (HTTPException 400
       (lit "Invalid file type. Allowed: " ++ join (lit ", ") ALLOWED_AUDIO_TYPES), w)
  else if len (content file) >? MAX_FILE_SIZE then
    (HTTPException 413 (lit "File too large. Maximum size: 100.0 MB"), w)
  else
    let file_extension := splitext_ext (filename file) in
    let temp_filename := stamp E ++ file_extension in
    let temp_path := os_path_join UPLOAD_DIR temp_filename in
    match save_file temp_path (content file) w with
    | (Raise e, w) => leave (on_error temp_path None e) w
    | (Ok _, w) =>
        let lecture_doc o :=
          Lecture (IdObject o) user_id
            (match title with
             | Some (c :: t) => c :: t
             | _ => filename file
             end)
            (filename file) (upload_time E) (lit "processing")
            (len (content file)) (Some temp_path) None in
        match lectures_insert_one lecture_doc w with
        | (Raise e, w) => leave (on_error temp_path None e) w
        | (Ok o, w) =>
            let lecture_id := oid_str o in
            match process temp_path user_id lecture_id w with
            | (Raise e, w) => leave (on_error temp_path (Some lecture_id) e) w
            | (Ok body, w) => (Returned body, w)
            end
        end
    end.

End Upload.

(** *** The listing endpoint *)

Definition newest_first (a b : lecture) : Prop :=
  lec_upload_date b ≤ lec_upload_date a.

Global Instance newest_first_dec a b : Decision (newest_first a b) :=
  Z_le_dec (lec_upload_date b) (lec_upload_date a).

(** [find({"user_id": user_id}).sort("upload_date", -1).to_list(100)]; the
    store leaves the order of equal dates open, here they keep the order the
    merge gives them. *)
Definition lectures_find (fault : option exn) (user_id : pystr)
  : M (list lecture) :=
  _ ← may_fail fault;
  gets (λ w, take 100 (merge_sort newest_first
                         (filter (λ l, lec_user_id l = user_id) (lectures w)))).

(** The body of [for lecture in lectures]. *)
Definition publish (l : lecture) : lecture :=
  Lecture (IdStr (match lec_id l with
                  | IdObject o => oid_str o
                  | IdStr s => s
                  end))
    (lec_user_id l) (lec_title l) (lec_filename l) (lec_upload_date l)
    (lec_status l) (lec_file_size l)
    None                                (* lecture.pop("file_path", None) *)
    (lec_error l).

Definition get_user_lectures (find_fault : option exn) (user_id : pystr)
    (w : world) : response (list lecture) * world :=
  match (lectures ← lectures_find find_fault user_id;
         mret (List.map publish lectures)) w with
  | (Ok body, w') => (Returned body, w')
  | (Raise e, w') => (HTTPException 500 (exn_msg e), w')
  end.

(** *** The delete endpoint *)

Definition notes_delete_many (fault : option exn) (lecture_id : pystr) : M unit :=
  _ ← may_fail fault;
  modify (λ w, World (lectures w)
                 (filter (λ n, note_lecture_id n ≠ lecture_id) (notes w))
                 (files w)).

Definition lectures_delete_one (fault : option exn) (o : oid) : M Z :=
  _ ← may_fail fault;
  deleted_count ← gets (λ w, (delete_first o (lectures w)).2);
  _ ← modify (λ w, World (delete_first o (lectures w)).1 (notes w) (files w));
  mret deleted_count.

Definition delete_lecture (many_fault one_fault : option exn)
    (lecture_id : pystr) (w : world) : response json * world :=
  match (_ ← notes_delete_many many_fault lecture_id;
         o ← lift (ObjectId lecture_id);
         deleted_count ← lectures_delete_one one_fault o;
         if deleted_count =? 0
         then lift (Raise (http_exception 404 (lit "Lecture not found")))
         else mret (JObj [ (lit "message",
                            JStr (lit "Lecture deleted successfully")) ])) w with
  | (Ok body, w') => (Returned body, w')
  | (Raise e, w') => (HTTPException 500 (exn_msg e), w')
  end.

End Endpoints.

(** *** Reading the store after a run *)

(** The request passes the two checks made before the [try] block. *)
Definition accepted (file : upload) : bool :=
  match content_type file with
  | Some c => existsb (str_eqb c) ALLOWED_AUDIO_TYPES
  | None => false
  end && negb (len (content file) >? MAX_FILE_SIZE).

(** Where a run stages the uploaded bytes. *)
Definition staged_path (E : env) (file : upload) : pystr :=
  os_path_join UPLOAD_DIR (stamp E ++ splitext_ext (filename file)).

Definition find_lecture (o : oid) (w : world) : option lecture :=
  head (filter (λ l, has_id o l) (lectures w)).

(** The number of note records that reference [lecture_id]. *)
Definition note_count (lecture_id : pystr) (w : world) : nat :=
  length (filter (λ n, note_lecture_id n = lecture_id) (notes w)).

(** The lecture record [o] is Completed with exactly one note record, or
    Failed with none. *)
Definition terminal_consistent (lecture_id : pystr) (o : oid) (w : world) : bool :=
  match find_lecture o w with
  | Some l =>
      str_eqb (lec_status l) (lit "completed")
        && (note_count lecture_id w =? 1)%nat
      || str_eqb (lec_status l) (lit "failed")
           && (note_count lecture_id w =? 0)%nat
  | None => false
  end.

(** The identifier is new to the store: no lecture has it, no note refers
    to it. *)
Definition fresh (lecture_id : pystr) (o : oid) (w : world) : bool :=
  forallb (λ l, negb (has_id o l)) (lectures w)
  && forallb (λ n, negb (str_eqb (note_lecture_id n) lecture_id)) (notes w).

End Main.

(* ===================================================================== *)
(** ** app/services/stt_service.py: the rest of the service              *)
(* ===================================================================== *)

Module Transcription.
Import Py AssemblyAIService.

Section Transcribe.

(** From outside the repository: reading the staged file
    ([open(file_path, "rb")] and [f.read()]), the two POST requests (each
    with [raise_for_status] and [response.json()]: the decoded body, or the
    exception raised on the way), the polls of a job by its id, and how an
    f-string prints a value that is not a string. *)
Variable read_file : pystr → result (list N).
Variable post_upload : list N → result json.
Variable post_transcript : json → result json.
Variable poll : json → nat → result json.
Variable repr : json → pystr.

Definition upload_file (file_path : pystr) : result json :=
  file_data ← read_file file_path;
  body ← post_upload file_data;
  getitem body (lit "upload_url").

Definition create_transcript (audio_url : json) : result json :=
  let data :=
    JObj [ (lit "audio_url", audio_url);
           (lit "speaker_labels", JBool true);
           (lit "auto_highlights", JBool true);
           (lit "punctuate", JBool true);
           (lit "format_text", JBool true) ] in
  body ← post_transcript data;
  getitem body (lit "id").

(** [v.get(k, default)] *)
Definition get_or (v : json) (k : pystr) (dflt : json) : result json :=
  match v with
  | JObj d => Ok (default dflt (dict_get k d))
  | _ => Raise (Exn "AttributeError"
                  (quoted (type_name v) ++ lit " object has no attribute 'get'"))
  end.

(** The dict [transcribe] returns, built from the result of the job. *)
Definition transcript_dict (result : json) : Py.result json :=
  text ← getitem result (lit "text");
  words ← get_or result (lit "words") (JArr []);
  utterances ← get_or result (lit "utterances") (JArr []);
  confidence ← get_or result (lit "confidence") (JInt 0);
  Ok (JObj [ (lit "text", text);
             (lit "words", words);
             (lit "utterances", utterances);
             (lit "confidence", confidence) ]).

(** [transcribe] when its polling loop is given at most [n] turns: [None]
    while the loop is still running. *)
Definition transcribe (n : nat) (file_path : pystr) : option (result json) :=
  match upload_file file_path with
  | Raise e => Some (Raise e)
  | Ok audio_url =>
      match create_transcript audio_url with
      | Raise e => Some (Raise e)
      | Ok transcript_id =>
          match ended (get_transcript (poll transcript_id) repr n) with
          | None => None
          | Some (Raise e) => Some (Raise e)
          | Some (Ok result) => Some (transcript_dict result)
          end
      end
  end.

End Transcribe.

End Transcription.

(* ===================================================================== *)
(** ** app/main.py: the notes endpoint                                    *)
(* ===================================================================== *)

Module Notes.
Import Py Main.

(** [db.notes.find_one({"lecture_id": lecture_id})]: the first match. *)
Definition notes_find_one (fault : option exn) (lecture_id : pystr)
  : M (option note) :=
  _ ← may_fail fault;
  gets (λ w, head (filter (λ n, note_lecture_id n = lecture_id) (notes w))).

(** [get_notes]. The record of a note holds every key of the document but
    ["_id"], which is the one key the endpoint rewrites (to its [str]) before
    it returns the document. *)
Definition get_notes (find_fault : option exn) (lecture_id : pystr)
    (w : world) : response note * world :=
  match (note ← notes_find_one find_fault lecture_id;
         match note with
         | None => lift (Raise (http_exception 404 (lit "Notes not found")))
         | Some note => mret note
         end) w with
  | (Ok body, w') => (Returned body, w')
  | (Raise e, w') => (HTTPException 500 (exn_msg e), w')
  end.

End Notes.

(* ===================================================================== *)
(** ** Shapes of text, for stating what the string code does             *)
(* ===================================================================== *)

Module Text.
Import Py.

Definition is_brace (c : N) : bool := (c =? 123)%N || (c =? 125)%N.

(** The text holds neither an opening nor a closing brace. *)
Definition brace_free (s : pystr) : bool := forallb (λ c, negb (is_brace c)) s.

(** A word: one character or more, none of them whitespace. *)
Definition is_word (w : pystr) : bool :=
  negb (bool_decide (w = [])) && forallb (λ c, negb (isspace c)) w.

End Text.

(* ===================================================================== *)
(** ** The documents and the answer of one run of [upload_lecture]       *)
(* ===================================================================== *)

Module Run.
Import Py GeminiService Main.

(** [title or file.filename] *)
Definition title_or_filename (title : option pystr) (file : upload) : pystr :=
  match title with
  | Some (c :: t) => c :: t
  | _ => filename file
  end.

(** [lecture_doc] under the id the store gave it, with the status and the
    error the record has in the end. *)
Definition lecture_doc (E : env) (file : upload) (title : option pystr)
    (user_id : pystr) (o : oid) (status : pystr) (error : option pystr)
  : lecture :=
  Lecture (IdObject o) user_id (title_or_filename title file) (filename file)
    (upload_time E) status (len (content file)) (Some (staged_path E file))
    error.

(** [note_doc] *)
Definition note_doc (E : env) (lecture_id user_id : pystr)
    (td : transcript_data) (structured_notes : json) : note :=
  Note lecture_id user_id (text td) (confidence td) (len (split (text td)))
    structured_notes (created_time E) (edited_time E).

(** The body the endpoint returns, for structured notes with the pairs [d]. *)
Definition completed_response (lecture_id : pystr) (d : dict) : json :=
  JObj [ (lit "lecture_id", JStr lecture_id);
         (lit "status", JStr (lit "completed"));
         (lit "message", JStr (lit "Notes generated successfully"));
         (lit "preview",
           JObj [ (lit "title", default JNull (dict_get (lit "title") d));
                  (lit "summary", default JNull (dict_get (lit "summary") d)) ]) ].

(** The answer of [delete_lecture] when it has deleted a lecture. *)
Definition deleted_response : json :=
  JObj [ (lit "message", JStr (lit "Lecture deleted successfully")) ].

End Run.

(* ===================================================================== *)
(** ** Concrete inputs                                                    *)
(* ===================================================================== *)

Module Scenario.
Import Py GeminiService Main.

(** A transcript of 71 characters, and one of 9 once trimmed. *)
Definition lecture_text : pystr :=
  lit "The derivative of a function measures how fast it changes near a point.".

Definition short_text : pystr := lit "   too short   ".

(** Three provider answers: a JSON object whose "sections" is an object, the
    empty JSON object, and text that is no JSON. *)
Definition mapping_sections_text : pystr :=
  lit "{" ++ dq ++ lit "sections" ++ dq ++ lit ": {" ++ dq
  ++ lit "heading content bullet_points timestamp" ++ dq ++ lit ": 1}}".

Definition empty_object_text : pystr := lit "{}".

Definition apology_text : pystr := lit "Sorry, I cannot summarise this.".

(** [json.loads] on these texts. *)
Definition json_loads (s : pystr) : result json :=
  if str_eqb s mapping_sections_text then
    Ok (JObj [ (lit "sections",
                JObj [ (lit "heading content bullet_points timestamp", JInt 1) ]) ])
  else if str_eqb s empty_object_text then Ok (JObj [])
  else Raise (Exn "JSONDecodeError"
                (lit "Expecting value: line 1 column 1 (char 0)")).

Definition answers_with (response_text : pystr) (r : request) : result pystr :=
  Ok response_text.

Definition provider_down (r : request) : result pystr :=
  Raise (Exn "ServiceUnavailable" (lit "503 The model is overloaded")).

(** Job-status answers: "processing" twice and then "completed"; "queued"
    for ever; "processing" and then "error". *)
Definition completed_body : dict :=
  [ (lit "status", JStr (lit "completed"));
    (lit "text", JStr lecture_text);
    (lit "confidence", JFloat (S754_finite false 8106479329266893 (-53))) ].

Definition three_polls (k : nat) : result json :=
  match k with
  | 0%nat | 1%nat => Ok (JObj [ (lit "status", JStr (lit "processing")) ])
  | _ => Ok (JObj completed_body)
  end.

Definition queued_for_ever (k : nat) : result json :=
  Ok (JObj [ (lit "status", JStr (lit "queued")) ]).

Definition error_body : dict :=
  [ (lit "status", JStr (lit "error"));
    (lit "error", JStr (lit "Audio duration is too short.")) ].

Definition failing_job (k : nat) : result json :=
  match k with
  | 0%nat => Ok (JObj [ (lit "status", JStr (lit "processing")) ])
  | _ => Ok (JObj error_body)
  end.

Definition repr_none (v : json) : pystr := lit "None".

(** Parsed notes with a [None] title and one section that has a heading only. *)
Definition partial_notes : dict :=
  [ (lit "title", JNull);
    (lit "sections", JArr [ JObj [ (lit "heading", JStr (lit "Limits")) ] ]) ].

(** [bson]'s [str(o)] and [ObjectId(s)] on strings of 24 hexadecimal digits. *)
Definition hex_digit (n : N) : N :=
  if (n <? 10)%N then (48 + n)%N else (87 + n)%N.

Fixpoint hex_digits (k : nat) (n : N) (acc : pystr) : pystr :=
  match k with
  | O => acc
  | S k' => hex_digits k' (n / 16)%N (hex_digit (n mod 16)%N :: acc)
  end.

Definition oid_str (o : oid) : pystr := hex_digits 24 o [].

Definition hex_value (c : N) : option N :=
  if ((48 <=? c) && (c <=? 57))%N then Some (c - 48)%N
  else if ((97 <=? c) && (c <=? 102))%N then Some (c - 87)%N
  else if ((65 <=? c) && (c <=? 70))%N then Some (c - 55)%N
  else None.

Fixpoint hex_number (acc : N) (s : pystr) : option N :=
  match s with
  | [] => Some acc
  | c :: s' => match hex_value c with
               | Some v => hex_number (16 * acc + v)%N s'
               | None => None
               end
  end.

Definition ObjectId (s : pystr) : result oid :=
  match (if (length s =? 24)%nat then hex_number 0 s else None) with
  | Some o => Ok o
  | None =>
      Raise (Exn "InvalidId"
               (quoted s ++ lit " is not a valid ObjectId, it must be a 12-byte input or a 24-character hex string"))
  end.

(** An upload, a store, and what the outside world may answer. *)
Definition clip : upload :=
  UploadFile (Some (lit "audio/wav")) (lit "lecture01.wav") [82; 73; 70; 70]%N.

Definition empty_world : world := World [] [] ∅.

Definition new_id : oid := 31415926535%N.

Definition transcript_ok : result transcript_data :=
  Ok (TranscriptData lecture_text
        (JFloat (S754_finite false 8106479329266893 (-53)))).

Definition transcript_failed : result transcript_data :=
  Raise (Exn "Exception" (lit "Transcription failed: Audio duration is too short.")).

Definition db_down : exn :=
  Exn "ServerSelectionTimeoutError" (lit "No servers found yet").

Definition locked : exn :=
  Exn "PermissionError" (lit "[Errno 13] Permission denied: 'uploads/1700000000.25.wav'").

(** A run in which the file is staged and the record inserted; the rest is
    given. *)
Definition run (transcription : result transcript_data)
    (note_fault completed_fault failed_fault remove_fault : option exn) : env :=
  Env (lit "1700000000.25") 1700000000 1700000042 1700000042
    None None (Ok new_id) transcription (answers_with empty_object_text)
    note_fault completed_fault failed_fault remove_fault.

(** A stored lecture that went through, and its note. *)
Definition old_lecture (o : oid) (date : Z) : lecture :=
  Lecture (IdObject o) (lit "ada") (lit "Week 1") (lit "week1.mp3") date
    (lit "completed") 1024 (Some (lit "uploads/1699999999.5.mp3")) None.

Definition old_note (lecture_id : pystr) : note :=
  Note lecture_id (lit "ada") lecture_text (JInt 1) 13
    (_create_fallback_notes lecture_text (lit "none")) 1699999999 1699999999.

Definition stored_world : world :=
  World [ old_lecture 1%N 1699990000 ]
    [ old_note (oid_str 1%N); old_note (oid_str new_id) ]
    ∅.

End Scenario.

(** Further inputs: provider answers with text around the object, and a
    [json.loads] that knows one more text. *)
Module Samples.
Import Py GeminiService Main.

(** What stands between the braces of [Scenario.mapping_sections_text]. *)
Definition mapping_sections_inside : pystr :=
  dq ++ lit "sections" ++ dq ++ lit ": {" ++ dq
  ++ lit "heading content bullet_points timestamp" ++ dq ++ lit ": 1}".

(** Parsed notes whose "sections" hold a string, and a number. *)
Definition string_section_notes : dict :=
  [ (lit "sections",
      JArr [ JStr (lit "heading content bullet_points timestamp") ]) ].

Definition number_section_notes : dict :=
  [ (lit "sections", JArr [ JInt 5 ]) ].

(** A section as the notes are to have it: an object with the four keys. *)
Definition has_section_keys (section : json) : bool :=
  match section with
  | JObj e =>
      forallb (λ k, dict_mem k e)
        [ lit "heading"; lit "content"; lit "bullet_points"; lit "timestamp" ]
  | _ => false
  end.

Definition greeting : pystr := lit "Here are your notes: ".
Definition farewell : pystr := lit " Let me know if you need more.".

Definition list_text : pystr := lit "[1, 2, 3]".

Definition json_loads (s : pystr) : result json :=
  if str_eqb s list_text then Ok (JArr [JInt 1; JInt 2; JInt 3])
  else Scenario.json_loads s.

(** A job whose second poll is answered by a gateway error, and one whose
    second answer has no status. *)
Definition gateway_error : exn :=
  Exn "HTTPStatusError" (lit "Server error '502 Bad Gateway' for url 'https://api.assemblyai.com/v2/transcript/job-1'").

Definition flaky_job (k : nat) : result json :=
  match k with
  | 0%nat => Ok (JObj [ (lit "status", JStr (lit "processing")) ])
  | _ => Raise gateway_error
  end.

Definition statusless_job (k : nat) : result json :=
  match k with
  | 0%nat => Ok (JObj [ (lit "status", JStr (lit "processing")) ])
  | _ => Ok (JObj [ (lit "message", JStr (lit "rate limited")) ])
  end.

(** The provider of transcriptions on one file: the upload, the job, and
    the polls of [Scenario.three_polls]. *)
Definition read_file (file_path : pystr) : result (list N) :=
  Ok [82; 73; 70; 70]%N.

Definition upload_body : dict :=
  [ (lit "upload_url", JStr (lit "https://cdn.assemblyai.com/upload/4f8e")) ].

Definition post_upload (file_data : list N) : result json :=
  Ok (JObj upload_body).

Definition job_body : dict :=
  [ (lit "id", JStr (lit "job-1")); (lit "status", JStr (lit "queued")) ].

Definition post_transcript (data : json) : result json :=
  Ok (JObj job_body).

Definition poll (transcript_id : json) (k : nat) : result json :=
  Scenario.three_polls k.

(** A store with one lecture and its note, a file of a type that is not
    allowed, and four runs on [Scenario.clip]: one in which every step goes
    through, one whose transcript is too short, one in which the generative
    provider is down, and the outcome of the first on the store. *)
Definition library : world :=
  World [ Scenario.old_lecture 1%N 1699990000 ]
    [ Scenario.old_note (Scenario.oid_str 1%N) ] ∅.

Definition video : upload :=
  UploadFile (Some (lit "video/mp4")) (lit "lecture01.mp4") [0; 0; 0; 24]%N.

Definition plain_run : env :=
  Scenario.run Scenario.transcript_ok None None None None.

Definition mumble : env :=
  Scenario.run (Ok (TranscriptData Scenario.short_text (JInt 0)))
    None None None None.

Definition outage_error : exn :=
  Exn "ServiceUnavailable" (lit "503 The model is overloaded").

Definition outage : env :=
  Env (lit "1700000000.25") 1700000000 1700000042 1700000042
    None None (Ok Scenario.new_id) Scenario.transcript_ok Scenario.provider_down
    None None None None.

Definition uploaded : response json * world :=
  upload_lecture Scenario.json_loads Scenario.ObjectId Scenario.oid_str
    plain_run Scenario.clip None (lit "ada") library.

(** A lecture id that is no [ObjectId], and what [bson] says of it. *)
Definition week_one : pystr := lit "week-1".

Definition invalid_id : exn :=
  Exn "InvalidId"
    (quoted week_one ++ lit " is not a valid ObjectId, it must be a 12-byte input or a 24-character hex string").

(** Transcripts of more than 30,000 characters: 30,000 times the letter a,
    and then [tail]. *)
Definition long_text (tail : pystr) : pystr :=
  replicate (Z.to_nat 30000) 97%N ++ tail.

End Samples.

(* ===================================================================== *)
(** * Properties                                                          *)
(* ===================================================================== *)

Module PyProps.
Import Py.

Lemma str_eqb_true a b : str_eqb a b = true ↔ a = b.
Proof. unfold str_eqb. apply bool_decide_eq_true. Qed.

Lemma str_eqb_false a b : str_eqb a b = false ↔ a ≠ b.
Proof. unfold str_eqb. apply bool_decide_eq_false. Qed.

Lemma str_eqb_refl a : str_eqb a a = true.
Proof. by apply str_eqb_true. Qed.

Lemma dict_get_set_eq k v d : dict_get k (dict_set k v d) = Some v.
Proof.
  induction d as [|[k' v'] d IH]; simpl.
  - by rewrite str_eqb_refl.
  - destruct (str_eqb k' k) eqn:Hk; simpl; rewrite Hk; [done | apply IH].
Qed.

Lemma dict_get_set_ne k k' v d :
  k ≠ k' → dict_get k' (dict_set k v d) = dict_get k' d.
Proof.
  intros Hne. induction d as [|[k0 v0] d IH]; simpl.
  - by apply str_eqb_false in Hne as ->.
  - destruct (str_eqb k0 k) eqn:Hk; simpl; [|by rewrite IH].
    apply str_eqb_true in Hk as ->.
    by apply str_eqb_false in Hne as ->.
Qed.

Lemma dict_set_nonempty k v d : dict_set k v d ≠ [].
Proof. destruct d as [|[k' v'] d]; simpl; [done | by destruct (str_eqb k' k)]. Qed.

Lemma mapM_ok_length {A B} (f : A → result B) l l' :
  mapM f l = Ok l' → length l' = length l.
Proof.
  revert l'. induction l as [|x l IH]; intros l'; simpl.
  - by intros [= <-].
  - destruct (f x) as [y|e]; simpl; [|done].
    destruct (mapM f l) as [k|e] eqn:Hk; simpl; [|done].
    intros [= <-]. simpl. f_equal. by apply IH.
Qed.

End PyProps.

Module SynthesizerProps.
Import Py GeminiService PyProps.

(** *** Normalization of a parsed object *)

Lemma fill_required_obj d k dflt :
  fill_required (JObj d) k dflt = Ok (JObj (fill_key k dflt d)).
Proof.
  unfold fill_required, fill_key, contains, dict_mem. simpl.
  destruct (dict_get k d) as [v|]; simpl; [|done].
  by destruct (is_none v).
Qed.

Lemma fill_all_obj d items :
  fill_all (JObj d) items = Ok (JObj (fill_keys d items)).
Proof.
  revert d. induction items as [|[k dflt] items IH]; intros d; simpl; [done|].
  rewrite fill_required_obj. simpl. apply IH.
Qed.

Lemma fill_required_not_obj v k dflt :
  is_object v = false → raises (fill_required v k dflt) = true.
Proof.
  destruct v as [| | | | s | l | d]; try done; intros _;
    unfold fill_required; simpl.
  - by destruct (is_substring k s).
  - by destruct (existsb _ l).
Qed.

Lemma dict_get_fill_key_eq k dflt d :
  dict_get k (fill_key k dflt d) = Some (filled k dflt d).
Proof.
  unfold fill_key, filled.
  destruct (dict_get k d) as [v|] eqn:Hg; [|apply dict_get_set_eq].
  destruct (is_none v); [apply dict_get_set_eq | done].
Qed.

Lemma dict_get_fill_key_ne k k' dflt d :
  k ≠ k' → dict_get k' (fill_key k dflt d) = dict_get k' d.
Proof.
  intros Hne. unfold fill_key.
  destruct (dict_get k d) as [v|]; [destruct (is_none v)|];
    try done; by apply dict_get_set_ne.
Qed.

Lemma filled_fill_key_ne k k' dflt dflt' d :
  k ≠ k' → filled k' dflt' (fill_key k dflt d) = filled k' dflt' d.
Proof. intros. unfold filled. by rewrite dict_get_fill_key_ne. Qed.

(** After the loop over keys that are pairwise distinct, each of them holds
    its filled value and every other key is as it was. *)
Lemma dict_get_fill_keys_other k d items :
  k ∉ List.map fst items → dict_get k (fill_keys d items) = dict_get k d.
Proof.
  revert d. induction items as [|[k0 d0] items IH]; intros d Hk; simpl; [done|].
  simpl in Hk. apply not_elem_of_cons in Hk as [Hne Hk].
  rewrite IH by done. by apply dict_get_fill_key_ne.
Qed.

Lemma dict_get_fill_keys_in k dflt d items :
  NoDup (List.map fst items) → (k, dflt) ∈ items →
  dict_get k (fill_keys d items) = Some (filled k dflt d).
Proof.
  revert d. induction items as [|[k0 d0] items IH]; intros d Hnd Hin; simpl.
  - by apply elem_of_nil in Hin.
  - simpl in Hnd. apply NoDup_cons in Hnd as [Hk0 Hnd].
    apply elem_of_cons in Hin as [[= -> ->]|Hin].
    + rewrite dict_get_fill_keys_other by done. apply dict_get_fill_key_eq.
    + rewrite IH by done. f_equal. apply filled_fill_key_ne.
      intros ->. apply Hk0. apply list_elem_of_fmap. by exists (k, dflt).
Qed.

Lemma required_keys_nodup : NoDup (List.map fst required_keys).
Proof. apply (bool_decide_unpack _). by vm_compute. Qed.

Arguments fill_keys : simpl never.

Ltac solve_member :=
  unfold required_keys, section_defaults;
  repeat first [ apply list_elem_of_here | apply list_elem_of_further ].

Lemma dict_get_required k dflt d :
  (k, dflt) ∈ required_keys →
  dict_get k (fill_keys d required_keys) = Some (filled k dflt d).
Proof. apply dict_get_fill_keys_in, required_keys_nodup. Qed.

Lemma fill_missing_obj e k dflt :
  fill_missing (JObj e) k dflt = Ok (JObj (add_missing k dflt e)).
Proof. unfold fill_missing, add_missing. simpl. by destruct (dict_mem k e). Qed.

Lemma fix_section_obj e : fix_section (JObj e) = Ok (JObj (fixed_section e)).
Proof.
  unfold fix_section.
  repeat (rewrite fill_missing_obj; cbn [mbind result_bind]). done.
Qed.

Lemma fill_missing_str s k dflt r :
  fill_missing (JStr s) k dflt = Ok r → r = JStr s.
Proof.
  unfold fill_missing. simpl. destruct (is_substring k s); simpl; congruence.
Qed.

(** Assigning into a key or a character never succeeds: a body that does not
    raise on a string has left it alone. *)
Lemma fix_section_str s r : fix_section (JStr s) = Ok r → r = JStr s.
Proof.
  unfold fix_section. intros H.
  destruct (fill_missing (JStr s) (lit "heading") _) as [r1|] eqn:H1; [|done].
  apply fill_missing_str in H1 as ->. simpl in H.
  destruct (fill_missing (JStr s) (lit "content") _) as [r2|] eqn:H2; [|done].
  apply fill_missing_str in H2 as ->. simpl in H.
  destruct (fill_missing (JStr s) (lit "bullet_points") _) as [r3|] eqn:H3; [|done].
  apply fill_missing_str in H3 as ->. simpl in H.
  by apply fill_missing_str in H.
Qed.

Lemma fix_section_char c : raises (fix_section (JStr [c])) = true.
Proof.
  unfold fix_section, fill_missing. simpl.
  by rewrite andb_false_r.
Qed.

Lemma mapM_fix_section_objects l :
  forallb is_object l = true →
  mapM fix_section l
  = Ok (List.map (λ v, match v with JObj e => JObj (fixed_section e) | _ => v end) l).
Proof.
  induction l as [|v l IH]; simpl; [done|].
  intros [Hv Hl]%andb_prop. destruct v; try done.
  rewrite fix_section_obj, IH by done. done.
Qed.

(** The loop over a non-empty "sections": a list keeps its length, a dict is
    returned as it is, anything else raises. *)
Lemma for_each_fix_section_shape s s' :
  truthy s = true → for_each fix_section s = Ok s' →
  (nonempty_sequence s = true ∧ nonempty_sequence s' = true)
  ∨ (nonempty_mapping s = true ∧ s' = s).
Proof.
  destruct s as [| | | | s | l | d]; simpl; try done.
  - destruct s as [|c s]; [done|]. intros _. simpl.
    pose proof (fix_section_char c) as Hc.
    destruct (fix_section (JStr [c])); [done|]. done.
  - destruct l as [|x l]; [done|]. intros _.
    destruct (mapM fix_section (x :: l)) as [l'|] eqn:Hm; simpl; [|done].
    intros [= <-]. left. split; [done|].
    apply mapM_ok_length in Hm. by destruct l'.
  - destruct d as [|kv d]; [done|]. intros _.
    destruct (mapM fix_section _) as [l'|]; simpl; [|done].
    intros [= <-]. by right.
Qed.

Lemma validate_obj d :
  _validate_notes_structure (JObj d) =
    let d1 := fill_keys d required_keys in
    let s := filled (lit "sections") (JArr []) d in
    if truthy s then
      s' ← for_each fix_section s;
      Ok (JObj (dict_set (lit "sections") s' d1))
    else
      Ok (JObj (dict_set (lit "sections")
                  (JArr [overview_section
                           (filled (lit "summary")
                              (JStr (lit "Summary unavailable")) d)]) d1)).
Proof.
  unfold _validate_notes_structure. rewrite fill_all_obj.
  cbn [mbind result_bind getitem].
  rewrite (dict_get_required (lit "sections") (JArr [])) by solve_member.
  cbn [mbind result_bind getitem setitem].
  rewrite (dict_get_required (lit "summary") (JStr (lit "Summary unavailable")))
    by solve_member.
  cbn zeta. destruct (truthy _); [|done].
  by destruct (for_each _ _).
Qed.

Lemma validate_not_obj v :
  is_object v = false → raises (_validate_notes_structure v) = true.
Proof.
  intros Hv. unfold _validate_notes_structure, required_keys.
  cbn [fill_all]. pose proof (fill_required_not_obj v (lit "title")
                                (JStr (lit "Untitled Lecture")) Hv) as Hr.
  by destruct (fill_required v _ _).
Qed.

Lemma filled_not_none k dflt d :
  is_none dflt = false → is_none (filled k dflt d) = false.
Proof.
  intros Hd. unfold filled. destruct (dict_get k d) as [v|]; [|done].
  by destruct (is_none v) eqn:Hv.
Qed.

Lemma required_defaults_not_none k dflt :
  (k, dflt) ∈ required_keys → is_none dflt = false.
Proof.
  unfold required_keys. rewrite !elem_of_cons, elem_of_nil.
  intros H. repeat destruct H as [H|H]; try done; by injection H as -> ->.
Qed.

Lemma fields_present_after d x :
  is_none x = false →
  forallb (field_present (JObj (dict_set (lit "sections") x
                                  (fill_keys d required_keys))))
    top_level_fields = true.
Proof.
  intros Hx. apply forallb_forall. intros k Hin.
  apply in_map_iff in Hin as [[k' dflt] [<- Hin]]. simpl.
  apply list_elem_of_In in Hin.
  destruct (decide (k' = lit "sections")) as [->|Hne].
  - by rewrite dict_get_set_eq, Hx.
  - rewrite dict_get_set_ne by done.
    rewrite (dict_get_required k' dflt) by done.
    rewrite filled_not_none; [done|]. by eapply required_defaults_not_none.
Qed.

(** What [_validate_notes_structure] returns, whenever it returns: an object
    with the seven fields, whose "sections" is a non-empty list, or the
    non-empty dict the parsed value already had there. *)
Lemma validate_ok_shape v r :
  _validate_notes_structure v = Ok r →
  forallb (field_present r) top_level_fields = true
  ∧ (nonempty_sequence (sections_of r) = true
     ∨ (nonempty_mapping (sections_of r) = true
        ∧ sections_of r = sections_of v)).
Proof.
  destruct (is_object v) eqn:Hv.
  2:{ intros H. pose proof (validate_not_obj v Hv) as Hr. by rewrite H in Hr. }
  destruct v as [| | | | | | d]; try done. clear Hv.
  rewrite validate_obj. cbn zeta.
  destruct (truthy _) eqn:Ht.
  - destruct (for_each _ _) as [s'|] eqn:Hf; simpl; [|done].
    intros [= <-].
    destruct (for_each_fix_section_shape _ _ Ht Hf) as [[_ Hs']|[Hs ->]].
    + split; [apply fields_present_after; by destruct s' | left].
      simpl. by rewrite dict_get_set_eq.
    + split; [apply fields_present_after;
              by destruct (filled _ _ d) | right].
      simpl. rewrite dict_get_set_eq. simpl. split; [done|].
      revert Hs. unfold filled.
      destruct (dict_get (lit "sections") d) as [x|]; simpl; [|done].
      by destruct (is_none x).
  - intros [= <-]. split; [by apply fields_present_after | left].
    simpl. by rewrite dict_get_set_eq.
Qed.

Lemma fallback_shape t msg :
  forallb (field_present (_create_fallback_notes t msg)) top_level_fields = true
  ∧ nonempty_sequence (sections_of (_create_fallback_notes t msg)) = true.
Proof. split; reflexivity. Qed.

Section Properties.

Variable generate_content : request → result pystr.
Variable json_loads : pystr → result json.

Abbreviation generate_notes := (generate_notes generate_content json_loads).
Abbreviation _extract_json_from_response :=
  (_extract_json_from_response json_loads).

Lemma long_enough_accepted transcript :
  50 ≤ len (strip transcript) →
  negb (truthy (JStr transcript)) || (len (strip transcript) <? 50) = false.
Proof.
  intros H. destruct transcript as [|c t]; [by vm_compute in H|]. simpl.
  by apply Z.ltb_ge.
Qed.

(** The call once the precondition holds: one request, and the [try] block
    with its handler. *)
Lemma generate_notes_accepted transcript :
  50 ≤ len (strip transcript) →
  generate_notes transcript =
    ([request_for (_create_prompt (truncated transcript))],
     try_except
       (response_text ← generate_content
                          (request_for (_create_prompt (truncated transcript)));
        notes ← _extract_json_from_response response_text;
        notes ← _validate_notes_structure notes;
        Ok notes)
       (λ e, Ok (_create_fallback_notes (truncated transcript) (exn_msg e)))).
Proof.
  intros H. unfold GeminiService.generate_notes, _generate_notes_sync.
  by rewrite long_enough_accepted.
Qed.

(** Whatever [generate_notes] returns is a dict. *)
Lemma generate_notes_returns_object transcript notes :
  (generate_notes transcript).2 = Ok notes → is_object notes = true.
Proof.
  destruct (Z.lt_ge_cases (len (strip transcript)) 50) as [Hlt|Hge].
  - unfold GeminiService.generate_notes, _generate_notes_sync.
    apply Z.ltb_lt in Hlt as ->. by rewrite orb_true_r.
  - rewrite generate_notes_accepted by done. cbn [snd].
    destruct (generate_content _) as [response_text|e];
      cbn [try_except mbind result_bind]; [|by intros [= <-]].
    destruct (_extract_json_from_response response_text) as [parsed|e];
      cbn [try_except mbind result_bind]; [|by intros [= <-]].
    destruct (_validate_notes_structure parsed) as [v|e] eqn:Hv;
      cbn [try_except mbind result_bind]; [|by intros [= <-]].
    intros [= <-]. apply validate_ok_shape in Hv as [Hf _].
    by destruct v.
Qed.

(** The keys of the table of defaults are the seven fields of the notes. *)
Lemma seven_fields :
  [ lit "title"; lit "summary"; lit "sections"; lit "key_terms";
    lit "formulas"; lit "action_items"; lit "questions" ]
  = top_level_fields.
Proof. reflexivity. Qed.

(** C2, as amended. Once the trimmed transcript has at least 50 characters,
    [generate_notes] returns notes, whatever the provider answers: the seven
    top-level fields are present, and "sections" is a non-empty list, or the
    non-empty object the provider's own JSON carried under "sections" (the
    validation step checks no types and returns such an object as it is). *)
Theorem generate_notes_structured transcript :
  50 ≤ len (strip transcript) →
  ∃ notes,
    (generate_notes transcript).2 = Ok notes
    ∧ forallb (field_present notes)
        [ lit "title"; lit "summary"; lit "sections"; lit "key_terms";
          lit "formulas"; lit "action_items"; lit "questions" ] = true
    ∧ (nonempty_sequence (sections_of notes) = true
       ∨ (nonempty_mapping (sections_of notes) = true
          ∧ ∃ response_text parsed,
              generate_content
                (request_for (_create_prompt (truncated transcript)))
              = Ok response_text
              ∧ _extract_json_from_response response_text = Ok parsed
              ∧ sections_of parsed = sections_of notes)).
Proof.
  intros H. rewrite seven_fields.
  rewrite generate_notes_accepted by done. cbn [snd].
  assert (Hfb : ∀ msg, ∃ notes,
             Ok (_create_fallback_notes (truncated transcript) msg) = Ok notes
             ∧ forallb (field_present notes) top_level_fields = true
             ∧ (nonempty_sequence (sections_of notes) = true
                ∨ (nonempty_mapping (sections_of notes) = true
                   ∧ ∃ response_text parsed,
                       generate_content
                         (request_for (_create_prompt (truncated transcript)))
                       = Ok response_text
                       ∧ _extract_json_from_response response_text = Ok parsed
                       ∧ sections_of parsed = sections_of notes))).
  { intros msg. eexists. split; [done|].
    split; [apply fallback_shape | left; apply fallback_shape]. }
  destruct (generate_content _) as [response_text|e] eqn:Hg;
    cbn [try_except mbind result_bind]; [|apply Hfb].
  destruct (_extract_json_from_response response_text) as [parsed|e] eqn:He;
    cbn [try_except mbind result_bind]; [|apply Hfb].
  destruct (_validate_notes_structure parsed) as [notes|e] eqn:Hv;
    cbn [try_except mbind result_bind]; [|apply Hfb].
  exists notes. split; [done|].
  destruct (validate_ok_shape _ _ Hv) as [Hf [Hs|[Hm Heq]]]; split; auto.
  right. split; [done|]. by exists response_text, parsed.
Qed.

(** C3. A transcript whose trimmed length is under 50 makes [generate_notes]
    raise the validation error (a [ValueError]); the error comes out of the
    call, and no request has gone to the provider. *)
Theorem generate_notes_rejects_short transcript :
  len (strip transcript) < 50 →
  generate_notes transcript
  = ([], Raise (ValueError (lit "Transcript is too short or empty"))).
Proof.
  intros H. unfold GeminiService.generate_notes, _generate_notes_sync.
  apply Z.ltb_lt in H as ->. by rewrite orb_true_r.
Qed.

(** C4, as amended. Once the precondition holds, an exception raised by the
    provider call, by the extraction of the JSON, or by the validation step
    is caught, and [generate_notes] returns the fallback notes built from the
    transcript (cut to the character budget) and the message of the
    exception: the fixed title, the summary ending in the first 100
    characters of the message, one "Transcript Preview" section holding the
    preview of the transcript, no key terms, formulas or questions, and the
    one action item. A response that parses and validates, complete or not,
    is no failure: the validated notes are returned. *)
Theorem generate_notes_fail_soft transcript :
  50 ≤ len (strip transcript) →
  let t := truncated transcript in
  let answer := generate_content (request_for (_create_prompt t)) in
  let fallback msg :=
    JObj
      [ (lit "title", JStr (lit "Lecture Notes (Auto-generated)"));
        (lit "summary",
          JStr (lit "Automatic transcription available. Manual review recommended. Error: "
                ++ slice_to 100 msg));
        (lit "sections",
          JArr [ JObj [ (lit "heading", JStr (lit "Transcript Preview"));
                        (lit "content", JStr (preview_of t));
                        (lit "bullet_points",
                          JArr [ JStr (lit "Full transcript available");
                                 JStr (lit "AI note generation encountered an error");
                                 JStr (lit "Please review the raw transcript") ]);
                        (lit "timestamp", JNull) ] ]);
        (lit "key_terms", JArr []);
        (lit "formulas", JArr []);
        (lit "action_items", JArr [JStr (lit "Review full transcript manually")]);
        (lit "questions", JArr []) ] in
  (∀ e, answer = Raise e →
        (generate_notes transcript).2 = Ok (fallback (exn_msg e)))
  ∧ (∀ response_text e,
        answer = Ok response_text →
        _extract_json_from_response response_text = Raise e →
        (generate_notes transcript).2 = Ok (fallback (exn_msg e)))
  ∧ (∀ response_text parsed e,
        answer = Ok response_text →
        _extract_json_from_response response_text = Ok parsed →
        _validate_notes_structure parsed = Raise e →
        (generate_notes transcript).2 = Ok (fallback (exn_msg e)))
  ∧ (∀ response_text parsed notes,
        answer = Ok response_text →
        _extract_json_from_response response_text = Ok parsed →
        _validate_notes_structure parsed = Ok notes →
        (generate_notes transcript).2 = Ok notes).
Proof.
  intros H t answer fallback. subst t answer.
  rewrite generate_notes_accepted by done. cbn [snd].
  repeat split.
  - by intros e ->.
  - intros response_text e ->. cbn [mbind result_bind]. by intros ->.
  - intros response_text parsed e ->. cbn [mbind result_bind]. intros ->.
    cbn [mbind result_bind]. by intros ->.
  - intros response_text parsed notes ->. cbn [mbind result_bind]. intros ->.
    cbn [mbind result_bind]. by intros ->.
Qed.

End Properties.

(** *** The validation step on a parsed object *)

Ltac solve_key_ne := by (apply (bool_decide_unpack _); vm_compute).

Lemma dict_get_add_missing_eq k dflt e :
  dict_get k (add_missing k dflt e) = Some (default dflt (dict_get k e)).
Proof.
  unfold add_missing, dict_mem.
  destruct (dict_get k e) as [v|] eqn:Hg; [done|]. apply dict_get_set_eq.
Qed.

Lemma dict_get_add_missing_ne k k' dflt e :
  k ≠ k' → dict_get k' (add_missing k dflt e) = dict_get k' e.
Proof.
  intros Hne. unfold add_missing. destruct (dict_mem k e); [done|].
  by apply dict_get_set_ne.
Qed.

Lemma fixed_section_defaults k dflt e :
  (k, dflt) ∈ section_defaults →
  dict_get k (fixed_section e) = Some (default dflt (dict_get k e)).
Proof.
  unfold section_defaults, fixed_section.
  rewrite !elem_of_cons, elem_of_nil.
  intros [H|[H|[H|[H|[]]]]]; injection H as -> ->.
  - rewrite !dict_get_add_missing_ne by solve_key_ne.
    apply dict_get_add_missing_eq.
  - rewrite !dict_get_add_missing_ne by solve_key_ne.
    rewrite dict_get_add_missing_eq.
    by rewrite dict_get_add_missing_ne by solve_key_ne.
  - rewrite !dict_get_add_missing_ne by solve_key_ne.
    rewrite dict_get_add_missing_eq.
    by rewrite !dict_get_add_missing_ne by solve_key_ne.
  - rewrite dict_get_add_missing_eq.
    by rewrite !dict_get_add_missing_ne by solve_key_ne.
Qed.

Lemma fixed_section_others k e :
  k ∉ List.map fst section_defaults →
  dict_get k (fixed_section e) = dict_get k e.
Proof.
  unfold section_defaults, fixed_section. cbn [List.map fst].
  rewrite !not_elem_of_cons. intros (? & ? & ? & ? & _).
  by rewrite !dict_get_add_missing_ne.
Qed.

(** The validation step on a parsed object whose "sections" is absent,
    [None] or a list of objects, read against the table of defaults and the
    defaults of a section. *)
Lemma validate_well_formed (d : dict) :
  sections_well_formed d = true →
  ∃ d',
    _validate_notes_structure (JObj d) = Ok (JObj d')
    ∧ (∀ k dflt, (k, dflt) ∈ required_keys → k ≠ lit "sections" →
         dict_get k d' = Some (filled k dflt d))
    ∧ (filled (lit "sections") (JArr []) d = JArr [] →
         dict_get (lit "sections") d'
         = Some (JArr [ JObj
              [ (lit "heading", JStr (lit "Overview"));
                (lit "content",
                  filled (lit "summary") (JStr (lit "Summary unavailable")) d);
                (lit "bullet_points",
                  JArr [JStr (lit "See transcript for full details")]);
                (lit "timestamp", JNull) ] ]))
    ∧ (∀ x l, filled (lit "sections") (JArr []) d = JArr (x :: l) →
         ∃ l', dict_get (lit "sections") d' = Some (JArr l')
           ∧ length l' = length (x :: l)
           ∧ ∀ i e, (x :: l) !! i = Some (JObj e) →
               ∃ e', l' !! i = Some (JObj e')
                 ∧ (∀ k dflt, (k, dflt) ∈ section_defaults →
                      dict_get k e' = Some (default dflt (dict_get k e)))
                 ∧ (∀ k, k ∉ List.map fst section_defaults →
                      dict_get k e' = dict_get k e)).
Proof.
  intros Hwf. rewrite validate_obj. cbn zeta.
  assert (Hs : filled (lit "sections") (JArr []) d = JArr []
               ∨ ∃ x l, dict_get (lit "sections") d = Some (JArr (x :: l))
                        ∧ forallb is_object (x :: l) = true).
  { revert Hwf. unfold sections_well_formed, filled.
    destruct (dict_get (lit "sections") d) as [[| | | | |[|x l]|]|];
      try done; eauto. }
  destruct Hs as [Hs|(x & l & Hg & Hobj)].
  - rewrite Hs. cbn [truthy]. eexists. split; [done|]. split; [|split].
    + intros k dflt Hin Hne. rewrite dict_get_set_ne by done.
      by apply dict_get_required.
    + intros _. by rewrite dict_get_set_eq.
    + intros ??. done.
  - assert (Hf : filled (lit "sections") (JArr []) d = JArr (x :: l))
      by (unfold filled; by rewrite Hg).
    rewrite Hf. cbn [truthy for_each].
    rewrite mapM_fix_section_objects by done. cbn [mbind result_bind].
    eexists. split; [done|]. split; [|split].
    + intros k dflt Hin Hne. rewrite dict_get_set_ne by done.
      by apply dict_get_required.
    + done.
    + intros x' l' [= <- <-]. eexists. split; [apply dict_get_set_eq|].
      split; [by rewrite length_map|].
      intros i e Hi. exists (fixed_section e). split; [|split].
      * change (List.map ?f ?l) with (f <$> l).
        by rewrite list_lookup_fmap, Hi.
      * intros k dflt. apply fixed_section_defaults.
      * intros k. apply fixed_section_others.
Qed.

(** C5, as amended. On a parsed object whose "sections" is absent, [None]
    or a list of objects, the validation step returns an object in which
    each of the six other fields that was absent or [None] holds its named
    default ("Untitled Lecture", "Summary unavailable", the empty list for
    the four list fields) and the rest their own values; empty "sections"
    become the one "Overview" section made from the summary; and in
    non-empty "sections" every element has the four section keys, a missing
    one with its default ("Untitled Section", the empty string, the empty
    list, [None]), and is otherwise as it was. *)
Theorem validate_notes_structure_normalizes (d : dict) :
  sections_well_formed d = true →
  ∃ d',
    _validate_notes_structure (JObj d) = Ok (JObj d')
    ∧ (dict_get (lit "title") d'
       = Some (filled (lit "title") (JStr (lit "Untitled Lecture")) d)
       ∧ dict_get (lit "summary") d'
         = Some (filled (lit "summary") (JStr (lit "Summary unavailable")) d)
       ∧ dict_get (lit "key_terms") d'
         = Some (filled (lit "key_terms") (JArr []) d)
       ∧ dict_get (lit "formulas") d'
         = Some (filled (lit "formulas") (JArr []) d)
       ∧ dict_get (lit "action_items") d'
         = Some (filled (lit "action_items") (JArr []) d)
       ∧ dict_get (lit "questions") d'
         = Some (filled (lit "questions") (JArr []) d))
    ∧ (filled (lit "sections") (JArr []) d = JArr [] →
         dict_get (lit "sections") d'
         = Some (JArr [ JObj
              [ (lit "heading", JStr (lit "Overview"));
                (lit "content",
                  filled (lit "summary") (JStr (lit "Summary unavailable")) d);
                (lit "bullet_points",
                  JArr [JStr (lit "See transcript for full details")]);
                (lit "timestamp", JNull) ] ]))
    ∧ (∀ x l, filled (lit "sections") (JArr []) d = JArr (x :: l) →
         ∃ l', dict_get (lit "sections") d' = Some (JArr l')
           ∧ length l' = length (x :: l)
           ∧ ∀ i e, (x :: l) !! i = Some (JObj e) →
               ∃ e', l' !! i = Some (JObj e')
                 ∧ dict_get (lit "heading") e'
                   = Some (default (JStr (lit "Untitled Section"))
                             (dict_get (lit "heading") e))
                 ∧ dict_get (lit "content") e'
                   = Some (default (JStr []) (dict_get (lit "content") e))
                 ∧ dict_get (lit "bullet_points") e'
                   = Some (default (JArr []) (dict_get (lit "bullet_points") e))
                 ∧ dict_get (lit "timestamp") e'
                   = Some (default JNull (dict_get (lit "timestamp") e))
                 ∧ (∀ k, k ∉ [ lit "heading"; lit "content";
                               lit "bullet_points"; lit "timestamp" ] →
                      dict_get k e' = dict_get k e)).
Proof.
  intros Hwf.
  destruct (validate_well_formed d Hwf) as (d' & Hv & Hk & He & Hs).
  exists d'. split; [exact Hv|]. split; [|split; [exact He|]].
  - repeat split; apply Hk; (solve_member || solve_key_ne).
  - intros x l Hf. destruct (Hs x l Hf) as (l' & Hg & Hlen & Hel).
    exists l'. split; [exact Hg|]. split; [exact Hlen|].
    intros i e Hi. destruct (Hel i e Hi) as (e' & Hi' & Hd & Ho).
    exists e'. split; [exact Hi'|].
    repeat split; try (apply Hd; solve_member).
    exact Ho.
Qed.

(** *** The properties on concrete inputs *)

Import Scenario.

Lemma generate_notes_structured_witness :
  50 ≤ len (strip lecture_text)
  ∧ ∃ notes,
      (generate_notes (answers_with mapping_sections_text) json_loads
         lecture_text).2 = Ok notes
      ∧ forallb (field_present notes)
          [ lit "title"; lit "summary"; lit "sections"; lit "key_terms";
            lit "formulas"; lit "action_items"; lit "questions" ] = true
      ∧ (nonempty_sequence (sections_of notes) = true
         ∨ (nonempty_mapping (sections_of notes) = true
            ∧ ∃ response_text parsed,
                answers_with mapping_sections_text
                  (request_for (_create_prompt (truncated lecture_text)))
                = Ok response_text
                ∧ _extract_json_from_response json_loads response_text
                  = Ok parsed
                ∧ sections_of parsed = sections_of notes)).
Proof.
  split; [by vm_compute|].
  apply (generate_notes_structured (answers_with mapping_sections_text)
           json_loads lecture_text).
  by vm_compute.
Defined.

(** C2 as stated fails: the provider answers with a JSON object whose
    "sections" is an object with one key that contains the four section key
    names; the validation loop runs over that key without raising, and the
    notes come back with "sections" an object, not a sequence. *)
Lemma generate_notes_sections_may_be_mapping :
  ¬ ∃ notes,
      (generate_notes (answers_with mapping_sections_text) json_loads
         lecture_text).2 = Ok notes
      ∧ forallb (field_present notes)
          [ lit "title"; lit "summary"; lit "sections"; lit "key_terms";
            lit "formulas"; lit "action_items"; lit "questions" ] = true
      ∧ nonempty_sequence (sections_of notes) = true.
Proof.
  intros (notes & H & _ & Hs). vm_compute in H. injection H as <-.
  vm_compute in Hs. discriminate.
Qed.

Lemma generate_notes_rejects_short_witness :
  len (strip short_text) < 50
  ∧ generate_notes provider_down json_loads short_text
    = ([], Raise (ValueError (lit "Transcript is too short or empty"))).
Proof.
  split; [by vm_compute|].
  apply (generate_notes_rejects_short provider_down json_loads short_text).
  by vm_compute.
Defined.

Lemma generate_notes_fail_soft_witness :
  50 ≤ len (strip lecture_text)
  ∧ (generate_notes provider_down json_loads lecture_text).2
    = Ok (_create_fallback_notes lecture_text
            (lit "503 The model is overloaded"))
  ∧ (generate_notes (answers_with apology_text) json_loads lecture_text).2
    = Ok (_create_fallback_notes lecture_text
            (lit "Expecting value: line 1 column 1 (char 0)")).
Proof.
  assert (H : 50 ≤ len (strip lecture_text)) by (by vm_compute).
  split; [exact H|]. split.
  - destruct (generate_notes_fail_soft provider_down json_loads lecture_text H)
      as [Hp _].
    apply (Hp (Exn "ServiceUnavailable" (lit "503 The model is overloaded"))).
    reflexivity.
  - destruct (generate_notes_fail_soft (answers_with apology_text) json_loads
                lecture_text H) as (_ & He & _).
    apply (He apology_text
             (Exn "JSONDecodeError"
                (lit "Expecting value: line 1 column 1 (char 0)")));
      by vm_compute.
Defined.

(** C4 as stated fails: a schema-incomplete answer (the empty JSON object) is
    no failure; the notes returned are the validated ones, with the default
    title, and not the fallback notes. *)
Lemma schema_incomplete_answer_is_not_fallback :
  ¬ ∃ error_msg,
      (generate_notes (answers_with empty_object_text) json_loads
         lecture_text).2
      = Ok (_create_fallback_notes (truncated lecture_text) error_msg).
Proof. intros [error_msg H]. vm_compute in H. discriminate. Qed.

Lemma validate_notes_structure_normalizes_witness :
  sections_well_formed partial_notes = true
  ∧ ∃ d',
      _validate_notes_structure (JObj partial_notes) = Ok (JObj d')
      ∧ dict_get (lit "title") d' = Some (JStr (lit "Untitled Lecture"))
      ∧ dict_get (lit "key_terms") d' = Some (JArr [])
      ∧ dict_get (lit "formulas") d' = Some (JArr [])
      ∧ dict_get (lit "action_items") d' = Some (JArr [])
      ∧ dict_get (lit "questions") d' = Some (JArr []).
Proof.
  split; [reflexivity|].
  destruct (validate_notes_structure_normalizes partial_notes)
    as (d' & Hv & (Ht & _ & Hk & Hf & Ha & Hq) & _); [reflexivity|].
  exists d'. split; [exact Hv|]. by repeat split.
Defined.

(** C5 as stated fails: the step checks no types. An element of "sections"
    that is a string in which the four key names occur passes the four
    tests of the loop and is left as it is, with none of the four keys. *)
Lemma validate_notes_structure_element_left_unfilled :
  ¬ ∃ d' l',
      _validate_notes_structure (JObj Samples.string_section_notes)
      = Ok (JObj d')
      ∧ dict_get (lit "sections") d' = Some (JArr l')
      ∧ forallb Samples.has_section_keys l' = true.
Proof.
  intros (d' & l' & Hv & Hs & Hk). vm_compute in Hv. injection Hv as <-.
  vm_compute in Hs. injection Hs as <-. vm_compute in Hk. discriminate.
Qed.

(** What comes back in that case is the string. *)
Lemma validate_notes_structure_returns_the_string :
  ∃ d',
    _validate_notes_structure (JObj Samples.string_section_notes)
    = Ok (JObj d')
    ∧ dict_get (lit "sections") d'
      = Some (JArr [ JStr (lit "heading content bullet_points timestamp") ]).
Proof. eexists. split; reflexivity. Qed.

(** And an element that is a number makes the step raise: the test
    ["heading" not in section] has no meaning on it. *)
Lemma validate_notes_structure_raises_on_a_number :
  _validate_notes_structure (JObj Samples.number_section_notes)
  = Raise (TypeError (lit "argument of type 'int' is not iterable")).
Proof. reflexivity. Qed.

End SynthesizerProps.

Module PollingProps.
Import Py AssemblyAIService PyProps.

Section Properties.

Variable poll : nat → result json.
Variable repr : json → pystr.

Abbreviation get_transcript := (get_transcript poll repr).
Abbreviation poll_once := (poll_once poll repr).
Abbreviation turn := (turn poll repr).
Abbreviation delivers := (delivers poll).
Abbreviation pending := (pending poll).

Lemma poll_once_pending k : pending k → poll_once k = Ok None.
Proof.
  intros (d & s & [Hp Hs] & Ht). unfold AssemblyAIService.poll_once.
  rewrite Hp. cbn [mbind result_bind getitem]. rewrite Hs.
  cbn [mbind result_bind].
  apply orb_false_elim in Ht as [-> ->]. done.
Qed.

Lemma poll_once_completed k d :
  delivers k d (JStr (lit "completed")) → poll_once k = Ok (Some (JObj d)).
Proof.
  intros [Hp Hs]. unfold AssemblyAIService.poll_once.
  rewrite Hp. cbn [mbind result_bind getitem]. rewrite Hs.
  cbn [mbind result_bind]. by vm_compute.
Qed.

Lemma poll_once_error k d :
  delivers k d (JStr (lit "error")) →
  poll_once k
  = Raise (Exn "Exception"
             (lit "Transcription failed: "
              ++ format_value repr (default JNull (dict_get (lit "error") d)))).
Proof.
  intros [Hp Hs]. unfold AssemblyAIService.poll_once.
  rewrite Hp. cbn [mbind result_bind getitem]. rewrite Hs.
  cbn [mbind result_bind]. by vm_compute.
Qed.

(** While every poll so far was pending, the call is still running: [n]
    polls made, [n] sleeps of five seconds. *)
Lemma still_running n :
  (∀ k, (k < n)%nat → pending k) →
  get_transcript n = Progress n (5 * Z.of_nat n) None.
Proof.
  induction n as [|n IH]; intros Hp; [done|].
  cbn [AssemblyAIService.get_transcript]. rewrite IH by (intros; apply Hp; lia).
  unfold AssemblyAIService.turn. cbn [ended polls slept].
  rewrite poll_once_pending by (apply Hp; lia).
  unfold poll_interval. f_equal. lia.
Qed.

Lemma turn_ended p r : ended p = Some r → turn p = p.
Proof. intros H. unfold AssemblyAIService.turn. by rewrite H. Qed.

Lemma ended_for_good n r :
  ended (get_transcript n) = Some r →
  ∀ m, (n ≤ m)%nat → get_transcript m = get_transcript n.
Proof.
  intros Hn m Hm. induction Hm as [|m Hm IH]; [done|].
  cbn [AssemblyAIService.get_transcript]. rewrite IH. by eapply turn_ended.
Qed.

(** The call ends at the turn that polls [n] when that poll ends the loop
    with [r] and all before it were pending. *)
Lemma ends_at n r :
  (∀ k, (k < n)%nat → pending k) →
  poll_once n = match r with Ok body => Ok (Some body) | Raise e => Raise e end →
  (∀ m, (m ≤ n)%nat → ended (get_transcript m) = None)
  ∧ (∀ m, (n < m)%nat →
       get_transcript m = Progress (S n) (5 * Z.of_nat n) (Some r)).
Proof.
  intros Hp Hn. split.
  - intros m Hm. by rewrite still_running by (intros; apply Hp; lia).
  - assert (Hs : get_transcript (S n) = Progress (S n) (5 * Z.of_nat n) (Some r)).
    { cbn [AssemblyAIService.get_transcript]. rewrite still_running by done.
      unfold AssemblyAIService.turn. cbn [ended polls slept]. rewrite Hn.
      by destruct r. }
    intros m Hm. rewrite (ended_for_good (S n) r) by (by rewrite ?Hs; try lia).
    done.
Qed.

(** C6. [get_transcript] sleeps five seconds between two polls and ends at
    the first poll whose status is terminal, not before: with the body for
    "completed"; for "error" with an exception whose message is
    "Transcription failed: " followed by the provider's error message (by
    what an f-string prints for the value when the body gives no string
    there). When no poll is terminal it is still running after any number
    of turns, with ever more time slept. For processing, processing,
    completed it returns after 10 seconds of sleep. *)
Theorem get_transcript_ends_at_first_terminal_status :
  (∀ n d,
     (∀ k, (k < n)%nat → pending k) →
     delivers n d (JStr (lit "completed")) →
     (∀ m, (m ≤ n)%nat → ended (get_transcript m) = None)
     ∧ (∀ m, (n < m)%nat →
          get_transcript m
          = Progress (S n) (poll_interval * Z.of_nat n) (Some (Ok (JObj d)))))
  ∧ (∀ n d,
       (∀ k, (k < n)%nat → pending k) →
       delivers n d (JStr (lit "error")) →
       (∀ m, (m ≤ n)%nat → ended (get_transcript m) = None)
       ∧ (∀ m, (n < m)%nat →
            get_transcript m
            = Progress (S n) (poll_interval * Z.of_nat n)
                (Some (Raise (Exn "Exception"
                   (lit "Transcription failed: "
                    ++ match dict_get (lit "error") d with
                       | Some (JStr message) => message
                       | Some v => repr v
                       | None => repr JNull
                       end))))))
  ∧ ((∀ k, pending k) →
       ∀ m, get_transcript m = Progress m (poll_interval * Z.of_nat m) None)
  ∧ (∀ d0 d1 d2,
       delivers 0 d0 (JStr (lit "processing")) →
       delivers 1 d1 (JStr (lit "processing")) →
       delivers 2 d2 (JStr (lit "completed")) →
       ∃ m, ended (get_transcript m) = Some (Ok (JObj d2))
            ∧ 10 ≤ slept (get_transcript m)).
Proof.
  unfold poll_interval. repeat split.
  - intros m Hm. eapply (ends_at n (Ok (JObj d))); eauto using poll_once_completed.
  - intros m Hm. eapply (ends_at n (Ok (JObj d))); eauto using poll_once_completed.
  - intros m Hm. eapply (ends_at n (Raise _)); eauto using poll_once_error.
  - intros m Hm.
    destruct (ends_at n (Raise _) H (poll_once_error n d H0)) as [_ He].
    rewrite (He m Hm). do 4 f_equal. unfold format_value.
    by destruct (dict_get (lit "error") d) as [[]|].
  - intros Hp m. by apply still_running.
  - intros d0 d1 d2 H0 H1 H2. exists 3%nat.
    assert (Hp : ∀ k, (k < 2)%nat → pending k).
    { intros k Hk. destruct k as [|[|k]]; [| |lia].
      - by exists d0, (JStr (lit "processing")).
      - by exists d1, (JStr (lit "processing")). }
    destruct (ends_at 2 (Ok (JObj d2)) Hp (poll_once_completed 2 d2 H2))
      as [_ He].
    rewrite (He 3%nat) by lia. cbn [ended slept]. split; [done | lia].
Qed.

End Properties.

Import Scenario.

Lemma get_transcript_three_polls_witness :
  (∃ m, ended (get_transcript three_polls repr_none m)
        = Some (Ok (JObj completed_body))
        ∧ 10 ≤ slept (get_transcript three_polls repr_none m))
  ∧ get_transcript failing_job repr_none 2
    = Progress 2 5
        (Some (Raise (Exn "Exception"
           (lit "Transcription failed: Audio duration is too short.")))).
Proof.
  destruct (get_transcript_ends_at_first_terminal_status three_polls repr_none)
    as (_ & _ & _ & H).
  destruct (get_transcript_ends_at_first_terminal_status failing_job repr_none)
    as (_ & He & _).
  split.
  - apply (H [ (lit "status", JStr (lit "processing")) ]
             [ (lit "status", JStr (lit "processing")) ] completed_body);
      by split.
  - apply (He 1%nat error_body).
    + intros k Hk. exists [ (lit "status", JStr (lit "processing")) ],
                          (JStr (lit "processing")).
      destruct k as [|k]; [done | lia].
    + by split.
    + lia.
Defined.

End PollingProps.

Module PipelineProps.
Import Py GeminiService Main PyProps.

(** *** The collections *)

Lemma update_first_new o f ls l :
  forallb (λ l, negb (has_id o l)) ls = true → has_id o l = true →
  update_first o f (ls ++ [l]) = ls ++ [f l].
Proof.
  intros Hls Hl. induction ls as [|x ls IH]; simpl.
  - by rewrite Hl.
  - simpl in Hls. apply andb_prop in Hls as [Hx Hls].
    apply negb_true_iff in Hx as ->. by rewrite IH.
Qed.

Lemma find_lecture_new o ls l ns fs :
  forallb (λ l, negb (has_id o l)) ls = true → has_id o l = true →
  find_lecture o (World (ls ++ [l]) ns fs) = Some l.
Proof.
  intros Hls Hl. unfold find_lecture. cbn [lectures].
  rewrite filter_app.
  assert (filter (λ l, has_id o l) ls = []) as ->.
  { induction ls as [|x ls IH]; [done|]. simpl in Hls.
    apply andb_prop in Hls as [Hx Hls]. apply negb_true_iff in Hx.
    rewrite filter_cons_False by (rewrite Hx; simpl; tauto). by apply IH. }
  rewrite filter_cons_True by (rewrite Hl; simpl; tauto). done.
Qed.

Lemma no_note_yet lecture_id ns :
  forallb (λ n, negb (str_eqb (note_lecture_id n) lecture_id)) ns = true →
  filter (λ n, note_lecture_id n = lecture_id) ns = [].
Proof.
  induction ns as [|n ns IH]; [done|]. simpl.
  intros [Hn Hns]%andb_prop. apply negb_true_iff, str_eqb_false in Hn.
  rewrite filter_cons_False by done. by apply IH.
Qed.

Lemma note_count_old lecture_id ls ns fs :
  forallb (λ n, negb (str_eqb (note_lecture_id n) lecture_id)) ns = true →
  note_count lecture_id (World ls ns fs) = 0%nat.
Proof. intros H. unfold note_count. cbn [notes]. by rewrite no_note_yet. Qed.

Lemma note_count_new lecture_id ls ns n fs :
  forallb (λ n, negb (str_eqb (note_lecture_id n) lecture_id)) ns = true →
  note_lecture_id n = lecture_id →
  note_count lecture_id (World ls (ns ++ [n]) fs) = 1%nat.
Proof.
  intros H Hn. unfold note_count. cbn [notes].
  rewrite filter_app, no_note_yet by done.
  by rewrite filter_cons_True by done.
Qed.

Arguments GeminiService.generate_notes : simpl never.
Arguments lit : simpl never.

Section Upload.

Variable json_loads : pystr → result json.
Variable ObjectId : pystr → result oid.
Variable oid_str : oid → pystr.
Variable E : env.

Abbreviation upload_lecture := (upload_lecture json_loads ObjectId oid_str E).
Abbreviation process := (process json_loads ObjectId E).
Abbreviation on_error := (on_error ObjectId E).

(** What the [try] block has done when it ends: with the note inserted and
    the record completed when it returns, with neither when it raises,
    provided the update to "completed" goes through. For the staged file: it
    is left alone when the block raises before its cleanup, and is no file
    afterwards when the cleanup is reached and the removal goes through. *)
Ltac run_steps :=
  cbv [mbind M_bind mret M_ret lift may_fail modify gets swallow
       notes_insert_one lectures_update_one os_remove os_path_exists unlink
       lectures_insert_one save_file put_file leave];
  cbn [fst snd lectures notes files].

Lemma process_outcome temp_path user_id lecture_id o w r w' :
  ObjectId lecture_id = Ok o → completed_fault E = None →
  process temp_path user_id lecture_id w = (r, w') →
  (∃ body n,
      r = Ok body
      ∧ lectures w'
        = update_first o (set_status (lit "completed") None) (lectures w)
      ∧ notes w' = notes w ++ [n]
      ∧ note_lecture_id n = lecture_id)
  ∨ (∃ e, r = Raise e ∧ w' = w).
Proof.
  intros Ho Hc. unfold Main.process. run_steps.
  destruct (transcription E) as [td|e]; [|intros [= <- <-]; right; by exists e].
  destruct (GeminiService.generate_notes (provider E) json_loads (text td))
    as [calls [sn|e]] eqn:Hg; cbn [snd];
    [|intros [= <- <-]; right; by exists e].
  assert (Hobj : is_object sn = true).
  { eapply (SynthesizerProps.generate_notes_returns_object (provider E) json_loads).
    by rewrite Hg. }
  destruct sn as [| | | | | |d]; try done. clear Hobj.
  destruct (note_fault E) as [e|]; [intros [= <- <-]; right; by exists e|].
  rewrite Ho, Hc. cbn [get_method files].
  intros H. left.
  destruct (remove_fault E) as [e'|]; cbn in H;
    [|destruct (files w !! temp_path); cbn in H].
  all: injection H as <- <-.
  all: by eexists _, _.
Qed.

(** The staged file through the [try] block: untouched when the block
    raises before its cleanup; no file once the cleanup has been reached and
    the removal is not refused. *)
Lemma process_files temp_path user_id lecture_id w r w' :
  remove_fault E = None →
  process temp_path user_id lecture_id w = (r, w') →
  (∃ e, r = Raise e ∧ files w' = files w) ∨ files w' !! temp_path = None.
Proof.
  intros Hr. unfold Main.process. run_steps. rewrite Hr.
  destruct (transcription E) as [td|e];
    [|intros [= <- <-]; left; by exists e].
  destruct (GeminiService.generate_notes (provider E) json_loads (text td))
    as [calls [sn|e]]; cbn [snd]; [|intros [= <- <-]; left; by exists e].
  destruct (note_fault E) as [e|]; [intros [= <- <-]; left; by exists e|].
  destruct (ObjectId lecture_id) as [o|e];
    [|intros [= <- <-]; left; by exists e].
  destruct (completed_fault E) as [e|];
    [intros [= <- <-]; left; by exists e|].
  cbn [files]. intros H. right.
  destruct (files w !! temp_path) eqn:Hf; cbn in H.
  - destruct (get_method sn (lit "title")); cbn in H;
      [destruct (get_method sn (lit "summary")); cbn in H|];
      injection H as <- <-; cbn; apply lookup_delete_eq.
  - destruct (get_method sn (lit "title")); cbn in H;
      [destruct (get_method sn (lit "summary")); cbn in H|];
      by injection H as <- <-.
Qed.

(** The handler when [lecture_id] is bound and the update to "failed" goes
    through. *)
Lemma on_error_bound temp_path lecture_id o e w resp w' :
  ObjectId lecture_id = Ok o → failed_fault E = None →
  leave (on_error temp_path (Some lecture_id) e) w = (resp, w') →
  lectures w'
  = update_first o (set_status (lit "failed") (Some (exn_msg e))) (lectures w)
  ∧ notes w' = notes w
  ∧ ∀ body, resp ≠ Returned body.
Proof.
  intros Ho Hf. unfold Main.on_error. run_steps. rewrite Ho, Hf.
  cbn [files].
  destruct (files w !! temp_path) eqn:Hp;
    [destruct (remove_fault E); cbn; rewrite ?Hp; cbn | cbn];
    intros [= <- <-]; by cbn.
Qed.

(** The handler when [lecture_id] is not bound. *)
Lemma on_error_unbound temp_path e w resp w' :
  leave (on_error temp_path None e) w = (resp, w') →
  lectures w' = lectures w ∧ notes w' = notes w ∧ ∀ body, resp ≠ Returned body.
Proof.
  unfold Main.on_error. run_steps.
  destruct (files w !! temp_path) eqn:Hp;
    [destruct (remove_fault E); cbn; rewrite ?Hp; cbn | cbn];
    intros [= <- <-]; by cbn.
Qed.

(** The handler leaves no staged file when the removal is not refused and
    its own update, if it makes one, goes through. *)
Lemma on_error_cleans temp_path lecture_id e w :
  remove_fault E = None →
  match lecture_id with
  | Some id => failed_fault E = None ∧ ∃ o, ObjectId id = Ok o
  | None => True
  end →
  files (leave (on_error temp_path lecture_id e) w).2 !! temp_path = None.
Proof.
  intros Hr Hl. unfold Main.on_error. run_steps. rewrite Hr.
  destruct lecture_id as [id|]; [destruct Hl as [-> [o ->]]|]; cbn [files].
  - destruct (files w !! temp_path) eqn:Hp; cbn; rewrite ?Hp; cbn;
      [apply lookup_delete_eq|done].
  - destruct (files w !! temp_path) eqn:Hp; cbn; rewrite ?Hp; cbn;
      [apply lookup_delete_eq|done].
Qed.

Lemma save_file_outcome temp_path bytes w :
  lectures (save_file E temp_path bytes w).2 = lectures w
  ∧ notes (save_file E temp_path bytes w).2 = notes w
  ∧ (open_fault E = None → write_fault E = None →
     (save_file E temp_path bytes w).1 = Ok ()).
Proof.
  unfold save_file. run_steps.
  destruct (open_fault E); [done|]. by destruct (write_fault E).
Qed.

Lemma lectures_insert_one_outcome doc w :
  lectures_insert_one E doc w
  = match inserted E with
    | Ok o => (Ok o, World (lectures w ++ [doc o]) (notes w) (files w))
    | Raise e => (Raise e, w)
    end.
Proof. unfold lectures_insert_one. run_steps. by destruct (inserted E). Qed.

Lemma accepted_passes file :
  accepted file = true →
  negb (match content_type file with
        | Some c => existsb (str_eqb c) ALLOWED_AUDIO_TYPES
        | None => false
        end) = false
  ∧ (len (content file) >? MAX_FILE_SIZE) = false.
Proof.
  unfold accepted. intros [-> H]%andb_prop.
  by apply negb_true_iff in H as ->.
Qed.

Lemma statuses_differ : lit "failed" ≠ lit "completed".
Proof. by apply (bool_decide_unpack _); vm_compute. Qed.

(** C1, as amended. In a run that has staged the file and inserted the
    lecture record under an identifier new to the store, and in which
    neither status update fails, the record ends Completed with exactly one
    note record referring to it, or Failed with none; never Processing. It
    is Completed exactly when the endpoint returns its body. *)
Theorem upload_lecture_terminal_status file title user_id w o :
  accepted file = true →
  open_fault E = None → write_fault E = None →
  inserted E = Ok o → ObjectId (oid_str o) = Ok o →
  fresh (oid_str o) o w = true →
  completed_fault E = None → failed_fault E = None →
  terminal_consistent (oid_str o) o (upload_lecture file title user_id w).2 = true
  ∧ (lec_status <$> find_lecture o (upload_lecture file title user_id w).2
     = Some (lit "completed")
     ↔ ∃ body, (upload_lecture file title user_id w).1 = Returned body).
Proof.
  intros [Ha1 Ha2]%accepted_passes Hopen Hwrite Hins Hid
         [Hls Hns]%andb_prop Hc Hf.
  unfold Main.upload_lecture. rewrite Ha1, Ha2.
  set (temp_path := os_path_join _ _).
  destruct (save_file_outcome temp_path (content file) w) as (Hl1 & Hn1 & Hs).
  specialize (Hs Hopen Hwrite).
  destruct (save_file E temp_path (content file) w) as [r1 w1].
  cbn [fst snd] in *. subst r1.
  rewrite lectures_insert_one_outcome, Hins.
  set (doc := Lecture (IdObject o) _ _ _ _ _ _ _ _).
  set (w2 := World _ _ _).
  assert (Hdoc : ∀ s err, has_id o (set_status s err doc) = true)
    by (intros; cbn; apply N.eqb_refl).
  destruct (process temp_path user_id (oid_str o) w2) as [r w3] eqn:Hp.
  destruct (process_outcome _ _ _ _ _ _ _ Hid Hc Hp)
    as [(body & n & -> & Hl3 & Hn3 & Hn)|(e & -> & ->)].
  - cbn [fst snd]. unfold w2 in Hl3, Hn3. cbn [lectures notes] in Hl3, Hn3.
    rewrite Hl1 in Hl3. rewrite update_first_new in Hl3
      by (done || apply N.eqb_refl).
    rewrite Hn1 in Hn3.
    assert (Hfind : find_lecture o w3
                    = Some (set_status (lit "completed") None doc)).
    { destruct w3 as [ls3 ns3 fs3]. cbn [lectures] in Hl3. subst ls3.
      by apply find_lecture_new. }
    assert (Hcount : note_count (oid_str o) w3 = 1%nat).
    { destruct w3 as [ls3 ns3 fs3]. cbn [notes] in Hn3. subst ns3.
      by apply note_count_new. }
    unfold terminal_consistent. rewrite Hfind, Hcount. cbn [lec_status set_status].
    rewrite str_eqb_refl. split; [done|]. split; [by exists body | done].
  - destruct (leave (on_error temp_path (Some (oid_str o)) e) w2)
      as [resp w4] eqn:He.
    destruct (on_error_bound _ _ _ _ _ _ _ Hid Hf He) as (Hl4 & Hn4 & Hresp).
    cbn [fst snd]. unfold w2 in Hl4, Hn4. cbn [lectures notes] in Hl4, Hn4.
    rewrite Hl1 in Hl4. rewrite update_first_new in Hl4
      by (done || apply N.eqb_refl).
    rewrite Hn1 in Hn4.
    assert (Hfind : find_lecture o w4
                    = Some (set_status (lit "failed") (Some (exn_msg e)) doc)).
    { destruct w4 as [ls4 ns4 fs4]. cbn [lectures] in Hl4. subst ls4.
      by apply find_lecture_new. }
    assert (Hcount : note_count (oid_str o) w4 = 0%nat).
    { destruct w4 as [ls4 ns4 fs4]. cbn [notes] in Hn4. subst ns4.
      by apply note_count_old. }
    unfold terminal_consistent. rewrite Hfind, Hcount. cbn [lec_status set_status].
    rewrite str_eqb_refl, andb_true_r, orb_true_r. split; [done|]. split.
    + cbn. intros H. injection H as H. by destruct statuses_differ.
    + intros [body ->]. by destruct (Hresp body).
Qed.

(** A request that fails one of the two checks leaves the world as it is. *)
Lemma upload_lecture_rejected file title user_id w :
  accepted file = false →
  (upload_lecture file title user_id w).2 = w
  ∧ ∃ status_code detail,
      (upload_lecture file title user_id w).1 = HTTPException status_code detail.
Proof.
  unfold accepted, Main.upload_lecture. intros H.
  destruct (match content_type file with Some _ => _ | None => _ end);
    cbn [negb]; [|split; [done | by eexists _, _]].
  cbn in H. apply negb_false_iff in H as ->. split; [done | by eexists _, _].
Qed.

(** A run that does not get to insert the record leaves both collections as
    they are. *)
Lemma upload_lecture_without_record file title user_id w :
  (open_fault E ≠ None ∨ write_fault E ≠ None ∨ ∃ e, inserted E = Raise e) →
  lectures (upload_lecture file title user_id w).2 = lectures w
  ∧ notes (upload_lecture file title user_id w).2 = notes w.
Proof.
  intros H. destruct (accepted file) eqn:Ha.
  2:{ by destruct (upload_lecture_rejected file title user_id w Ha) as [-> _]. }
  apply accepted_passes in Ha as [Ha1 Ha2].
  unfold Main.upload_lecture. rewrite Ha1, Ha2.
  set (temp_path := os_path_join _ _).
  destruct (save_file_outcome temp_path (content file) w) as (Hl1 & Hn1 & Hs).
  destruct (save_file E temp_path (content file) w) as [[[]|e1] w1] eqn:Hsave;
    cbn [fst snd] in *.
  - rewrite lectures_insert_one_outcome.
    destruct (inserted E) as [o|e2] eqn:Hins.
    + exfalso. destruct H as [H|[H|[e H]]]; [| |done].
      * revert Hsave. unfold save_file. run_steps.
        by destruct (open_fault E).
      * revert Hsave. unfold save_file. run_steps.
        destruct (open_fault E); [done|]. by destruct (write_fault E).
    + destruct (leave (on_error temp_path None e2) w1) as [resp w2] eqn:He.
      apply on_error_unbound in He as (Hl2 & Hn2 & _). cbn [snd].
      by rewrite Hl2, Hn2.
  - destruct (leave (on_error temp_path None e1) w1) as [resp w2] eqn:He.
    apply on_error_unbound in He as (Hl2 & Hn2 & _). cbn [snd].
    by rewrite Hl2, Hn2.
Qed.

(** C7, as amended. In every run past the two request checks, in which the
    removal of the staged file is not refused and the handler's own status
    update does not fail, no file is left at the staged path when the run
    ends, whether it ends Completed or Failed and whatever the synthesizer
    did. *)
Theorem upload_lecture_removes_staged_file file title user_id w :
  accepted file = true →
  remove_fault E = None → failed_fault E = None →
  (∀ o, inserted E = Ok o → ∃ o', ObjectId (oid_str o) = Ok o') →
  files (upload_lecture file title user_id w).2 !! staged_path E file = None.
Proof.
  intros [Ha1 Ha2]%accepted_passes Hr Hf Hid.
  unfold Main.upload_lecture, staged_path. rewrite Ha1, Ha2.
  set (temp_path := os_path_join _ _).
  destruct (save_file E temp_path (content file) w) as [[[]|e1] w1];
    [|by apply on_error_cleans].
  rewrite lectures_insert_one_outcome.
  destruct (inserted E) as [o|e2] eqn:Hins; [|by apply on_error_cleans].
  set (w2 := World _ _ _).
  destruct (process temp_path user_id (oid_str o) w2) as [[body|e] w3] eqn:Hp.
  - by destruct (process_files _ _ _ _ _ _ Hr Hp) as [(e & ? & _)|H].
  - apply on_error_cleans; [done|]. split; [done|]. by apply Hid.
Qed.

Lemma save_file_ok temp_path bytes w :
  open_fault E = None → write_fault E = None →
  save_file E temp_path bytes w
  = (Ok (), World (lectures w) (notes w)
              (<[temp_path := bytes]> (<[temp_path := []]> (files w)))).
Proof. intros Ho Hw. unfold save_file. run_steps. by rewrite Ho, Hw. Qed.

(** C8, on the code. Let the removal of the staged file be refused with
    [e'], in a run that has staged the file and inserted the record. On the
    path that ends Completed the refusal is swallowed: the endpoint returns
    its body. On the path that ends Failed (here: the transcription raises)
    it is not: [e'] leaves the handler, in place of the [HTTPException] with
    status 500 that carries the cause of the failure. *)
Theorem upload_lecture_cleanup_failure file title user_id w o e' :
  accepted file = true →
  open_fault E = None → write_fault E = None →
  inserted E = Ok o → ObjectId (oid_str o) = Ok o →
  remove_fault E = Some e' →
  (∀ td d,
     transcription E = Ok td →
     (GeminiService.generate_notes (provider E) json_loads (text td)).2
     = Ok (JObj d) →
     note_fault E = None → completed_fault E = None →
     (upload_lecture file title user_id w).1
     = Returned
         (JObj [ (lit "lecture_id", JStr (oid_str o));
                 (lit "status", JStr (lit "completed"));
                 (lit "message", JStr (lit "Notes generated successfully"));
                 (lit "preview",
                   JObj [ (lit "title", default JNull (dict_get (lit "title") d));
                          (lit "summary",
                            default JNull (dict_get (lit "summary") d)) ]) ]))
  ∧ (∀ e,
       transcription E = Raise e → failed_fault E = None →
       (upload_lecture file title user_id w).1 = Unhandled e').
Proof.
  intros [Ha1 Ha2]%accepted_passes Hopen Hwrite Hins Hid Hrem.
  unfold Main.upload_lecture. rewrite Ha1, Ha2.
  set (temp_path := os_path_join _ _).
  rewrite save_file_ok, lectures_insert_one_outcome, Hins by done.
  cbn [lectures notes files]. split.
  - intros td d Htr Hgen Hnote Hc.
    unfold Main.process. run_steps.
    rewrite Htr, Hgen, Hnote, Hid, Hc, Hrem. done.
  - intros e Htr Hf.
    unfold Main.process, Main.on_error. run_steps.
    rewrite Htr, Hid, Hf, Hrem. cbn.
    by rewrite lookup_insert_eq.
Qed.

End Upload.

(** *** The listing and delete endpoints *)

Section Endpoints.

Variable ObjectId : pystr → result oid.
Variable oid_str : oid → pystr.

Global Instance newest_first_total : Total newest_first.
Proof. intros a b. unfold newest_first. lia. Qed.

Global Instance newest_first_trans : Transitive newest_first.
Proof. intros a b c. unfold newest_first. lia. Qed.

Lemma StronglySorted_take_newest n (ls : list lecture) :
  StronglySorted newest_first ls → StronglySorted newest_first (take n ls).
Proof.
  intros H. rewrite <-(take_drop n ls) in H.
  by apply StronglySorted_app_1_l in H.
Qed.

(** C10. For every user id, when the store answers, the listing endpoint
    returns at most 100 records, newest upload first, each one a stored
    lecture of that user with ["_id"] turned into a string, and none with a
    file path. *)
Theorem get_user_lectures_listing user_id w :
  ∃ body,
    get_user_lectures oid_str None user_id w = (Returned body, w)
    ∧ (length body ≤ 100)%nat
    ∧ length body
      = Nat.min 100 (length (filter (λ l, lec_user_id l = user_id) (lectures w)))
    ∧ StronglySorted newest_first body
    ∧ Forall (λ l, lec_file_path l = None) body
    ∧ Forall (λ l, ∃ l0, l0 ∈ lectures w ∧ lec_user_id l0 = user_id
                         ∧ l = publish oid_str l0) body.
Proof.
  set (found := merge_sort newest_first
                  (filter (λ l, lec_user_id l = user_id) (lectures w))).
  exists (publish oid_str <$> take 100 found). split; [reflexivity|].
  assert (Hperm : found ≡ₚ filter (λ l, lec_user_id l = user_id) (lectures w))
    by apply merge_sort_Permutation.
  rewrite length_fmap, length_take. repeat split.
  - lia.
  - by rewrite Hperm.
  - apply (StronglySorted_fmap _ newest_first newest_first); [done|].
    apply StronglySorted_take_newest, StronglySorted_merge_sort; apply _.
  - apply Forall_fmap, Forall_true. done.
  - apply Forall_fmap, Forall_forall. intros l0 Hl0. exists l0.
    assert (Hin : l0 ∈ filter (λ l, lec_user_id l = user_id) (lectures w)).
    { rewrite <-Hperm. apply elem_of_take in Hl0 as (i & Hi & _).
      by eapply list_elem_of_lookup_2. }
    apply list_elem_of_filter in Hin as [? ?]. done.
Qed.

Lemma delete_first_none o ls :
  forallb (λ l, negb (has_id o l)) ls = true → delete_first o ls = (ls, 0).
Proof.
  induction ls as [|l ls IH]; [done|]. simpl.
  intros [Hl Hls]%andb_prop. apply negb_true_iff in Hl as ->.
  by rewrite IH.
Qed.

(** C9, on the code. For a lecture id that matches no stored lecture the
    delete endpoint answers with status 500, never 404: the [HTTPException]
    with status 404 is raised inside the [try] block and caught by its
    [except Exception], which raises a 500 whose detail is the [str] of what
    it caught. By then the note records that refer to the id are deleted. *)
Theorem delete_lecture_unknown_id lecture_id w :
  (∀ o, ObjectId lecture_id = Ok o →
        forallb (λ l, negb (has_id o l)) (lectures w) = true) →
  delete_lecture ObjectId None None lecture_id w
  = (HTTPException 500
       match ObjectId lecture_id with
       | Ok _ => lit "404: Lecture not found"
       | Raise e => exn_msg e
       end,
     World (lectures w)
       (filter (λ n, note_lecture_id n ≠ lecture_id) (notes w))
       (files w)).
Proof.
  intros H. unfold delete_lecture, notes_delete_many, lectures_delete_one.
  cbv [mbind M_bind mret M_ret lift may_fail modify gets].
  cbn [lectures notes files].
  destruct (ObjectId lecture_id) as [o|e]; [|done].
  rewrite delete_first_none by (by apply H). done.
Qed.

End Endpoints.

(** *** The properties on concrete runs *)

Import Scenario.

Abbreviation upload_in E :=
  (upload_lecture json_loads ObjectId oid_str E clip None (lit "ada") empty_world).

Lemma upload_lecture_terminal_status_witness :
  terminal_consistent (oid_str new_id) new_id
    (upload_in (run transcript_ok None None None None)).2 = true
  ∧ terminal_consistent (oid_str new_id) new_id
      (upload_in (run transcript_failed None None None None)).2 = true.
Proof.
  split.
  - apply (upload_lecture_terminal_status json_loads ObjectId oid_str
             (run transcript_ok None None None None) clip None (lit "ada")
             empty_world new_id); reflexivity.
  - apply (upload_lecture_terminal_status json_loads ObjectId oid_str
             (run transcript_failed None None None None) clip None (lit "ada")
             empty_world new_id); reflexivity.
Defined.

(** C1 as stated fails: the note record is inserted, the update of the
    status to "completed" raises, the handler sets the status to "failed":
    the record ends Failed with one note record referring to it. *)
Lemma failed_record_with_a_note :
  ¬ terminal_consistent (oid_str new_id) new_id
      (upload_in (run transcript_ok None (Some db_down) None None)).2 = true.
Proof. by vm_compute. Qed.

(** And when the handler's own update raises, the record stays Processing. *)
Lemma record_left_processing :
  lec_status <$> find_lecture new_id
    (upload_in (run transcript_failed None None (Some db_down) None)).2
  = Some (lit "processing").
Proof. by vm_compute. Qed.

Lemma upload_lecture_removes_staged_file_witness :
  files (upload_in (run transcript_failed None None None None)).2
    !! staged_path (run transcript_failed None None None None) clip = None
  ∧ files (upload_in (run transcript_ok None None None None)).2
      !! staged_path (run transcript_ok None None None None) clip = None.
Proof.
  split.
  - apply (upload_lecture_removes_staged_file json_loads ObjectId oid_str
             (run transcript_failed None None None None) clip None (lit "ada")
             empty_world); try reflexivity.
    intros o [= <-]. by exists new_id.
  - apply (upload_lecture_removes_staged_file json_loads ObjectId oid_str
             (run transcript_ok None None None None) clip None (lit "ada")
             empty_world); try reflexivity.
    intros o [= <-]. by exists new_id.
Defined.

(** C7 as stated fails: the run ends Completed, the removal of the staged
    file is refused and the refusal swallowed: the file is still there when
    the run returns. *)
Lemma staged_file_left_behind :
  ¬ files (upload_in (run transcript_ok None None None (Some locked))).2
      !! staged_path (run transcript_ok None None None (Some locked)) clip
    = None.
Proof. by vm_compute. Qed.

(** The file also stays when the transcription fails and the handler's
    update of the status raises: the handler is left before its cleanup. *)
Lemma staged_file_left_by_the_handler :
  files (upload_in (run transcript_failed None None (Some db_down) None)).2
    !! staged_path (run transcript_failed None None (Some db_down) None) clip
  = Some (content clip).
Proof. by vm_compute. Qed.

(** With and without a refused removal, on both paths. *)
Lemma cleanup_failure_on_both_paths :
  (upload_in (run transcript_ok None None None (Some locked))).1
  = (upload_in (run transcript_ok None None None None)).1
  ∧ (upload_in (run transcript_failed None None None None)).1
    = HTTPException 500
        (lit "Transcription failed: Audio duration is too short.")
  ∧ (upload_in (run transcript_failed None None None (Some locked))).1
    = Unhandled locked.
Proof. by vm_compute. Qed.

Lemma upload_lecture_cleanup_failure_witness :
  (upload_in (run transcript_failed None None None (Some locked))).1
  = Unhandled locked.
Proof.
  assert (H := upload_lecture_cleanup_failure json_loads ObjectId oid_str
                 (run transcript_failed None None None (Some locked))
                 clip None (lit "ada") empty_world new_id locked).
  do 6 specialize (H eq_refl). destruct H as [_ H].
  apply (H (Exn "Exception"
              (lit "Transcription failed: Audio duration is too short.")));
    reflexivity.
Defined.

Lemma delete_lecture_unknown_id_witness :
  delete_lecture ObjectId None None (oid_str new_id) stored_world
  = (HTTPException 500 (lit "404: Lecture not found"),
     World [ old_lecture 1%N 1699990000 ] [ old_note (oid_str 1%N) ] ∅).
Proof.
  rewrite (delete_lecture_unknown_id ObjectId (oid_str new_id) stored_world).
  - reflexivity.
  - intros o [= <-]. reflexivity.
Defined.

End PipelineProps.

(* ===================================================================== *)
(** * Further properties of the code                                      *)
(* ===================================================================== *)

Module ExtractionProps.
Import Py GeminiService Text PyProps.

(** *** Braces are found where they are, whatever stands around them *)

Lemma space_is_no_brace c : isspace c = true → is_brace c = false.
Proof.
  unfold is_brace. intros Hs.
  destruct (N.eqb_spec c 123) as [->|_]; [by vm_compute in Hs|].
  destruct (N.eqb_spec c 125) as [->|_]; [by vm_compute in Hs|]. done.
Qed.

Lemma brace_free_app a b :
  brace_free (a ++ b) = brace_free a && brace_free b.
Proof. unfold brace_free. apply forallb_app. Qed.

Lemma brace_free_rev a : brace_free (rev a) = brace_free a.
Proof.
  induction a as [|c a IH]; [done|]. simpl.
  rewrite brace_free_app, IH. simpl. rewrite andb_true_r. apply andb_comm.
Qed.

Lemma drop_until_free c p m :
  forallb (λ x, negb (x =? c)%N) p = true →
  drop_until c (p ++ m) = drop_until c m.
Proof.
  induction p as [|x p IH]; [done|]. simpl.
  intros [Hx Hp]%andb_prop. apply negb_true_iff in Hx as ->. by apply IH.
Qed.

Lemma drop_until_found c m q :
  drop_until c m ≠ [] → drop_until c (m ++ q) = drop_until c m ++ q.
Proof.
  induction m as [|x m IH]; [done|]. simpl.
  destruct (x =? c)%N; [done | apply IH].
Qed.

Lemma brace_free_no_open s :
  brace_free s = true → forallb (λ x, negb (x =? 123)%N) s = true.
Proof.
  unfold brace_free, is_brace. induction s as [|c s IH]; [done|]. simpl.
  intros [Hc Hs]%andb_prop. rewrite IH by done.
  apply negb_true_iff, orb_false_elim in Hc as [-> _]. done.
Qed.

Lemma brace_free_no_close s :
  brace_free s = true → forallb (λ x, negb (x =? 125)%N) s = true.
Proof.
  unfold brace_free, is_brace. induction s as [|c s IH]; [done|]. simpl.
  intros [Hc Hs]%andb_prop. rewrite IH by done.
  apply negb_true_iff, orb_false_elim in Hc as [_ ->]. done.
Qed.

Lemma search_braces_prefix p m :
  brace_free p = true → search_braces (p ++ m) = search_braces m.
Proof.
  intros Hp. unfold search_braces.
  by rewrite drop_until_free by (by apply brace_free_no_open).
Qed.

Lemma search_braces_suffix m q :
  brace_free q = true → search_braces (m ++ q) = search_braces m.
Proof.
  intros Hq. unfold search_braces.
  destruct (drop_until 123 m) as [|x from_open] eqn:Hm.
  - assert (drop_until 123 (m ++ q) = []) as ->; [|done].
    clear -Hm Hq. induction m as [|y m IH]; simpl in *.
    + rewrite <-(app_nil_r q). rewrite drop_until_free; [done|].
      by apply brace_free_no_open.
    + destruct (y =? 123)%N; [done | by apply IH].
  - rewrite drop_until_found by (by rewrite Hm). rewrite Hm.
    cbn [app]. change (x :: from_open ++ q) with ((x :: from_open) ++ q).
    rewrite rev_app_distr.
    rewrite drop_until_free
      by (apply brace_free_no_close; by rewrite brace_free_rev).
    done.
Qed.

Lemma search_braces_free s : brace_free s = true → search_braces s = None.
Proof.
  intros Hs. change (search_braces ([] ++ s) = None).
  by rewrite search_braces_suffix.
Qed.

Lemma lstrip_split s :
  ∃ ws, s = ws ++ lstrip s ∧ brace_free ws = true.
Proof.
  induction s as [|c s (ws & Hs & Hws)]; [by exists []|]. simpl.
  destruct (isspace c) eqn:Hc; [|by exists []].
  exists (c :: ws). split; [simpl; by f_equal|].
  simpl. by rewrite space_is_no_brace.
Qed.

Lemma search_braces_lstrip s : search_braces (lstrip s) = search_braces s.
Proof.
  destruct (lstrip_split s) as (ws & Hs & Hws).
  rewrite Hs at 2. by rewrite search_braces_prefix.
Qed.

Lemma rstrip_split s :
  ∃ ws, s = rstrip s ++ ws ∧ brace_free ws = true.
Proof.
  unfold rstrip. destruct (lstrip_split (rev s)) as (ws & Hs & Hws).
  exists (rev ws). split; [|by rewrite brace_free_rev].
  rewrite <-rev_app_distr, <-Hs. by rewrite rev_involutive.
Qed.

Lemma search_braces_strip s : search_braces (strip s) = search_braces s.
Proof.
  unfold strip. destruct (rstrip_split (lstrip s)) as (ws & Hs & Hws).
  rewrite <-(search_braces_lstrip s). rewrite Hs at 2.
  by rewrite search_braces_suffix.
Qed.

Lemma startswith_split p s :
  startswith p s = true → s = p ++ drop (length p) s.
Proof.
  revert s. induction p as [|a p IH]; intros [|b s]; simpl; try done.
  intros [Hab Hp]%andb_prop. apply N.eqb_eq in Hab as ->.
  f_equal. by apply IH.
Qed.

Lemma search_braces_sub_leading fence s :
  brace_free fence = true →
  search_braces (sub_leading fence s) = search_braces s.
Proof.
  intros Hf. unfold sub_leading.
  destruct (startswith fence s) eqn:Hs; [|done].
  rewrite search_braces_lstrip. rewrite (startswith_split _ _ Hs) at 2.
  by rewrite search_braces_prefix.
Qed.

Lemma fence_at_end_split text rest :
  fence_at_end text = Some rest →
  brace_free text = true ∧ brace_free rest = true.
Proof.
  unfold fence_at_end. destruct (lstrip_split text) as (ws & Hs & Hws).
  destruct (str_eqb (lstrip text) (lit "```")) eqn:H1.
  - intros [= <-]. apply str_eqb_true in H1. rewrite Hs, H1.
    by rewrite brace_free_app, Hws.
  - destruct (str_eqb (lstrip text) (lit "```" ++ nl)) eqn:H2; [|done].
    intros [= <-]. apply str_eqb_true in H2. rewrite Hs, H2.
    by rewrite brace_free_app, Hws.
Qed.

Lemma sub_trailing_fence_split text :
  ∃ pre tail rest,
    text = pre ++ tail ∧ sub_trailing_fence text = pre ++ rest
    ∧ brace_free tail = true ∧ brace_free rest = true.
Proof.
  induction text as [|c text (pre & tail & rest & Ht & Hr & Htl & Hrs)].
  - exists [], [], []. by vm_compute.
  - cbn [sub_trailing_fence].
    destruct (fence_at_end (c :: text)) as [rest'|] eqn:Hf.
    + apply fence_at_end_split in Hf as [Hf1 Hf2].
      by exists [], (c :: text), rest'.
    + exists (c :: pre), tail, rest. by rewrite Ht at 1; rewrite Hr.
Qed.

Lemma search_braces_sub_trailing_fence text :
  search_braces (sub_trailing_fence text) = search_braces text.
Proof.
  destruct (sub_trailing_fence_split text)
    as (pre & tail & rest & Ht & -> & Htl & Hrs).
  rewrite Ht. by rewrite !search_braces_suffix.
Qed.

Lemma search_braces_object mid :
  search_braces ([123%N] ++ mid ++ [125%N]) = Some ([123%N] ++ mid ++ [125%N]).
Proof.
  unfold search_braces. cbn [app drop_until]. rewrite N.eqb_refl.
  change (123%N :: mid ++ [125%N]) with ((123%N :: mid) ++ [125%N]).
  rewrite rev_app_distr. cbn [rev app drop_until]. rewrite N.eqb_refl.
  cbn [rev]. by rewrite rev_app_distr, rev_involutive.
Qed.

Lemma fences_are_brace_free :
  brace_free (lit "```json") = true ∧ brace_free (lit "```") = true.
Proof. by vm_compute. Qed.

(** What the cleaning steps before the search leave of the braces. *)
Lemma search_braces_cleaned text :
  search_braces
    (strip (sub_trailing_fence
              (sub_leading (lit "```")
                 (sub_leading (lit "```json") (strip text)))))
  = search_braces text.
Proof.
  destruct fences_are_brace_free as [H1 H2].
  rewrite search_braces_strip, search_braces_sub_trailing_fence.
  rewrite !search_braces_sub_leading by done.
  apply search_braces_strip.
Qed.

(** X1. Whatever text without braces stands before and after a span that
    opens with a brace and closes with one (code fences, prose, blank
    lines), [_extract_json_from_response] hands exactly that span to
    [json.loads]. *)
Theorem extract_json_parses_the_brace_span
    (json_loads : pystr → result json) (pre mid post : pystr) :
  brace_free pre = true → brace_free post = true →
  _extract_json_from_response json_loads
    (pre ++ ([123%N] ++ mid ++ [125%N]) ++ post)
  = json_loads ([123%N] ++ mid ++ [125%N]).
Proof.
  intros Hpre Hpost. unfold _extract_json_from_response. cbn zeta.
  rewrite search_braces_cleaned.
  rewrite search_braces_prefix, search_braces_suffix by done.
  by rewrite search_braces_object.
Qed.

Lemma extract_json_parses_the_brace_span_witness :
  _extract_json_from_response Scenario.json_loads
    (Samples.greeting
     ++ ([123%N] ++ Samples.mapping_sections_inside ++ [125%N])
     ++ Samples.farewell)
  = Scenario.json_loads ([123%N] ++ Samples.mapping_sections_inside ++ [125%N]).
Proof.
  apply (extract_json_parses_the_brace_span Scenario.json_loads
           Samples.greeting Samples.mapping_sections_inside Samples.farewell);
    reflexivity.
Defined.

End ExtractionProps.

Module ValidationProps.
Import Py GeminiService PyProps SynthesizerProps.

Lemma dict_set_same k v d : dict_get k d = Some v → dict_set k v d = d.
Proof.
  induction d as [|[k' v'] d IH]; simpl; [done|].
  destruct (str_eqb k' k) eqn:Hk; [by intros [= ->]|].
  intros H. by rewrite IH.
Qed.

Lemma fill_key_filled k dflt d v :
  dict_get k d = Some v → is_none v = false → fill_key k dflt d = d.
Proof. intros Hg Hv. unfold fill_key. by rewrite Hg, Hv. Qed.

Lemma fill_keys_filled d items :
  (∀ k dflt, (k, dflt) ∈ items →
     ∃ v, dict_get k d = Some v ∧ is_none v = false) →
  fill_keys d items = d.
Proof.
  induction items as [|[k dflt] items IH]; intros H; [done|].
  change (fill_keys d ((k, dflt) :: items))
    with (fill_keys (fill_key k dflt d) items).
  destruct (H k dflt) as (v & Hg & Hv); [apply list_elem_of_here|].
  rewrite (fill_key_filled k dflt d v Hg Hv). apply IH.
  intros k' dflt' Hin. apply (H k' dflt'). by apply list_elem_of_further.
Qed.

Lemma dict_mem_add_missing k dflt e : dict_mem k (add_missing k dflt e) = true.
Proof. unfold dict_mem. by rewrite dict_get_add_missing_eq. Qed.

Lemma dict_mem_add_missing_other k k' dflt e :
  dict_mem k e = true → dict_mem k (add_missing k' dflt e) = true.
Proof.
  unfold dict_mem. destruct (decide (k' = k)) as [->|Hne].
  - by rewrite dict_get_add_missing_eq.
  - by rewrite dict_get_add_missing_ne.
Qed.

Lemma add_missing_present k dflt e :
  dict_mem k e = true → add_missing k dflt e = e.
Proof. intros H. unfold add_missing. by rewrite H. Qed.

Lemma fixed_section_twice e : fixed_section (fixed_section e) = fixed_section e.
Proof.
  unfold fixed_section at 1.
  rewrite (add_missing_present (lit "heading")).
  2:{ unfold fixed_section.
      do 3 apply dict_mem_add_missing_other. apply dict_mem_add_missing. }
  rewrite (add_missing_present (lit "content")).
  2:{ unfold fixed_section.
      do 2 apply dict_mem_add_missing_other. apply dict_mem_add_missing. }
  rewrite (add_missing_present (lit "bullet_points")).
  2:{ unfold fixed_section.
      apply dict_mem_add_missing_other. apply dict_mem_add_missing. }
  apply add_missing_present. unfold fixed_section. apply dict_mem_add_missing.
Qed.

Lemma fill_missing_arr l k dflt r :
  fill_missing (JArr l) k dflt = Ok r → r = JArr l.
Proof.
  unfold fill_missing. simpl. destruct (existsb _ l); simpl; congruence.
Qed.

Lemma fix_section_arr l r : fix_section (JArr l) = Ok r → r = JArr l.
Proof.
  unfold fix_section. intros H.
  destruct (fill_missing (JArr l) (lit "heading") _) as [r1|] eqn:H1; [|done].
  apply fill_missing_arr in H1 as ->. simpl in H.
  destruct (fill_missing (JArr l) (lit "content") _) as [r2|] eqn:H2; [|done].
  apply fill_missing_arr in H2 as ->. simpl in H.
  destruct (fill_missing (JArr l) (lit "bullet_points") _) as [r3|] eqn:H3; [|done].
  apply fill_missing_arr in H3 as ->. simpl in H.
  by apply fill_missing_arr in H.
Qed.

(** The loop body has nothing left to do on what it returned. *)
Lemma fix_section_twice x y : fix_section x = Ok y → fix_section y = Ok y.
Proof.
  destruct x as [| | | | s | l | e]; try done.
  - intros H. pose proof (fix_section_str _ _ H) as ->. exact H.
  - intros H. pose proof (fix_section_arr _ _ H) as ->. exact H.
  - rewrite fix_section_obj. intros [= <-].
    by rewrite fix_section_obj, fixed_section_twice.
Qed.

Lemma mapM_twice {A} (f : A → result A) l l' :
  (∀ x y, f x = Ok y → f y = Ok y) →
  mapM f l = Ok l' → mapM f l' = Ok l'.
Proof.
  intros Hf. revert l'. induction l as [|x l IH]; intros l'; simpl.
  - by intros [= <-].
  - destruct (f x) as [y|] eqn:Hx; simpl; [|done].
    destruct (mapM f l) as [k|] eqn:Hk; simpl; [|done].
    intros [= <-]. simpl. by rewrite (Hf _ _ Hx), (IH k).
Qed.

Lemma for_each_fix_section_twice s s' :
  truthy s = true → for_each fix_section s = Ok s' →
  truthy s' = true ∧ is_none s' = false ∧ for_each fix_section s' = Ok s'.
Proof.
  intros Ht Hf.
  destruct (for_each_fix_section_shape _ _ Ht Hf) as [[Hs Hs']|[Hs ->]].
  - destruct s as [| | | | | l |]; try done. simpl in Hf.
    destruct (mapM fix_section l) as [l'|] eqn:Hm; simpl in Hf; [|done].
    injection Hf as <-. split; [by destruct l'|]. split; [done|]. simpl.
    by rewrite (mapM_twice _ _ _ fix_section_twice Hm).
  - split; [done|]. split; [by destruct s | done].
Qed.

Lemma required_present d x k dflt :
  is_none x = false → (k, dflt) ∈ required_keys →
  ∃ v, dict_get k (dict_set (lit "sections") x (fill_keys d required_keys))
       = Some v ∧ is_none v = false.
Proof.
  intros Hx Hin. destruct (decide (lit "sections" = k)) as [<-|Hne].
  - exists x. by rewrite dict_get_set_eq.
  - rewrite dict_get_set_ne by done.
    rewrite (dict_get_required k dflt) by done. eexists. split; [done|].
    apply filled_not_none. by eapply required_defaults_not_none.
Qed.

(** The validation step on an object it has built: [x] stands under
    "sections" and the loop over it changes nothing. *)
Lemma validate_fixed d x :
  truthy x = true → is_none x = false → for_each fix_section x = Ok x →
  let d' := dict_set (lit "sections") x (fill_keys d required_keys) in
  _validate_notes_structure (JObj d') = Ok (JObj d').
Proof.
  intros Ht Hn Hf d'. rewrite validate_obj. cbn zeta.
  assert (Hfill : fill_keys d' required_keys = d').
  { apply fill_keys_filled. intros k dflt Hin.
    by apply (required_present d x k dflt). }
  assert (Hs : filled (lit "sections") (JArr []) d' = x).
  { unfold filled, d'. by rewrite dict_get_set_eq, Hn. }
  rewrite Hfill, Hs, Ht, Hf. cbn [mbind result_bind].
  rewrite dict_set_same; [done|]. unfold d'. apply dict_get_set_eq.
Qed.

(** X2. Validation is idempotent: notes that [_validate_notes_structure]
    has returned pass through it again unchanged. *)
Theorem validate_notes_structure_idempotent notes validated :
  _validate_notes_structure notes = Ok validated →
  _validate_notes_structure validated = Ok validated.
Proof.
  destruct (is_object notes) eqn:Hv.
  2:{ intros H. pose proof (validate_not_obj notes Hv) as Hr. by rewrite H in Hr. }
  destruct notes as [| | | | | | d]; try done. clear Hv.
  rewrite validate_obj. cbn zeta.
  destruct (truthy _) eqn:Ht.
  - destruct (for_each _ _) as [s'|] eqn:Hf; simpl; [|done].
    intros [= <-].
    destruct (for_each_fix_section_twice _ _ Ht Hf) as (Ht' & Hn' & Hf').
    by apply validate_fixed.
  - intros [= <-]. apply validate_fixed; [done | done |].
    unfold overview_section. cbn [for_each mapM].
    rewrite fix_section_obj. by vm_compute.
Qed.

Lemma keys_dict_set k v d :
  ∃ added, List.map fst (dict_set k v d) = List.map fst d ++ added.
Proof.
  induction d as [|[k' v'] d [added IH]]; simpl.
  - by exists [k].
  - destruct (str_eqb k' k); simpl.
    + exists []. by rewrite app_nil_r.
    + exists added. by rewrite IH.
Qed.

Lemma keys_fill_key k dflt d :
  ∃ added, List.map fst (fill_key k dflt d) = List.map fst d ++ added.
Proof.
  unfold fill_key.
  destruct (dict_get k d) as [v|]; [destruct (is_none v)|];
    try apply keys_dict_set. exists []. by rewrite app_nil_r.
Qed.

Lemma keys_fill_keys d items :
  ∃ added, List.map fst (fill_keys d items) = List.map fst d ++ added.
Proof.
  revert d. induction items as [|[k dflt] items IH]; intros d.
  - exists []. by rewrite app_nil_r.
  - change (fill_keys d ((k, dflt) :: items))
      with (fill_keys (fill_key k dflt d) items).
    destruct (IH (fill_key k dflt d)) as [a1 H1].
    destruct (keys_fill_key k dflt d) as [a2 H2].
    exists (a2 ++ a1). by rewrite H1, H2, app_assoc.
Qed.

(** X3. Validation is conservative: in the object it returns, every key
    outside the seven required ones has the value the parsed object gave it,
    and the keys of the parsed object come first, in their order; what is
    added goes after them. *)
Theorem validate_notes_structure_keeps_other_keys d d' :
  _validate_notes_structure (JObj d) = Ok (JObj d') →
  (∀ k, k ∉ top_level_fields → dict_get k d' = dict_get k d)
  ∧ ∃ added, List.map fst d' = List.map fst d ++ added.
Proof.
  rewrite validate_obj. cbn zeta. intros H.
  assert (∃ x, d' = dict_set (lit "sections") x (fill_keys d required_keys))
    as [x ->].
  { destruct (truthy _); [destruct (for_each _ _); simpl in H; [|done]|];
      injection H as <-; eauto. }
  split.
  - intros k Hk. rewrite dict_get_set_ne.
    + by apply dict_get_fill_keys_other.
    + intros <-. apply Hk. unfold top_level_fields, required_keys. cbn.
      do 2 apply list_elem_of_further. apply list_elem_of_here.
  - destruct (keys_dict_set (lit "sections") x (fill_keys d required_keys))
      as [a1 H1].
    destruct (keys_fill_keys d required_keys) as [a2 H2].
    exists (a2 ++ a1). by rewrite H1, H2, app_assoc.
Qed.

Lemma validate_notes_structure_idempotent_witness :
  ∃ validated,
    _validate_notes_structure (JObj Scenario.partial_notes) = Ok validated
    ∧ _validate_notes_structure validated = Ok validated.
Proof.
  eexists. split; [reflexivity|].
  apply (validate_notes_structure_idempotent (JObj Scenario.partial_notes)).
  reflexivity.
Defined.

Lemma validate_notes_structure_keeps_other_keys_witness :
  ∃ d',
    _validate_notes_structure
      (JObj ((lit "language", JStr (lit "en")) :: Scenario.partial_notes))
    = Ok (JObj d')
    ∧ dict_get (lit "language") d' = Some (JStr (lit "en"))
    ∧ ∃ added,
        List.map fst d' = [lit "language"; lit "title"; lit "sections"] ++ added.
Proof.
  eexists. split; [reflexivity|].
  destruct (validate_notes_structure_keeps_other_keys
              ((lit "language", JStr (lit "en")) :: Scenario.partial_notes) _
              eq_refl) as [Hget Hkeys].
  split; [|exact Hkeys].
  rewrite (Hget (lit "language")); [reflexivity|].
  apply (bool_decide_unpack _). by vm_compute.
Defined.

End ValidationProps.

Module RequestProps.
Import Py GeminiService PyProps SynthesizerProps.

Lemma len_app {A} (a b : list A) : len (a ++ b) = len a + len b.
Proof. unfold len. rewrite length_app. lia. Qed.

Lemma len_truncated transcript : len (truncated transcript) ≤ 30038.
Proof.
  unfold truncated, max_chars.
  destruct (len transcript >? 30000) eqn:H.
  - rewrite len_app.
    assert (len (nl ++ nl ++ lit "[Transcript truncated due to length]") = 38)
      as -> by (by vm_compute).
    unfold slice_to, len. rewrite length_take. lia.
  - rewrite Z.gtb_ltb in H. apply Z.ltb_ge in H. lia.
Qed.

Lemma len_create_prompt transcript :
  len (_create_prompt transcript) = 1997 + len transcript.
Proof.
  unfold _create_prompt.
  assert (len (join nl prompt_head) = 136) as Hh by (by vm_compute).
  assert (len (join nl prompt_tail) = 1861) as Ht by (by vm_compute).
  revert Hh Ht.
  generalize (join nl prompt_head), (join nl prompt_tail).
  intros h t Hh Ht. rewrite !len_app. lia.
Qed.

Lemma prompt_tail_text :
  ∃ middle,
    join nl prompt_tail
    = nl ++ nl
      ++ lit "Create structured notes in this EXACT JSON format (return ONLY valid JSON, no markdown, no explanations):"
      ++ middle
      ++ lit "CRITICAL: Return ONLY the JSON object. No markdown code blocks, no explanations, no additional text.".
Proof.
  set (before := nl ++ nl ++ lit "Create structured notes in this EXACT JSON format (return ONLY valid JSON, no markdown, no explanations):").
  set (after := lit "CRITICAL: Return ONLY the JSON object. No markdown code blocks, no explanations, no additional text.").
  exists (take (length (join nl prompt_tail) - length before - length after)
            (drop (length before) (join nl prompt_tail))).
  by vm_compute.
Qed.

(** X4. What [generate_notes] asks of the provider. A transcript of fewer
    than 50 characters once trimmed sends no request, and the outcome does
    not depend on the provider. Any other transcript sends exactly one
    request, with the fixed generation settings, and the outcome depends on
    the provider by its answer to that request only (there is no second
    attempt). The prompt of the request is one fixed template around the
    transcript: the two opening lines and "TRANSCRIPT:" before it, a fixed
    text of 1,861 characters after it that starts with the sentence on the
    JSON format and ends with the "CRITICAL" sentence; a transcript of more
    than 30,000 characters is cut to its first 30,000, followed by the
    truncation marker. No prompt is longer than 32,035 characters. *)
Theorem generate_notes_sends_one_bounded_request :
  ∃ tail middle : pystr,
    len tail = 1861
    ∧ tail
      = [10; 10]%N
        ++ lit "Create structured notes in this EXACT JSON format (return ONLY valid JSON, no markdown, no explanations):"
        ++ middle
        ++ lit "CRITICAL: Return ONLY the JSON object. No markdown code blocks, no explanations, no additional text."
    ∧ ∀ (json_loads : pystr → result json) (transcript : pystr),
        (len (strip transcript) < 50 →
         ∀ generate_content generate_content',
           (generate_notes generate_content json_loads transcript).1 = []
           ∧ generate_notes generate_content json_loads transcript
             = generate_notes generate_content' json_loads transcript)
        ∧ (50 ≤ len (strip transcript) →
           ∃ r,
             req_prompt r
             = lit "You are an expert educational note-taker. Analyze this lecture transcript and create comprehensive, well-structured notes."
               ++ [10; 10]%N ++ lit "TRANSCRIPT:" ++ [10]%N
               ++ (if len transcript >? 30000
                   then slice_to 30000 transcript ++ [10; 10]%N
                        ++ lit "[Transcript truncated due to length]"
                   else transcript)
               ++ tail
             ∧ req_config r = GenerationConfig (3 # 10) 4096 (8 # 10) 40
             ∧ len (req_prompt r) ≤ 32035
             ∧ ∀ generate_content generate_content',
                 (generate_notes generate_content json_loads transcript).1 = [r]
                 ∧ (generate_content r = generate_content' r →
                    generate_notes generate_content json_loads transcript
                    = generate_notes generate_content' json_loads transcript)).
Proof.
  destruct prompt_tail_text as [middle Htail].
  exists (join nl prompt_tail), middle. split; [by vm_compute|].
  split; [exact Htail|].
  intros json_loads transcript. split.
  - intros Hlen generate_content generate_content'.
    unfold generate_notes, _generate_notes_sync.
    apply Z.ltb_lt in Hlen. by rewrite Hlen, orb_true_r.
  - intros Hlen.
    exists (request_for (_create_prompt (truncated transcript))).
    split; [|split; [reflexivity|split]].
    + cbn [req_prompt request_for]. unfold _create_prompt, truncated, max_chars.
      assert (join nl prompt_head
              = lit "You are an expert educational note-taker. Analyze this lecture transcript and create comprehensive, well-structured notes."
                ++ [10; 10]%N ++ lit "TRANSCRIPT:" ++ [10]%N) as ->
        by reflexivity.
      by rewrite <-!app_assoc.
    + cbn [req_prompt request_for]. rewrite len_create_prompt.
      pose proof (len_truncated transcript). lia.
    + intros generate_content generate_content'.
      rewrite !generate_notes_accepted by done. cbn [fst].
      split; [done|]. by intros ->.
Qed.

Lemma validate_non_object_type_error v :
  is_object v = false →
  ∃ msg, _validate_notes_structure v = Raise (TypeError msg).
Proof.
  intros Hv. unfold _validate_notes_structure, required_keys.
  cbn [fill_all]. unfold fill_required.
  destruct v as [| | | | s | l | d]; try done; cbn [contains mbind result_bind];
    try (by eexists).
  - destruct (is_substring _ s); cbn; by eexists.
  - destruct (existsb _ l); cbn; by eexists.
Qed.

(** X5. When the provider's answer parses to JSON that is no object (a list,
    a string, a number, a boolean, null), the validation step raises a
    [TypeError] and [generate_notes] returns the fallback notes with the
    message of that error. *)
Theorem generate_notes_non_object_answer
    (generate_content : request → result pystr)
    (json_loads : pystr → result json)
    (transcript response_text : pystr) (parsed : json) :
  50 ≤ len (strip transcript) →
  generate_content (request_for (_create_prompt (truncated transcript)))
  = Ok response_text →
  _extract_json_from_response json_loads response_text = Ok parsed →
  is_object parsed = false →
  ∃ msg,
    _validate_notes_structure parsed = Raise (TypeError msg)
    ∧ (generate_notes generate_content json_loads transcript).2
      = Ok (_create_fallback_notes (truncated transcript) msg).
Proof.
  intros Hlen Hg He Hobj.
  destruct (validate_non_object_type_error parsed Hobj) as [msg Hv].
  exists msg. split; [done|].
  rewrite generate_notes_accepted by done. cbn [snd].
  rewrite Hg. cbn [mbind result_bind]. rewrite He. cbn [mbind result_bind].
  by rewrite Hv.
Qed.

Lemma generate_notes_non_object_answer_witness :
  ∃ msg,
    _validate_notes_structure (JArr [JInt 1; JInt 2; JInt 3])
    = Raise (TypeError msg)
    ∧ (generate_notes (Scenario.answers_with Samples.list_text)
         Samples.json_loads Scenario.lecture_text).2
      = Ok (_create_fallback_notes (truncated Scenario.lecture_text) msg).
Proof.
  apply (generate_notes_non_object_answer
           (Scenario.answers_with Samples.list_text) Samples.json_loads
           Scenario.lecture_text Samples.list_text
           (JArr [JInt 1; JInt 2; JInt 3]));
    by vm_compute.
Defined.

End RequestProps.

Module PreviewProps.
Import Py GeminiService Text PyProps.

(** *** [split] and [join] on words *)

Lemma split_from_word cur w s :
  forallb (λ c, negb (isspace c)) w = true →
  split_from cur (w ++ s) = split_from (rev w ++ cur) s.
Proof.
  revert cur. induction w as [|c w IH]; intros cur H; [done|].
  simpl in H. apply andb_prop in H as [Hc Hw]. apply negb_true_iff in Hc.
  simpl. rewrite Hc, IH by done. by rewrite <-app_assoc.
Qed.

Lemma is_word_inv w :
  is_word w = true → w ≠ [] ∧ forallb (λ c, negb (isspace c)) w = true.
Proof.
  unfold is_word. intros [H1 H2]%andb_prop. split; [|done].
  apply negb_true_iff in H1. by apply bool_decide_eq_false in H1.
Qed.

Lemma split_word w : is_word w = true → split w = [w].
Proof.
  intros [Hne Hw]%is_word_inv. unfold split.
  rewrite <-(app_nil_r w) at 1. rewrite split_from_word by done.
  rewrite app_nil_r. simpl.
  destruct (rev w) eqn:Hr.
  - destruct Hne. by rewrite <-(rev_involutive w), Hr.
  - by rewrite <-Hr, rev_involutive.
Qed.

Lemma split_word_then_space w s :
  is_word w = true → split (w ++ lit " " ++ s) = w :: split s.
Proof.
  intros [Hne Hw]%is_word_inv. unfold split.
  rewrite split_from_word by done. rewrite app_nil_r.
  change (lit " " ++ s) with (32%N :: s). simpl.
  destruct (rev w) eqn:Hr.
  - destruct Hne. by rewrite <-(rev_involutive w), Hr.
  - by rewrite <-Hr, rev_involutive.
Qed.

(** Words joined by single spaces split into the same words. *)
Lemma split_join ws :
  Forall (λ w, is_word w = true) ws → split (join (lit " ") ws) = ws.
Proof.
  induction 1 as [|w ws Hw Hws IH]; [done|].
  destruct ws as [|w' ws].
  - by apply split_word.
  - change (join (lit " ") (w :: w' :: ws))
      with (w ++ lit " " ++ join (lit " ") (w' :: ws)).
    by rewrite split_word_then_space, IH.
Qed.

Lemma split_from_words cur s :
  forallb (λ c, negb (isspace c)) cur = true →
  Forall (λ w, is_word w = true) (split_from cur s).
Proof.
  assert (Hrev : ∀ c cur, forallb (λ c, negb (isspace c)) (c :: cur) = true →
                          is_word (rev (c :: cur)) = true).
  { intros c cur0 H. unfold is_word. apply andb_true_intro. split.
    - apply negb_true_iff, bool_decide_eq_false. simpl.
      intros Heq. by apply app_eq_nil in Heq as [_ ?].
    - apply forallb_forall. intros x Hx. apply in_rev in Hx.
      by eapply forallb_forall in H. }
  revert cur. induction s as [|c s IH]; intros cur Hcur.
  - destruct cur; [constructor|]. repeat constructor. by apply Hrev.
  - simpl. destruct (isspace c) eqn:Hc.
    + destruct cur as [|c' cur]; [by apply IH|].
      constructor; [by apply Hrev | by apply IH].
    + apply IH. simpl. by rewrite Hc.
Qed.

Lemma split_words s : Forall (λ w, is_word w = true) (split s).
Proof. by apply split_from_words. Qed.

Lemma is_word_app w v :
  is_word w = true → forallb (λ c, negb (isspace c)) v = true →
  is_word (w ++ v) = true.
Proof.
  intros [Hne Hw]%is_word_inv Hv. unfold is_word. apply andb_true_intro. split.
  - apply negb_true_iff, bool_decide_eq_false.
    intros Heq. by apply app_eq_nil in Heq as [? _].
  - by rewrite forallb_app, Hw, Hv.
Qed.

Lemma join_snoc ws w v :
  join (lit " ") (ws ++ [w]) ++ v = join (lit " ") (ws ++ [w ++ v]).
Proof.
  induction ws as [|x ws IH]; [done|].
  destruct ws as [|y ws]; simpl in *; rewrite <-?app_assoc; [done|].
  by rewrite <-IH, <-?app_assoc.
Qed.

(** X6. The preview of the fallback notes has at most 100 words. A
    transcript of at most 100 words is its own preview; of a longer one the
    preview reads, word for word, the first 100 words, the last of them
    with the three dots appended to it. *)
Theorem preview_of_first_hundred_words transcript :
  len (split (preview_of transcript)) ≤ 100
  ∧ (len (split transcript) ≤ 100 → preview_of transcript = transcript)
  ∧ (100 < len (split transcript) →
     ∃ ws w,
       slice_to 100 (split transcript) = ws ++ [w]
       ∧ split (preview_of transcript) = ws ++ [w ++ lit "..."]).
Proof.
  unfold preview_of. cbn zeta.
  destruct (len (split transcript) >? 100) eqn:Hlen.
  - rewrite Z.gtb_ltb in Hlen. apply Z.ltb_lt in Hlen.
    assert (Hex : ∃ ws w, slice_to 100 (split transcript) = ws ++ [w]
                          ∧ length ws = 99%nat).
    { assert (Hl : length (slice_to 100 (split transcript)) = 100%nat).
      { unfold slice_to. rewrite length_take. unfold len in Hlen. lia. }
      destruct (slice_to 100 (split transcript)) as [|x l] using rev_ind;
        [done|].
      exists l, x. split; [done|]. rewrite length_app in Hl. simpl in Hl. lia. }
    destruct Hex as (ws & w & Hws & Hn).
    assert (Hwords : Forall (λ w, is_word w = true) (ws ++ [w])).
    { rewrite <-Hws. unfold slice_to. apply Forall_take, split_words. }
    apply Forall_app in Hwords as [Hws' Hw']. apply Forall_inv in Hw'.
    assert (Hsplit : split (join (lit " ") (ws ++ [w]) ++ lit "...")
                     = ws ++ [w ++ lit "..."]).
    { rewrite join_snoc. apply split_join. apply Forall_app. split; [done|].
      apply Forall_singleton. by apply is_word_app. }
    rewrite Hws, Hsplit. repeat split.
    + unfold len. rewrite length_app. simpl. lia.
    + lia.
    + intros _. by exists ws, w.
  - rewrite Z.gtb_ltb in Hlen. apply Z.ltb_ge in Hlen. repeat split.
    + done.
    + intros H. lia.
Qed.

End PreviewProps.

Module TranscriptionProps.
Import Py AssemblyAIService Transcription PyProps PollingProps.

Section Polling.

Variable poll : nat → result json.
Variable repr : json → pystr.

Lemma poll_once_raises k e : poll k = Raise e → poll_once poll repr k = Raise e.
Proof. intros H. unfold poll_once. by rewrite H. Qed.

Lemma poll_once_no_status k d :
  poll k = Ok (JObj d) → dict_get (lit "status") d = None →
  poll_once poll repr k = Raise (KeyError (lit "status")).
Proof.
  intros H Hs. unfold poll_once. rewrite H. cbn [mbind result_bind getitem].
  by rewrite Hs.
Qed.

(** X7. The polling loop does not retry: after polls that were all pending,
    the first poll that fails (the request raises, or the status code is an
    error) ends [get_transcript] with that exception, and so does, with a
    [KeyError], the first answer that carries no status. No further poll is
    made, no further sleep taken. *)
Theorem get_transcript_ends_at_first_failed_poll n :
  (∀ k, (k < n)%nat → pending poll k) →
  (∀ e, poll n = Raise e →
     ∀ m, (n < m)%nat →
       get_transcript poll repr m
       = Progress (S n) (poll_interval * Z.of_nat n) (Some (Raise e)))
  ∧ (∀ d, poll n = Ok (JObj d) → dict_get (lit "status") d = None →
       ∀ m, (n < m)%nat →
         get_transcript poll repr m
         = Progress (S n) (poll_interval * Z.of_nat n)
             (Some (Raise (KeyError (lit "status"))))).
Proof.
  intros Hp. unfold poll_interval. split.
  - intros e He m Hm.
    by apply (ends_at poll repr n (Raise e) Hp (poll_once_raises n e He)).
  - intros d Hd Hs m Hm.
    by apply (ends_at poll repr n (Raise (KeyError (lit "status"))) Hp
                (poll_once_no_status n d Hd Hs)).
Qed.

End Polling.

Lemma get_transcript_ends_at_first_failed_poll_witness :
  get_transcript Samples.flaky_job Scenario.repr_none 7
  = Progress 2 5 (Some (Raise Samples.gateway_error))
  ∧ get_transcript Samples.statusless_job Scenario.repr_none 7
    = Progress 2 5 (Some (Raise (KeyError (lit "status")))).
Proof.
  assert (Hp : ∀ job, job 0%nat = Ok (JObj [ (lit "status", JStr (lit "processing")) ]) →
               ∀ k, (k < 1)%nat → pending job k).
  { intros job Hj k Hk. assert (k = 0%nat) as -> by lia.
    by exists [ (lit "status", JStr (lit "processing")) ],
              (JStr (lit "processing")). }
  split.
  - apply (get_transcript_ends_at_first_failed_poll Samples.flaky_job
             Scenario.repr_none 1 (Hp _ eq_refl)); [reflexivity | lia].
  - apply (get_transcript_ends_at_first_failed_poll Samples.statusless_job
             Scenario.repr_none 1 (Hp _ eq_refl)
           ) with (d := [ (lit "message", JStr (lit "rate limited")) ]);
      [reflexivity | reflexivity | lia].
Defined.

Section Transcribe.

Variable read_file : pystr → result (list N).
Variable post_upload : list N → result json.
Variable post_transcript : json → result json.
Variable poll : json → nat → result json.
Variable repr : json → pystr.

(** X8. [transcribe] on a job that completes: the file's bytes are uploaded,
    the job is created for the URL the upload returned, and the job is
    polled under the id its creation returned. The call is running until
    the poll that completes, and then returns exactly four keys: the text of
    the job, and ["words"], ["utterances"], ["confidence"] with the defaults
    [[]], [[]] and [0] where the job gave none. A completed job without
    ["text"] makes it raise [KeyError]. *)
Theorem transcribe_completed_job
    file_path file_data upload_body audio_url job_body transcript_id n d :
  read_file file_path = Ok file_data →
  post_upload file_data = Ok (JObj upload_body) →
  dict_get (lit "upload_url") upload_body = Some audio_url →
  post_transcript
    (JObj [ (lit "audio_url", audio_url);
            (lit "speaker_labels", JBool true);
            (lit "auto_highlights", JBool true);
            (lit "punctuate", JBool true);
            (lit "format_text", JBool true) ]) = Ok (JObj job_body) →
  dict_get (lit "id") job_body = Some transcript_id →
  (∀ k, (k < n)%nat → pending (poll transcript_id) k) →
  delivers (poll transcript_id) n d (JStr (lit "completed")) →
  (∀ m, (m ≤ n)%nat →
     transcribe read_file post_upload post_transcript poll repr m file_path
     = None)
  ∧ (∀ m, (n < m)%nat →
       transcribe read_file post_upload post_transcript poll repr m file_path
       = Some match dict_get (lit "text") d with
              | Some text =>
                  Ok (JObj [ (lit "text", text);
                             (lit "words",
                               default (JArr []) (dict_get (lit "words") d));
                             (lit "utterances",
                               default (JArr []) (dict_get (lit "utterances") d));
                             (lit "confidence",
                               default (JInt 0) (dict_get (lit "confidence") d)) ])
              | None => Raise (KeyError (lit "text"))
              end).
Proof.
  intros Hread Hup Hurl Hjob Hid Hp Hd.
  destruct (ends_at (poll transcript_id) repr n (Ok (JObj d)) Hp
              (poll_once_completed _ repr n d Hd)) as [Hrun Hend].
  assert (Hu : upload_file read_file post_upload file_path = Ok audio_url).
  { unfold upload_file. rewrite Hread. cbn [mbind result_bind]. rewrite Hup.
    cbn [mbind result_bind getitem]. by rewrite Hurl. }
  assert (Hc : create_transcript post_transcript audio_url = Ok transcript_id).
  { unfold create_transcript. cbn zeta. rewrite Hjob.
    cbn [mbind result_bind getitem]. by rewrite Hid. }
  unfold transcribe. rewrite Hu, Hc. split.
  - intros m Hm. by rewrite Hrun.
  - intros m Hm. rewrite Hend by done. cbn [ended]. f_equal.
    unfold transcript_dict. cbn [getitem].
    by destruct (dict_get (lit "text") d).
Qed.

End Transcribe.

Lemma transcribe_completed_job_witness :
  transcribe Samples.read_file Samples.post_upload Samples.post_transcript
    Samples.poll Scenario.repr_none 3 (lit "uploads/1700000000.25.wav")
  = Some (Ok (JObj [ (lit "text", JStr Scenario.lecture_text);
                     (lit "words", JArr []);
                     (lit "utterances", JArr []);
                     (lit "confidence",
                       JFloat (S754_finite false 8106479329266893 (-53))) ])).
Proof.
  assert (Hp : ∀ k, (k < 2)%nat → pending (Samples.poll (JStr (lit "job-1"))) k).
  { intros k Hk. exists [ (lit "status", JStr (lit "processing")) ],
                        (JStr (lit "processing")).
    destruct k as [|[|k]]; [done | done | lia]. }
  destruct (transcribe_completed_job Samples.read_file Samples.post_upload
              Samples.post_transcript Samples.poll Scenario.repr_none
              (lit "uploads/1700000000.25.wav") [82; 73; 70; 70]%N
              Samples.upload_body
              (JStr (lit "https://cdn.assemblyai.com/upload/4f8e"))
              Samples.job_body (JStr (lit "job-1")) 2 Scenario.completed_body
              eq_refl eq_refl eq_refl eq_refl eq_refl Hp (conj eq_refl eq_refl))
    as [_ H].
  apply (H 3%nat). lia.
Defined.

End TranscriptionProps.

Module RunProps.
Import Py GeminiService Main Notes Run PyProps PipelineProps.

Arguments GeminiService.generate_notes : simpl never.
Arguments lit : simpl never.

Ltac run_steps :=
  cbv [mbind M_bind mret M_ret lift may_fail modify gets swallow
       notes_insert_one lectures_update_one os_remove os_path_exists unlink
       lectures_insert_one save_file put_file leave];
  cbn [fst snd lectures notes files].

Section Upload.

Variable json_loads : pystr → result json.
Variable ObjectId : pystr → result oid.
Variable oid_str : oid → pystr.
Variable E : env.

Abbreviation upload_lecture := (upload_lecture json_loads ObjectId oid_str E).
Abbreviation process := (process json_loads ObjectId E).
Abbreviation on_error := (on_error ObjectId E).

(** A run whose file is staged and whose record is inserted goes on with
    the [try] block from "Step 1", in the store that holds both. *)
Lemma upload_lecture_staged file title user_id w o :
  accepted file = true →
  open_fault E = None → write_fault E = None → inserted E = Ok o →
  upload_lecture file title user_id w
  = match process (staged_path E file) user_id (oid_str o)
            (World
               (lectures w
                ++ [lecture_doc E file title user_id o (lit "processing") None])
               (notes w)
               (<[staged_path E file := content file]> (files w))) with
    | (Raise e, w') =>
        leave (on_error (staged_path E file) (Some (oid_str o)) e) w'
    | (Ok body, w') => (Returned body, w')
    end.
Proof.
  intros [Ha1 Ha2]%accepted_passes Hopen Hwrite Hins.
  unfold Main.upload_lecture. rewrite Ha1, Ha2.
  rewrite save_file_ok, lectures_insert_one_outcome, Hins by done.
  cbn [lectures notes files]. by rewrite insert_insert_eq.
Qed.

Lemma remove_absent (p : pystr) (fs : gmap pystr (list N)) :
  fs !! p = None → delete p fs = fs.
Proof. apply delete_id. Qed.

(** The [try] block when every step goes through. *)
Lemma process_completed p user_id lecture_id o w td d :
  transcription E = Ok td →
  (generate_notes (provider E) json_loads (text td)).2 = Ok (JObj d) →
  note_fault E = None → ObjectId lecture_id = Ok o → completed_fault E = None →
  process p user_id lecture_id w
  = (Ok (completed_response lecture_id d),
     World (update_first o (set_status (lit "completed") None) (lectures w))
       (notes w ++ [note_doc E lecture_id user_id td (JObj d)])
       (match remove_fault E with
        | None => delete p (files w)
        | Some _ => files w
        end)).
Proof.
  intros Htr Hgen Hnote Hid Hc. unfold Main.process. run_steps.
  rewrite Htr, Hgen, Hnote, Hid, Hc. cbn [get_method files].
  destruct (remove_fault E); cbn; [reflexivity|].
  destruct (files w !! p) eqn:Hp; cbn; [reflexivity|].
  rewrite remove_absent by done. reflexivity.
Qed.

(** The [try] block returns only when every step went through. *)
Lemma process_returns p user_id lecture_id w body w' :
  process p user_id lecture_id w = (Ok body, w') →
  ∃ td d o,
    transcription E = Ok td
    ∧ (generate_notes (provider E) json_loads (text td)).2 = Ok (JObj d)
    ∧ note_fault E = None ∧ ObjectId lecture_id = Ok o
    ∧ completed_fault E = None.
Proof.
  unfold Main.process. run_steps.
  destruct (transcription E) as [td|e]; [|done].
  destruct (GeminiService.generate_notes (provider E) json_loads (text td))
    as [calls [sn|e]] eqn:Hg; cbn [snd]; [|done].
  assert (Hobj : is_object sn = true).
  { eapply (SynthesizerProps.generate_notes_returns_object (provider E) json_loads).
    by rewrite Hg. }
  destruct sn as [| | | | | |d]; try done. clear Hobj.
  destruct (note_fault E) as [e|]; [done|].
  destruct (ObjectId lecture_id) as [o|e]; [|done].
  destruct (completed_fault E) as [e|]; [done|].
  intros _. exists td, d, o. by rewrite Hg.
Qed.

(** A transcript shorter than 50 characters once trimmed stops the [try]
    block at "Step 2", with nothing written. *)
Lemma process_short_transcript p user_id lecture_id w td :
  transcription E = Ok td → len (strip (text td)) < 50 →
  process p user_id lecture_id w
  = (Raise (ValueError (lit "Transcript is too short or empty")), w).
Proof.
  intros Htr Hlen. unfold Main.process. run_steps. rewrite Htr.
  unfold GeminiService.generate_notes, _generate_notes_sync.
  apply Z.ltb_lt in Hlen. rewrite Hlen, orb_true_r. done.
Qed.

(** The handler when [lecture_id] is bound and its two calls go through. *)
Lemma on_error_failed p lecture_id o e w :
  ObjectId lecture_id = Ok o → failed_fault E = None → remove_fault E = None →
  leave (on_error p (Some lecture_id) e) w
  = (HTTPException 500 (exn_msg e),
     World
       (update_first o (set_status (lit "failed") (Some (exn_msg e))) (lectures w))
       (notes w) (delete p (files w))).
Proof.
  intros Hid Hf Hr. unfold Main.on_error. run_steps. rewrite Hid, Hf, Hr.
  cbn [files]. destruct (files w !! p) eqn:Hp; cbn; rewrite ?Hp; cbn; [done|].
  by rewrite remove_absent.
Qed.

Lemma fresh_inv lecture_id o w :
  fresh lecture_id o w = true →
  forallb (λ l, negb (has_id o l)) (lectures w) = true
  ∧ forallb (λ n, negb (str_eqb (note_lecture_id n) lecture_id)) (notes w) = true.
Proof. unfold fresh. by intros [? ?]%andb_prop. Qed.

Lemma update_new_doc file title user_id w o status error s err :
  forallb (λ l, negb (has_id o l)) (lectures w) = true →
  update_first o (set_status s err)
    (lectures w ++ [lecture_doc E file title user_id o status error])
  = lectures w
    ++ [lecture_doc E file title user_id o s
          (match err with Some x => Some x | None => error end)].
Proof.
  intros Hls. rewrite update_first_new; [done | done |].
  cbn. apply N.eqb_refl.
Qed.

(** X9. A request that fails one of the two checks is answered before
    anything is staged or stored: the store and the upload directory are as
    they were, whatever the outside world would have answered. The type is
    checked first: a file of a type not allowed gets status 400 with the
    five allowed types in the detail, also when it is too large; a file of
    an allowed type with more than 104,857,600 bytes gets status 413. *)
Theorem upload_lecture_rejects_before_staging file title user_id w :
  accepted file = false →
  upload_lecture file title user_id w
  = (if bool_decide (content_type file ∈ Some <$> ALLOWED_AUDIO_TYPES)
     then HTTPException 413 (lit "File too large. Maximum size: 100.0 MB")
     else HTTPException 400
            (lit "Invalid file type. Allowed: audio/mpeg, audio/wav, audio/mp4, audio/x-m4a, audio/webm"),
     w)
  ∧ (bool_decide (content_type file ∈ Some <$> ALLOWED_AUDIO_TYPES) = true →
     104857600 < len (content file)).
Proof.
  unfold accepted, Main.upload_lecture. intros H.
  assert (Hty : match content_type file with
                | Some c => existsb (str_eqb c) ALLOWED_AUDIO_TYPES
                | None => false
                end
                = bool_decide (content_type file ∈ Some <$> ALLOWED_AUDIO_TYPES)).
  { destruct (content_type file) as [c|].
    - destruct (existsb (str_eqb c) ALLOWED_AUDIO_TYPES) eqn:Hex; symmetry.
      + apply bool_decide_eq_true. apply existsb_exists in Hex as (x & Hx & Hcx).
        apply str_eqb_true in Hcx as ->. apply list_elem_of_fmap.
        exists x. split; [done|]. by apply list_elem_of_In.
      + apply bool_decide_eq_false. intros (x & [= ->] & Hx)%list_elem_of_fmap.
        assert (existsb (str_eqb x) ALLOWED_AUDIO_TYPES = true); [|congruence].
        apply existsb_exists. exists x. split; [by apply list_elem_of_In|].
        apply str_eqb_refl.
    - symmetry. apply bool_decide_eq_false.
      by intros (x & [=] & Hx)%list_elem_of_fmap. }
  rewrite Hty in *.
  destruct (bool_decide _); cbn [negb andb] in *.
  - apply negb_false_iff in H. rewrite H. split; [done|]. intros _.
    rewrite Z.gtb_ltb in H. apply Z.ltb_lt in H. exact H.
  - split; [|done]. by vm_compute.
Qed.

(** X10. A run whose transcript has fewer than 50 characters once trimmed
    ends Failed: the endpoint answers with status 500 and the synthesizer's
    message, the lecture record stays in the store with status "failed" and
    that message as its error, no note record is written, and the staged
    file is removed, though the record still names its path. *)
Theorem upload_lecture_short_transcript file title user_id w o td :
  accepted file = true →
  open_fault E = None → write_fault E = None →
  inserted E = Ok o → ObjectId (oid_str o) = Ok o →
  fresh (oid_str o) o w = true →
  transcription E = Ok td → len (strip (text td)) < 50 →
  failed_fault E = None → remove_fault E = None →
  upload_lecture file title user_id w
  = (HTTPException 500 (lit "Transcript is too short or empty"),
     World
       (lectures w
        ++ [lecture_doc E file title user_id o (lit "failed")
              (Some (lit "Transcript is too short or empty"))])
       (notes w)
       (delete (staged_path E file) (files w))).
Proof.
  intros Ha Hopen Hwrite Hins Hid [Hls Hns]%fresh_inv Htr Hlen Hf Hr.
  rewrite (upload_lecture_staged _ _ _ _ o) by done.
  rewrite (process_short_transcript _ _ _ _ td) by done.
  rewrite (on_error_failed _ _ o) by done.
  cbn [lectures notes files exn_msg ValueError].
  by rewrite update_new_doc, delete_insert_eq.
Qed.

(** X11. A run in which every step goes through: the endpoint returns the
    lecture id, the status "completed" and the title and summary of the
    notes; the lecture record is the one inserted, with status "completed";
    exactly one note record is appended, holding the whole transcript, its
    confidence, the number of its words and the notes; the staged file is
    removed, or left where it is when its removal is refused. *)
Theorem upload_lecture_completed_run file title user_id w o td d :
  accepted file = true →
  open_fault E = None → write_fault E = None →
  inserted E = Ok o → ObjectId (oid_str o) = Ok o →
  fresh (oid_str o) o w = true →
  transcription E = Ok td →
  (generate_notes (provider E) json_loads (text td)).2 = Ok (JObj d) →
  note_fault E = None → completed_fault E = None →
  upload_lecture file title user_id w
  = (Returned (completed_response (oid_str o) d),
     World
       (lectures w ++ [lecture_doc E file title user_id o (lit "completed") None])
       (notes w ++ [note_doc E (oid_str o) user_id td (JObj d)])
       (match remove_fault E with
        | None => delete (staged_path E file) (files w)
        | Some _ => <[staged_path E file := content file]> (files w)
        end)).
Proof.
  intros Ha Hopen Hwrite Hins Hid [Hls Hns]%fresh_inv Htr Hgen Hnote Hc.
  rewrite (upload_lecture_staged _ _ _ _ o) by done.
  rewrite (process_completed _ _ _ o _ td d) by done.
  cbn [lectures notes files]. rewrite update_new_doc by done.
  by destruct (remove_fault E); rewrite ?delete_insert_eq.
Qed.

(** X12. The failure of the generative provider does not fail the run: for
    a transcript of at least 50 characters once trimmed, when the provider
    raises, the run ends Completed, the note record holds the fallback
    notes made from the transcript and the provider's message, and the
    endpoint returns their title and summary. *)
Theorem upload_lecture_completes_on_provider_failure
    file title user_id w o td e :
  accepted file = true →
  open_fault E = None → write_fault E = None →
  inserted E = Ok o → ObjectId (oid_str o) = Ok o →
  fresh (oid_str o) o w = true →
  transcription E = Ok td → 50 ≤ len (strip (text td)) →
  provider E (request_for (_create_prompt (truncated (text td)))) = Raise e →
  note_fault E = None → completed_fault E = None → remove_fault E = None →
  upload_lecture file title user_id w
  = (Returned
       (JObj [ (lit "lecture_id", JStr (oid_str o));
               (lit "status", JStr (lit "completed"));
               (lit "message", JStr (lit "Notes generated successfully"));
               (lit "preview",
                 JObj [ (lit "title", JStr (lit "Lecture Notes (Auto-generated)"));
                        (lit "summary",
                          JStr (lit "Automatic transcription available. Manual review recommended. Error: "
                                ++ slice_to 100 (exn_msg e))) ]) ]),
     World
       (lectures w ++ [lecture_doc E file title user_id o (lit "completed") None])
       (notes w
        ++ [note_doc E (oid_str o) user_id td
              (_create_fallback_notes (truncated (text td)) (exn_msg e))])
       (delete (staged_path E file) (files w))).
Proof.
  intros Ha Hopen Hwrite Hins Hid [Hls Hns]%fresh_inv Htr Hlen He Hnote Hc Hr.
  rewrite (upload_lecture_staged _ _ _ _ o) by done.
  assert (Hgen : (generate_notes (provider E) json_loads (text td)).2
                 = Ok (_create_fallback_notes (truncated (text td)) (exn_msg e))).
  { rewrite SynthesizerProps.generate_notes_accepted by done. cbn [snd].
    by rewrite He. }
  unfold _create_fallback_notes in Hgen at 1.
  rewrite (process_completed _ _ _ o _ td _ Htr Hgen) by done.
  cbn [lectures notes files]. rewrite update_new_doc by done.
  by rewrite Hr, delete_insert_eq.
Qed.

(** The handler never lets the endpoint return a body. *)
Lemma on_error_never_returns p lecture_id e w body :
  (leave (on_error p lecture_id e) w).1 ≠ Returned body.
Proof.
  unfold Main.on_error. run_steps.
  destruct lecture_id as [id|].
  - destruct (ObjectId id) as [o|e1]; [|done].
    destruct (failed_fault E) as [e2|]; [done|]. cbn [files].
    destruct (files w !! p) eqn:Hp; cbn; [|done].
    destruct (remove_fault E) as [e3|]; [done|]. cbn. by rewrite Hp.
  - cbn [files]. destruct (files w !! p) eqn:Hp; cbn; [|done].
    destruct (remove_fault E) as [e3|]; [done|]. cbn. by rewrite Hp.
Qed.

(** When the endpoint returns a body, every step of the run went through. *)
Lemma upload_lecture_returned file title user_id w o body w' :
  inserted E = Ok o →
  upload_lecture file title user_id w = (Returned body, w') →
  ∃ td d o',
    transcription E = Ok td
    ∧ (generate_notes (provider E) json_loads (text td)).2 = Ok (JObj d)
    ∧ ObjectId (oid_str o) = Ok o'
    ∧ body = completed_response (oid_str o) d
    ∧ lectures w'
      = update_first o' (set_status (lit "completed") None)
          (lectures w
           ++ [lecture_doc E file title user_id o (lit "processing") None])
    ∧ notes w' = notes w ++ [note_doc E (oid_str o) user_id td (JObj d)].
Proof.
  intros Hins Hrun.
  destruct (accepted file) eqn:Ha.
  2:{ destruct (PipelineProps.upload_lecture_rejected json_loads ObjectId
                  oid_str E file title user_id w Ha) as [_ (c & dt & H)].
      by rewrite Hrun in H. }
  assert (Hsave : open_fault E = None ∧ write_fault E = None).
  { apply accepted_passes in Ha as [Ha1 Ha2]. revert Hrun.
    unfold Main.upload_lecture. rewrite Ha1, Ha2.
    destruct (open_fault E) as [e1|] eqn:Hopen.
    { unfold save_file. run_steps. rewrite Hopen. intros H.
      pose proof (on_error_never_returns
                    (os_path_join UPLOAD_DIR
                       (stamp E ++ splitext_ext (filename file)))
                    None e1 w body) as Hn.
      unfold leave in Hn. rewrite H in Hn. by destruct Hn. }
    destruct (write_fault E) as [e2|] eqn:Hwrite; [|done].
    unfold save_file. run_steps. rewrite Hopen, Hwrite. intros H.
    match type of H with
    | (let (_, _) := Main.on_error _ _ ?p None e2 ?w1 in _) = _ =>
        pose proof (on_error_never_returns p None e2 w1 body) as Hn
    end.
    unfold leave in Hn. rewrite H in Hn. by destruct Hn. }
  destruct Hsave as [Hopen Hwrite].
  rewrite (upload_lecture_staged _ _ _ _ o) in Hrun by done.
  destruct (process _ _ _ _) as [[body'|e] w3] eqn:Hp.
  2:{ pose proof (on_error_never_returns (staged_path E file)
                    (Some (oid_str o)) e w3 body) as Hn.
      rewrite Hrun in Hn. by destruct Hn. }
  injection Hrun as -> ->.
  destruct (process_returns _ _ _ _ _ _ Hp) as (td & d & o' & Htr & Hgen & Hnote & Hid & Hc).
  rewrite (process_completed _ _ _ o' _ td d) in Hp by done.
  injection Hp as <- <-. by exists td, d, o'.
Qed.

End Upload.

(** *** The notes and delete endpoints *)

Section Endpoints.

Variable json_loads : pystr → result json.
Variable ObjectId : pystr → result oid.
Variable oid_str : oid → pystr.

Lemma delete_first_new o ls l :
  forallb (λ l, negb (has_id o l)) ls = true → has_id o l = true →
  delete_first o (ls ++ [l]) = (ls, 1).
Proof.
  intros Hls Hl. induction ls as [|x ls IH]; simpl.
  - by rewrite Hl.
  - simpl in Hls. apply andb_prop in Hls as [Hx Hls].
    apply negb_true_iff in Hx as ->. by rewrite IH.
Qed.

Lemma other_notes_old lecture_id ns :
  forallb (λ n, negb (str_eqb (note_lecture_id n) lecture_id)) ns = true →
  filter (λ n, note_lecture_id n ≠ lecture_id) ns = ns.
Proof.
  induction ns as [|n ns IH]; [done|]. simpl.
  intros [Hn Hns]%andb_prop. apply negb_true_iff, str_eqb_false in Hn.
  rewrite filter_cons_True by done. by rewrite IH.
Qed.

Lemma delete_lecture_steps many_fault one_fault lecture_id w :
  delete_lecture ObjectId many_fault one_fault lecture_id w
  = match many_fault with
    | Some e => (HTTPException 500 (exn_msg e), w)
    | None =>
        let w1 := World (lectures w)
                    (filter (λ n, note_lecture_id n ≠ lecture_id) (notes w))
                    (files w) in
        match ObjectId lecture_id with
        | Raise e => (HTTPException 500 (exn_msg e), w1)
        | Ok o =>
            match one_fault with
            | Some e => (HTTPException 500 (exn_msg e), w1)
            | None =>
                if (delete_first o (lectures w)).2 =? 0
                then (HTTPException 500 (lit "404: Lecture not found"),
                      World (delete_first o (lectures w)).1 (notes w1) (files w))
                else (Returned deleted_response,
                      World (delete_first o (lectures w)).1 (notes w1) (files w))
            end
        end
    end.
Proof.
  unfold delete_lecture, notes_delete_many, lectures_delete_one.
  cbv [mbind M_bind mret M_ret lift may_fail modify gets].
  cbn [lectures notes files].
  destruct many_fault; [done|]. destruct (ObjectId lecture_id); [|done].
  destruct one_fault; [done|]. cbn [lectures notes files fst snd].
  by destruct (_ =? 0).
Qed.

(** X13. Uploading and then deleting: when a run of [upload_lecture] has
    returned its body, the body carries the id of the new lecture, and
    [delete_lecture] on that id answers that the lecture is deleted and
    leaves both collections as they were before the upload. The upload
    directory is not touched by the deletion. *)
Theorem upload_then_delete E file title user_id w o body w' :
  inserted E = Ok o → ObjectId (oid_str o) = Ok o →
  fresh (oid_str o) o w = true →
  Main.upload_lecture json_loads ObjectId oid_str E file title user_id w
  = (Returned body, w') →
  getitem body (lit "lecture_id") = Ok (JStr (oid_str o))
  ∧ delete_lecture ObjectId None None (oid_str o) w'
    = (Returned deleted_response, World (lectures w) (notes w) (files w')).
Proof.
  intros Hins Hid [Hls Hns]%fresh_inv Hrun.
  destruct (upload_lecture_returned json_loads ObjectId oid_str E _ _ _ _ _ _ _
              Hins Hrun)
    as (td & d & o' & Htr & Hgen & Hid' & -> & Hl & Hn).
  rewrite Hid in Hid'. injection Hid' as <-.
  split; [done|].
  rewrite update_new_doc in Hl by done.
  rewrite delete_lecture_steps, Hid. cbn zeta. cbn [notes lectures].
  rewrite Hl, Hn, delete_first_new by (done || (cbn; apply N.eqb_refl)).
  cbn [fst snd Z.eqb]. rewrite filter_app, other_notes_old by done.
  rewrite filter_cons_False by (cbn; tauto). by rewrite app_nil_r.
Qed.

Lemma delete_first_spec o ls :
  (∃ l, l ∈ ls ∧ has_id o l = true) →
  (delete_first o ls).2 = 1
  ∧ length ls = S (length (delete_first o ls).1)
  ∧ ∀ l, has_id o l = false → l ∈ (delete_first o ls).1 ↔ l ∈ ls.
Proof.
  induction ls as [|x ls IH]; intros (l & Hl & Hid).
  - by apply elem_of_nil in Hl.
  - simpl. destruct (has_id o x) eqn:Hx.
    + cbn. repeat split; try done.
      * intros H'. by apply list_elem_of_further.
      * intros [->|H']%elem_of_cons; [congruence | done].
    + assert (Hex : ∃ l, l ∈ ls ∧ has_id o l = true).
      { apply elem_of_cons in Hl as [->|Hl]; [congruence | by exists l]. }
      destruct (IH Hex) as (H1 & H2 & H3).
      destruct (delete_first o ls) as [ls' n]. cbn in *.
      repeat split; [done | by rewrite H2 | |].
      * intros [->|H']%elem_of_cons; [apply list_elem_of_here|].
        apply list_elem_of_further. by apply H3.
      * intros [->|H']%elem_of_cons; [apply list_elem_of_here|].
        apply list_elem_of_further. by apply H3.
Qed.

Lemma no_note_left lecture_id (ns : list note) :
  filter (λ n, note_lecture_id n = lecture_id)
    (filter (λ n, note_lecture_id n ≠ lecture_id) ns) = [].
Proof.
  induction ns as [|n ns IH]; [done|].
  destruct (decide (note_lecture_id n = lecture_id)) as [Hn|Hn].
  - rewrite (filter_cons_False (λ n, note_lecture_id n ≠ lecture_id))
      by (intros H; by apply H).
    done.
  - rewrite (filter_cons_True (λ n, note_lecture_id n ≠ lecture_id)) by done.
    by rewrite filter_cons_False.
Qed.

(** X14. Deleting a lecture that is stored: the endpoint answers that the
    lecture is deleted; exactly one lecture record is gone, and every
    record with another id is still there; no note record refers to the id
    any more, and the other note records are kept in their order; the
    upload directory is as it was. *)
Theorem delete_lecture_existing lecture_id o w :
  ObjectId lecture_id = Ok o →
  (∃ l, l ∈ lectures w ∧ has_id o l = true) →
  ∃ w',
    delete_lecture ObjectId None None lecture_id w
    = (Returned deleted_response, w')
    ∧ length (lectures w) = S (length (lectures w'))
    ∧ (∀ l, has_id o l = false → l ∈ lectures w' ↔ l ∈ lectures w)
    ∧ notes w' = filter (λ n, note_lecture_id n ≠ lecture_id) (notes w)
    ∧ note_count lecture_id w' = 0%nat
    ∧ files w' = files w.
Proof.
  intros Hid Hex. destruct (delete_first_spec o (lectures w) Hex) as (H1 & H2 & H3).
  rewrite delete_lecture_steps, Hid. cbn zeta. rewrite H1. cbn [Z.eqb].
  eexists. split; [reflexivity|]. cbn [lectures notes files].
  repeat split; try done.
  - by apply H3.
  - by apply H3.
  - unfold note_count. cbn [notes]. by rewrite no_note_left.
Qed.

(** X15. Deleting is not atomic: the note records go first. When the id is
    no valid [ObjectId], or the store fails on [delete_one], the endpoint
    answers with status 500 and the message of that failure, every lecture
    record is still there, and the note records that refer to the id are
    already deleted. *)
Theorem delete_lecture_not_atomic one_fault lecture_id w e :
  ObjectId lecture_id = Raise e
  ∨ (∃ o, ObjectId lecture_id = Ok o) ∧ one_fault = Some e →
  delete_lecture ObjectId None one_fault lecture_id w
  = (HTTPException 500 (exn_msg e),
     World (lectures w)
       (filter (λ n, note_lecture_id n ≠ lecture_id) (notes w))
       (files w)).
Proof.
  intros H. rewrite delete_lecture_steps. cbn zeta.
  destruct H as [-> | [[o ->] ->]]; done.
Qed.

Lemma head_filter_Some {A} (P : A → Prop) `{∀ x, Decision (P x)} l x :
  head (filter P l) = Some x →
  P x ∧ ∃ before after,
          l = before ++ x :: after ∧ Forall (λ y, ¬ P y) before.
Proof.
  induction l as [|y l IH]; [done|].
  destruct (decide (P y)) as [Hy|Hy].
  - rewrite filter_cons_True by done. intros [= ->]. split; [done|].
    by exists [], l.
  - rewrite filter_cons_False by done. intros Hx.
    destruct (IH Hx) as (Hp & before & after & -> & Hb). split; [done|].
    exists (y :: before), after. split; [done|]. by constructor.
Qed.

Lemma head_filter_None {A} (P : A → Prop) `{∀ x, Decision (P x)} l :
  head (filter P l) = None → filter P l = [].
Proof. by destruct (filter P l). Qed.

(** X16. [get_notes] reads and never writes: the store is as it was. It
    returns the first note record that refers to the lecture id. It never
    answers with status 404: when no note record refers to the id, the
    exception with status 404 raised inside the [try] block is caught by
    its handler, and the answer has status 500, as it has when the store
    fails. No exception other than an [HTTPException] leaves it. *)
Theorem get_notes_outcome find_fault lecture_id w :
  (get_notes find_fault lecture_id w).2 = w
  ∧ match (get_notes find_fault lecture_id w).1 with
    | Returned n =>
        find_fault = None ∧ note_lecture_id n = lecture_id
        ∧ ∃ before after,
            notes w = before ++ n :: after
            ∧ Forall (λ m, note_lecture_id m ≠ lecture_id) before
    | HTTPException status_code detail =>
        status_code = 500
        ∧ match find_fault with
          | Some e => detail = exn_msg e
          | None =>
              note_count lecture_id w = 0%nat
              ∧ detail = lit "404: Notes not found"
          end
    | Unhandled _ => False
    end.
Proof.
  unfold get_notes, notes_find_one.
  cbv [mbind M_bind mret M_ret lift may_fail gets].
  destruct find_fault as [e|]; [done|].
  destruct (head _) as [n|] eqn:Hh; cbn [fst snd].
  - split; [done|]. apply head_filter_Some in Hh as (Hn & Hb). done.
  - split; [done|]. split; [done|]. split; [|done].
    unfold note_count. by rewrite (head_filter_None _ _ Hh).
Qed.

(** X17. Uploading and then reading: when a run of [upload_lecture] has
    returned its body, [get_notes] on the id of the new lecture returns the
    note record of that run: the whole transcript, its confidence, the
    number of its words, and the notes the synthesizer returned. *)
Theorem upload_then_get_notes E file title user_id w o body w' :
  inserted E = Ok o → fresh (oid_str o) o w = true →
  Main.upload_lecture json_loads ObjectId oid_str E file title user_id w
  = (Returned body, w') →
  ∃ td structured_notes,
    transcription E = Ok td
    ∧ (generate_notes (provider E) json_loads (text td)).2 = Ok structured_notes
    ∧ get_notes None (oid_str o) w'
      = (Returned (note_doc E (oid_str o) user_id td structured_notes), w').
Proof.
  intros Hins [Hls Hns]%fresh_inv Hrun.
  destruct (upload_lecture_returned json_loads ObjectId oid_str E _ _ _ _ _ _ _
              Hins Hrun)
    as (td & d & o' & Htr & Hgen & Hid' & -> & Hl & Hn).
  exists td, (JObj d). split; [done|]. split; [done|].
  unfold get_notes, notes_find_one.
  cbv [mbind M_bind mret M_ret lift may_fail gets].
  rewrite Hn, filter_app, no_note_yet by done.
  by rewrite filter_cons_True.
Qed.

End Endpoints.

(** *** What a run leaves alone *)

Section Frame.

Variable json_loads : pystr → result json.
Variable ObjectId : pystr → result oid.
Variable oid_str : oid → pystr.
Variable E : env.

Lemma save_file_frame p bytes w q :
  q ≠ p → files (save_file E p bytes w).2 !! q = files w !! q.
Proof.
  intros Hq. unfold save_file. run_steps.
  destruct (open_fault E); [done|]. cbn.
  destruct (write_fault E); cbn; by rewrite ?lookup_insert_ne.
Qed.

Lemma process_frame p user_id lecture_id w r w' :
  Main.process json_loads ObjectId E p user_id lecture_id w = (r, w') →
  (∃ ns, notes w' = notes w ++ ns ∧ (length ns ≤ 1)%nat)
  ∧ (lectures w' = lectures w
     ∨ ∃ o, ObjectId lecture_id = Ok o
            ∧ lectures w'
              = update_first o (set_status (lit "completed") None) (lectures w))
  ∧ ∀ q, q ≠ p → files w' !! q = files w !! q.
Proof.
  assert (Hnil : ∀ ns : list note, ∃ ns', ns = ns ++ ns' ∧ (length ns' ≤ 1)%nat).
  { intros ns. exists []. rewrite app_nil_r. split; [done | simpl; lia]. }
  unfold Main.process. run_steps.
  destruct (transcription E) as [td|e]; [|by intros [= <- <-]; auto].
  destruct (GeminiService.generate_notes (provider E) json_loads (text td))
    as [calls [sn|e]]; cbn [snd]; [|by intros [= <- <-]; auto].
  destruct (note_fault E) as [e|]; [by intros [= <- <-]; auto|].
  destruct (ObjectId lecture_id) as [o|e];
    [|intros [= <- <-]; cbn; split; [by eexists [_]|auto]].
  destruct (completed_fault E) as [e|];
    [intros [= <- <-]; cbn; split; [by eexists [_]|auto]|].
  cbn [files notes lectures]. intros H.
  assert (Hw : notes w' = notes w ++ [Note lecture_id user_id (text td)
                 (confidence td) (len (split (text td))) sn (created_time E)
                 (edited_time E)]
               ∧ lectures w'
                 = update_first o (set_status (lit "completed") None) (lectures w)
               ∧ ∀ q, q ≠ p → files w' !! q = files w !! q).
  { destruct (remove_fault E) as [e'|]; cbn in H;
      [|destruct (files w !! p) eqn:Hp; cbn in H];
      (destruct (get_method sn (lit "title")); cbn in H;
         [destruct (get_method sn (lit "summary")); cbn in H|]);
      injection H as <- <-; cbn; repeat split; try done;
      intros q Hq; by rewrite lookup_delete_ne. }
  destruct Hw as (Hn & Hl & Hf). split; [by eexists [_]|]. split; [|done].
  right. by exists o.
Qed.

Lemma on_error_frame p lecture_id e w :
  notes (leave (Main.on_error ObjectId E p lecture_id e) w).2 = notes w
  ∧ (lectures (leave (Main.on_error ObjectId E p lecture_id e) w).2 = lectures w
     ∨ ∃ id o, lecture_id = Some id ∧ ObjectId id = Ok o
               ∧ lectures (leave (Main.on_error ObjectId E p lecture_id e) w).2
                 = update_first o (set_status (lit "failed") (Some (exn_msg e)))
                     (lectures w))
  ∧ ∀ q, q ≠ p →
      files (leave (Main.on_error ObjectId E p lecture_id e) w).2 !! q
      = files w !! q.
Proof.
  unfold Main.on_error. run_steps.
  destruct lecture_id as [id|].
  - destruct (ObjectId id) as [o|e1] eqn:Hid; [|cbn; auto].
    destruct (failed_fault E) as [e2|]; [cbn; auto|]. cbn [files].
    destruct (files w !! p) eqn:Hp; cbn;
      [destruct (remove_fault E) as [e3|]; cbn; rewrite ?Hp; cbn|].
    all: split; [done|]; split; [right; by exists id, o|].
    all: intros q Hq; by rewrite ?lookup_delete_ne.
  - cbn [files].
    destruct (files w !! p) eqn:Hp; cbn;
      [destruct (remove_fault E) as [e3|]; cbn; rewrite ?Hp; cbn|].
    all: split; [done|]; split; [by left|].
    all: intros q Hq; by rewrite ?lookup_delete_ne.
Qed.

(** X18. What a run of [upload_lecture] leaves alone, whatever fails in
    it: the note records of the store are kept, in their order, and at most
    one is appended; no file of the upload directory other than the staged
    one is written, changed or removed; and when the id the store gives is
    new to it and survives the conversion to a string and back, the lecture
    records of the store are kept as they are, in their order, and at most
    one is appended. *)
Theorem upload_lecture_frame file title user_id w :
  (∃ ns,
     notes (Main.upload_lecture json_loads ObjectId oid_str E
              file title user_id w).2 = notes w ++ ns
     ∧ (length ns ≤ 1)%nat)
  ∧ (∀ q, q ≠ staged_path E file →
       files (Main.upload_lecture json_loads ObjectId oid_str E
                file title user_id w).2 !! q = files w !! q)
  ∧ ((∀ o, inserted E = Ok o →
           ObjectId (oid_str o) = Ok o
           ∧ forallb (λ l, negb (has_id o l)) (lectures w) = true) →
     ∃ ls,
       lectures (Main.upload_lecture json_loads ObjectId oid_str E
                   file title user_id w).2 = lectures w ++ ls
       ∧ (length ls ≤ 1)%nat).
Proof.
  assert (Hnil : ∀ A (l : list A), ∃ l', l = l ++ l' ∧ (length l' ≤ 1)%nat).
  { intros A l. exists []. rewrite app_nil_r. split; [done | simpl; lia]. }
  destruct (accepted file) eqn:Ha.
  2:{ destruct (PipelineProps.upload_lecture_rejected json_loads ObjectId
                  oid_str E file title user_id w Ha) as [-> _]. auto. }
  apply accepted_passes in Ha as [Ha1 Ha2].
  unfold Main.upload_lecture, staged_path. rewrite Ha1, Ha2.
  set (p := os_path_join _ _).
  destruct (save_file_outcome E p (content file) w) as (Hl1 & Hn1 & _).
  pose proof (save_file_frame p (content file) w) as Hf1.
  destruct (save_file E p (content file) w) as [[[]|e1] w1]; cbn [snd] in *.
  2:{ destruct (on_error_frame p None e1 w1) as (Hn & [Hl|(id & o & [=] & _)] & Hf).
      rewrite Hn, Hn1, Hl, Hl1. repeat split; auto.
      intros q Hq. by rewrite Hf, Hf1. }
  rewrite lectures_insert_one_outcome.
  destruct (inserted E) as [o|e2] eqn:Hins.
  2:{ destruct (on_error_frame p None e2 w1) as (Hn & [Hl|(id & o & [=] & _)] & Hf).
      rewrite Hn, Hn1, Hl, Hl1. repeat split; auto.
      intros q Hq. by rewrite Hf, Hf1. }
  set (doc := Lecture (IdObject o) _ _ _ _ _ _ _ _).
  set (w2 := World _ _ _).
  assert (Hdoc : ∀ s err, has_id o (set_status s err doc) = true)
    by (intros; cbn; apply N.eqb_refl).
  destruct (Main.process json_loads ObjectId E p user_id (oid_str o) w2)
    as [r w3] eqn:Hp.
  destruct (process_frame _ _ _ _ _ _ Hp) as ((ns & Hn3 & Hlen) & Hl3 & Hf3).
  unfold w2 in Hn3, Hl3, Hf3.
  cbn [notes lectures files] in Hn3, Hl3, Hf3. rewrite Hn1 in Hn3.
  assert (Hlec3 : ObjectId (oid_str o) = Ok o
                  ∧ forallb (λ l, negb (has_id o l)) (lectures w) = true →
                  ∃ l, lectures w3 = lectures w ++ [l] ∧ has_id o l = true).
  { intros [Hid Hls].
    destruct Hl3 as [Hl3|(o' & Hid' & Hl3)]; rewrite Hl3, Hl1.
    - exists doc. split; [done|]. apply N.eqb_refl.
    - rewrite Hid in Hid'. injection Hid' as <-.
      rewrite update_first_new by (done || apply N.eqb_refl).
      by eexists. }
  destruct r as [body|e]; cbn [snd].
  - split; [by exists ns|]. split.
    + intros q Hq. by rewrite Hf3, Hf1.
    + intros Hfresh. destruct (Hlec3 (Hfresh o eq_refl)) as (l & -> & _).
      by exists [l].
  - destruct (on_error_frame p (Some (oid_str o)) e w3) as (Hn4 & Hl4 & Hf4).
    split; [rewrite Hn4; by exists ns|]. split.
    + intros q Hq. by rewrite Hf4, Hf3, Hf1.
    + intros Hfresh. destruct (Hlec3 (Hfresh o eq_refl)) as (l & Hl & Hidl).
      destruct (Hfresh o eq_refl) as [Hid Hls].
      destruct Hl4 as [->|(id & o' & [= <-] & Hid' & ->)]; rewrite Hl.
      * by exists [l].
      * rewrite Hid in Hid'. injection Hid' as <-.
        rewrite update_first_new by done. by eexists [_].
Qed.

End Frame.

(** *** The properties on concrete runs *)

Import Scenario Samples.

Lemma upload_lecture_rejects_before_staging_witness :
  Main.upload_lecture Scenario.json_loads ObjectId oid_str plain_run
    video None (lit "ada") library
  = (HTTPException 400
       (lit "Invalid file type. Allowed: audio/mpeg, audio/wav, audio/mp4, audio/x-m4a, audio/webm"),
     library).
Proof.
  apply (upload_lecture_rejects_before_staging Scenario.json_loads ObjectId
           oid_str plain_run video None (lit "ada") library).
  reflexivity.
Defined.

Lemma upload_lecture_short_transcript_witness :
  Main.upload_lecture Scenario.json_loads ObjectId oid_str mumble
    clip None (lit "ada") library
  = (HTTPException 500 (lit "Transcript is too short or empty"),
     World
       (lectures library
        ++ [lecture_doc mumble clip None (lit "ada") new_id (lit "failed")
              (Some (lit "Transcript is too short or empty"))])
       (notes library)
       (delete (staged_path mumble clip) (files library))).
Proof.
  apply (upload_lecture_short_transcript Scenario.json_loads ObjectId oid_str
           mumble clip None (lit "ada") library new_id
           (TranscriptData short_text (JInt 0)));
    reflexivity.
Defined.

Lemma upload_lecture_completed_run_witness :
  ∃ d,
    Main.upload_lecture Scenario.json_loads ObjectId oid_str plain_run
      clip None (lit "ada") library
    = (Returned (completed_response (oid_str new_id) d),
       World
         (lectures library
          ++ [lecture_doc plain_run clip None (lit "ada") new_id
                (lit "completed") None])
         (notes library
          ++ [note_doc plain_run (oid_str new_id) (lit "ada")
                (TranscriptData lecture_text
                   (JFloat (S754_finite false 8106479329266893 (-53))))
                (JObj d)])
         (delete (staged_path plain_run clip) (files library)))
    ∧ dict_get (lit "title") d = Some (JStr (lit "Untitled Lecture")).
Proof.
  eexists. split.
  - apply (upload_lecture_completed_run Scenario.json_loads ObjectId oid_str
             plain_run clip None (lit "ada") library new_id
             (TranscriptData lecture_text
                (JFloat (S754_finite false 8106479329266893 (-53)))));
      reflexivity.
  - reflexivity.
Defined.

Lemma upload_lecture_completes_on_provider_failure_witness :
  (Main.upload_lecture Scenario.json_loads ObjectId oid_str outage
     clip None (lit "ada") library).2
  = World
      (lectures library
       ++ [lecture_doc outage clip None (lit "ada") new_id (lit "completed") None])
      (notes library
       ++ [note_doc outage (oid_str new_id) (lit "ada")
             (TranscriptData lecture_text
                (JFloat (S754_finite false 8106479329266893 (-53))))
             (_create_fallback_notes lecture_text
                (lit "503 The model is overloaded"))])
      (delete (staged_path outage clip) (files library)).
Proof.
  rewrite (upload_lecture_completes_on_provider_failure Scenario.json_loads
             ObjectId oid_str outage clip None (lit "ada") library new_id
             (TranscriptData lecture_text
                (JFloat (S754_finite false 8106479329266893 (-53))))
             outage_error);
    first [reflexivity | by vm_compute].
Defined.

Lemma uploaded_returns : ∃ body, uploaded = (Returned body, uploaded.2).
Proof. eexists. vm_compute. reflexivity. Qed.

Lemma upload_then_delete_witness :
  delete_lecture ObjectId None None (oid_str new_id) uploaded.2
  = (Returned deleted_response,
     World (lectures library) (notes library) (files uploaded.2)).
Proof.
  destruct uploaded_returns as [body Hrun].
  apply (upload_then_delete Scenario.json_loads ObjectId oid_str plain_run
           clip None (lit "ada") library new_id body uploaded.2
           eq_refl eq_refl eq_refl Hrun).
Defined.

Lemma delete_lecture_existing_witness :
  ∃ w',
    delete_lecture ObjectId None None (oid_str 1%N) stored_world
    = (Returned deleted_response, w')
    ∧ lectures w' = [] ∧ notes w' = [ old_note (oid_str new_id) ].
Proof.
  destruct (delete_lecture_existing ObjectId (oid_str 1%N) 1%N stored_world
              eq_refl)
    as (w' & Hd & Hlen & _ & Hn & _).
  { exists (old_lecture 1%N 1699990000). split; [apply list_elem_of_here | done]. }
  exists w'. split; [done|]. split; [|by rewrite Hn].
  destruct (lectures w'); [done|]. simpl in Hlen. lia.
Defined.

Lemma delete_lecture_not_atomic_witness :
  delete_lecture ObjectId None None week_one
    (World [ old_lecture 1%N 1699990000 ] [ old_note week_one ] ∅)
  = (HTTPException 500 (exn_msg invalid_id),
     World [ old_lecture 1%N 1699990000 ] [] ∅).
Proof.
  rewrite (delete_lecture_not_atomic ObjectId None week_one _ invalid_id).
  - reflexivity.
  - left. reflexivity.
Defined.

Lemma upload_then_get_notes_witness :
  ∃ td structured_notes,
    transcription plain_run = Ok td
    ∧ (generate_notes (provider plain_run) Scenario.json_loads (text td)).2
      = Ok structured_notes
    ∧ get_notes None (oid_str new_id) uploaded.2
      = (Returned
           (note_doc plain_run (oid_str new_id) (lit "ada") td structured_notes),
         uploaded.2).
Proof.
  destruct uploaded_returns as [body Hrun].
  apply (upload_then_get_notes Scenario.json_loads ObjectId oid_str plain_run
           clip None (lit "ada") library new_id body uploaded.2
           eq_refl eq_refl Hrun).
Defined.

End RunProps.

Module BudgetProps.
Import Py GeminiService PyProps SynthesizerProps.

(** X19. What stands after the first 30,000 characters of a transcript has
    no part in the outcome: two accepted transcripts longer than that which
    agree on their first 30,000 characters send the same request and get the
    same notes, also when these are the fallback notes with their preview. *)
Theorem generate_notes_ignores_text_beyond_budget
    (generate_content : request → result pystr)
    (json_loads : pystr → result json) (t1 t2 : pystr) :
  30000 < len t1 → 30000 < len t2 →
  slice_to 30000 t1 = slice_to 30000 t2 →
  50 ≤ len (strip t1) → 50 ≤ len (strip t2) →
  generate_notes generate_content json_loads t1
  = generate_notes generate_content json_loads t2.
Proof.
  intros H1 H2 Heq Hs1 Hs2.
  assert (Ht : truncated t1 = truncated t2).
  { unfold truncated, max_chars.
    apply Z.ltb_lt in H1, H2. rewrite <-Z.gtb_ltb in H1, H2.
    by rewrite H1, H2, Heq. }
  rewrite !generate_notes_accepted by done. by rewrite Ht.
Qed.

Lemma len_long_text tail : len (Samples.long_text tail) = 30000 + len tail.
Proof.
  unfold Samples.long_text, len. rewrite length_app, length_replicate. lia.
Qed.

Lemma slice_long_text tail :
  slice_to 30000 (Samples.long_text tail) = replicate (Z.to_nat 30000) 97%N.
Proof.
  unfold slice_to, Samples.long_text. apply take_app_length'.
  by rewrite length_replicate.
Qed.

Lemma lstrip_nonspace c s : isspace c = false → lstrip (c :: s) = c :: s.
Proof. intros H. simpl. by rewrite H. Qed.

(** Text that neither starts nor ends with whitespace is its own [strip]. *)
Lemma strip_nothing c s c' :
  isspace c = false → isspace c' = false →
  strip (c :: s ++ [c']) = c :: s ++ [c'].
Proof.
  intros Hc Hc'. unfold strip, rstrip. rewrite lstrip_nonspace by done.
  change (c :: s ++ [c']) with ((c :: s) ++ [c']).
  rewrite rev_unit, lstrip_nonspace by done.
  change (rev (c' :: rev (c :: s))) with (rev (rev (c :: s)) ++ [c']).
  by rewrite rev_involutive.
Qed.

Lemma strip_long_text tail tail' c :
  tail = tail' ++ [c] → isspace c = false →
  strip (Samples.long_text tail) = Samples.long_text tail.
Proof.
  intros -> Hc. unfold Samples.long_text.
  assert (Z.to_nat 30000 = S (Z.to_nat 29999)) as -> by lia.
  rewrite replicate_S, app_assoc, <-app_comm_cons.
  by apply strip_nothing.
Qed.

Lemma generate_notes_ignores_text_beyond_budget_witness :
  generate_notes Scenario.provider_down Scenario.json_loads
    (Samples.long_text (lit " and so on"))
  = generate_notes Scenario.provider_down Scenario.json_loads
      (Samples.long_text (lit " and then something else")).
Proof.
  apply (generate_notes_ignores_text_beyond_budget Scenario.provider_down
           Scenario.json_loads (Samples.long_text (lit " and so on"))
           (Samples.long_text (lit " and then something else"))).
  - rewrite len_long_text. by vm_compute.
  - rewrite len_long_text. by vm_compute.
  - by rewrite !slice_long_text.
  - rewrite (strip_long_text (lit " and so on") (lit " and so o") 110%N
               eq_refl eq_refl), len_long_text.
    by vm_compute.
  - rewrite (strip_long_text (lit " and then something else")
               (lit " and then something els") 101%N eq_refl eq_refl),
      len_long_text.
    by vm_compute.
Defined.

(** X20. The fallback notes need no repair: [_validate_notes_structure]
    returns them as they are, for every transcript and error message. *)
Theorem fallback_notes_are_valid transcript error_msg :
  _validate_notes_structure (_create_fallback_notes transcript error_msg)
  = Ok (_create_fallback_notes transcript error_msg).
Proof. reflexivity. Qed.

End BudgetProps.

Module ListingProps.
Import Py GeminiService Main Run PyProps PipelineProps RunProps.

Section Listing.

Variable json_loads : pystr → result json.
Variable ObjectId : pystr → result oid.
Variable oid_str : oid → pystr.

Lemma filter_user_snoc user_id (ls : list lecture) l :
  lec_user_id l = user_id →
  filter (λ l, lec_user_id l = user_id) (ls ++ [l])
  = filter (λ l, lec_user_id l = user_id) ls ++ [l].
Proof. intros H. by rewrite filter_app, filter_cons_True. Qed.

(** X21. Uploading and then listing: when a run of [upload_lecture] has
    returned its body and the user had fewer than 100 lectures before, the
    listing of that user's lectures has one record more than before, and
    the new one is in it: under the id the upload returned, as a string,
    with the status "completed", the title given (or the file name when
    none was given), and without its file path. *)
Theorem upload_then_listing E file title user_id w o body w' :
  inserted E = Ok o → ObjectId (oid_str o) = Ok o →
  fresh (oid_str o) o w = true →
  Main.upload_lecture json_loads ObjectId oid_str E file title user_id w
  = (Returned body, w') →
  (length (filter (λ l, lec_user_id l = user_id) (lectures w)) < 100)%nat →
  ∃ listing,
    get_user_lectures oid_str None user_id w' = (Returned listing, w')
    ∧ length listing
      = S (length (filter (λ l, lec_user_id l = user_id) (lectures w)))
    ∧ Lecture (IdStr (oid_str o)) user_id (title_or_filename title file)
        (filename file) (upload_time E) (lit "completed")
        (len (content file)) None None ∈ listing.
Proof.
  intros Hins Hid [Hls Hns]%fresh_inv Hrun Hfew.
  destruct (upload_lecture_returned json_loads ObjectId oid_str E _ _ _ _ _ _ _
              Hins Hrun)
    as (td & d & o' & Htr & Hgen & Hid' & -> & Hl & Hn).
  rewrite Hid in Hid'. injection Hid' as <-.
  rewrite update_new_doc in Hl by done.
  set (doc := lecture_doc E file title user_id o (lit "completed") None) in Hl.
  set (found := merge_sort newest_first
                  (filter (λ l, lec_user_id l = user_id) (lectures w'))).
  assert (Hperm : found ≡ₚ filter (λ l, lec_user_id l = user_id) (lectures w)
                            ++ [doc]).
  { unfold found. rewrite merge_sort_Permutation, Hl.
    by rewrite filter_user_snoc. }
  assert (Hlen : length found
                 = S (length (filter (λ l, lec_user_id l = user_id) (lectures w)))).
  { rewrite Hperm, length_app. simpl. lia. }
  exists (publish oid_str <$> found). split.
  - unfold get_user_lectures, lectures_find.
    cbv [mbind M_bind mret M_ret may_fail gets].
    fold found. rewrite take_ge by lia. done.
  - split; [by rewrite length_fmap|].
    apply list_elem_of_fmap. exists doc. split; [done|].
    rewrite Hperm. apply elem_of_app. right. apply list_elem_of_here.
Qed.

End Listing.

Lemma upload_then_listing_witness :
  ∃ listing,
    get_user_lectures Scenario.oid_str None (lit "ada") Samples.uploaded.2
    = (Returned listing, Samples.uploaded.2)
    ∧ length listing = 2%nat
    ∧ Lecture (IdStr (Scenario.oid_str Scenario.new_id)) (lit "ada")
        (lit "lecture01.wav") (lit "lecture01.wav") 1700000000
        (lit "completed") 4 None None ∈ listing.
Proof.
  destruct uploaded_returns as [body Hrun].
  apply (upload_then_listing Scenario.json_loads Scenario.ObjectId
           Scenario.oid_str Samples.plain_run Scenario.clip None (lit "ada")
           Samples.library Scenario.new_id body Samples.uploaded.2
           eq_refl eq_refl eq_refl Hrun).
  vm_compute. lia.
Defined.

End ListingProps.
